(** * Medical record intake backend: authentication, role gate and resource routes

    A shallow embedding of the Express backend (middleware/auth.js,
    middleware/validation.js, routes/auth.js, routes/patients.js,
    routes/symptoms.js, routes/upload.js) over a model of the Supabase
    collaborator: five tables as lists of rows and one bucket as a finite map
    from storage keys to blobs.  A handler is a function from the request and
    the collaborator's state to a response and the next state. *)

From stdpp Require Import base decidable option list strings pretty sorting infinite gmap.
From Stdlib Require Import ZArith QArith Qround.

Local Open Scope Z_scope.

(** ** JavaScript idioms used by the routes *)

(** [s.split(sep)] for a separator of one character. *)
Fixpoint split (sep : Ascii.ascii) (s : string) : list string :=
  match s with
  | EmptyString => [EmptyString]
  | String c rest =>
      if decide (c = sep) then EmptyString :: split sep rest
      else match split sep rest with
           | [] => [String c EmptyString]
           | piece :: pieces => String c piece :: pieces
           end
  end.

Definition space : Ascii.ascii := Ascii.ascii_of_nat 32.
Definition comma : Ascii.ascii := Ascii.ascii_of_nat 44.

(** Truthiness of a value that is a string or [undefined] ([None]). *)
Definition truthy (v : option string) : bool :=
  match v with
  | Some s => negb (String.eqb s "")
  | None => false
  end.

(** [v || d] on strings. *)
Definition or_string (v : option string) (d : string) : string :=
  if truthy v then default d v else d.

(** [v || d] on numbers, [None] standing for [NaN] (or [null]). *)
Definition or_number (v : option Z) (d : Z) : Z :=
  match v with
  | Some n => if n =? 0 then d else n
  | None => d
  end.

(** [Math.ceil(a / b)]. *)
Definition ceil_div (a b : Z) : Z := Qceiling (inject_Z a / inject_Z b).

(** ** The tables of database/schema.sql *)

Module Personnel.
Record row := mk {
  id : string;
  email : string;
  password_hash : string;
  first_name : string;
  last_name : string;
  role : string;
  license_number : option string;
  is_active : bool;
  created_at : Z;
  last_login : option Z
}.
End Personnel.

(** The object a [select(columns)] on medical_personnel yields: a column
    that was not selected is missing from the object, and reading it gives
    [undefined], here [None]. *)
Module User.
Record object := mk {
  id : option string;
  email : option string;
  password_hash : option string;
  first_name : option string;
  last_name : option string;
  role : option string;
  license_number : option string;
  is_active : option bool;
  created_at : option Z;
  last_login : option Z
}.
End User.

Module Patient.
Record row := mk {
  id : string;
  first_name : string;
  last_name : string;
  date_of_birth : string;
  gender : string;
  phone_number : option string;
  email : option string;
  address : option string;
  medical_history : option string;
  is_deleted : bool;
  created_by : option string;
  created_at : Z;
  updated_at : option Z;
  updated_by : option string;
  deleted_at : option Z;
  deleted_by : option string
}.
End Patient.

Module Symptom.
Record row := mk {
  id : string;
  patient_id : string;
  name : string;
  severity : string;
  duration : option string;
  notes : option string;
  recorded_by : option string;
  recorded_at : Z;
  updated_at : option Z;
  updated_by : option string
}.
End Symptom.

Module Session.
Record row := mk {
  id : string;
  patient_id : string;
  notes : option string;
  recorded_by : option string;
  recorded_at : Z
}.
End Session.

Module Xray.
Record row := mk {
  id : string;
  patient_id : string;
  file_name : string;
  file_path : string;
  file_size : Z;
  mime_type : string;
  image_type : string;
  body_part : string;
  notes : option string;
  public_url : string;
  uploaded_by : option string;
  uploaded_at : Z;
  updated_at : option Z;
  updated_by : option string
}.
End Xray.

(** A stored object of the bucket: the buffer, its content type and the
    descriptive tags the upload attaches. *)
Module Blob.
Record t := mk {
  buffer : string;
  contentType : string;
  originalName : string;
  uploadedBy : option string;
  patientId : string;
  imageType : string;
  bodyPart : string
}.
End Blob.

(** ** The Supabase collaborator *)

Record World := {
  medical_personnel : list Personnel.row;
  patients : list Patient.row;
  symptoms : list Symptom.row;
  symptom_sessions : list Session.row;
  xray_images : list Xray.row;
  bucket : gmap string Blob.t   (* XRAY_BUCKET = 'xray-images' *)
}.

Inductive Table :=
  T_medical_personnel | T_patients | T_symptoms | T_symptom_sessions | T_xray_images.

(** The remote calls a handler issues. *)
Inductive Call :=
| Select (t : Table)
| Insert (t : Table)
| Update (t : Table)
| Delete (t : Table)
| StorageUpload
| StorageRemove.

(** Which calls of the current request the collaborator fails for a reason
    the tables do not determine (connectivity, a constraint that is not
    modelled), one answer per kind of call.  A failed call has no effect and
    reports an error. *)
Definition Faults := Call → bool.

Definition no_faults : Faults := λ _, false.

Inductive ApiError :=
| Unavailable        (* the call failed *)
| NotSingleRow       (* [.single()] over zero or several rows *)
| UniqueViolation    (* UNIQUE or PRIMARY KEY constraint *)
| AlreadyExists.     (* storage key taken, upload without upsert *)

(** The [{ data, error }] pair every call resolves to. *)
Record Reply (A : Type) := reply { data : option A; error : option ApiError }.
Arguments reply {A} _ _.
Arguments data {A} _.
Arguments error {A} _.

Definition ok {A} (a : A) : Reply A := reply (Some a) None.
Definition failed {A} (e : ApiError) : Reply A := reply None (Some e).

(** A query that returns all the rows it matches. *)
Definition many {A} (F : Faults) (c : Call) (rows : list A) : Reply (list A) :=
  if F c then failed Unavailable else ok rows.

(** [.single()] after a query: exactly one row, or an error. *)
Definition single_of {A} (r : Reply (list A)) : Reply A :=
  match error r, data r with
  | Some e, _ => failed e
  | None, Some [row] => ok row
  | None, _ => failed NotSingleRow
  end.

Definition single {A} (F : Faults) (c : Call) (rows : list A) : Reply A :=
  single_of (many F c rows).

(** [.range(from, to)], both ends included, over the rows in order: the
    rows at positions [from .. to] that exist. *)
Definition range {A} (from to : Z) (rows : list A) : list A :=
  take (Z.to_nat (to - from + 1)) (drop (Z.to_nat from) rows).

(** [uuid_generate_v4()]: an id that no row of the table carries. *)
Definition uuid_generate_v4 (taken : list string) : string := fresh taken.

(** [select(columns)] on a medical_personnel row. *)
Definition select_columns (columns : list string) (r : Personnel.row) : User.object :=
  let col {A} (name : string) (v : A) : option A :=
    if decide (name ∈ columns) then Some v else None in
  {| User.id := col "id" (Personnel.id r);
     User.email := col "email" (Personnel.email r);
     User.password_hash := col "password_hash" (Personnel.password_hash r);
     User.first_name := col "first_name" (Personnel.first_name r);
     User.last_name := col "last_name" (Personnel.last_name r);
     User.role := col "role" (Personnel.role r);
     User.license_number := col "license_number" (Personnel.license_number r) ≫= id;
     User.is_active := col "is_active" (Personnel.is_active r);
     User.created_at := col "created_at" (Personnel.created_at r);
     User.last_login := col "last_login" (Personnel.last_login r) ≫= id |}.

(** ** Libraries and runtime the routes call into *)

(** The payload the routes sign into a token, and read back as [decoded]. *)
Module Claims.
Record t := mk {
  userId : option string;
  email : option string;
  role : option string
}.
End Claims.

(** [jwt.verify] returns the decoded payload or throws an error with a
    [name]. *)
Inductive Verified :=
| Decoded (payload : Claims.t)
| Throws (name : string).

(** jsonwebtoken, bcryptjs, express-validator's sanitizers, the JavaScript
    built-ins, PostgREST's filter syntax and the storage client, none of which
    is code of the repository. *)
Class Platform := {
  JWT_SECRET : string;                                   (* process.env.JWT_SECRET *)
  MAX_FILE_SIZE : option string;                         (* process.env.MAX_FILE_SIZE *)
  ALLOWED_FILE_TYPES : option string;                    (* process.env.ALLOWED_FILE_TYPES *)
  jwt_verify : string → string → Verified;               (* jwt.verify(token, secret) *)
  jwt_sign : Claims.t → string → string → Z → string;    (* jwt.sign(payload, secret, { expiresIn }) at an instant *)
  bcrypt_hash : string → Z → string → string;            (* bcrypt.hash(password, saltRounds), by salt *)
  bcrypt_compare : string → string → bool;               (* bcrypt.compare(password, hash) *)
  parseInt : string → option Z;                          (* None is NaN *)
  normalizeEmail : string → string;                      (* express-validator's .normalizeEmail(), on an address .isEmail() accepts *)
  validator_trim : string → string;                      (* express-validator's .trim() *)
  extname : string → string;                             (* path.extname *)
  getPublicUrl : string → string;                        (* storage.from(bucket).getPublicUrl(path) *)
  or_ilike : string → Patient.row → bool                 (* the .or(...ilike...) filter of the patient list *)
}.

(** What the runtime hands to one request. *)
Record Env := {
  now : Z;              (* new Date() *)
  thirtyDaysAgo : Z;    (* new Date() after setDate(getDate() - 30) *)
  salt : string;        (* the salt bcrypt draws *)
  uuidv4 : string       (* uuidv4() *)
}.

(** ** Requests and responses *)

(** [req.user], as the auth middleware attaches it. *)
Module ReqUser.
Record t := mk {
  id : option string;
  email : option string;
  role : option string
}.
End ReqUser.

(** One entry of [errors.array()]. *)
Record FieldError := { field : string; msg : string; value : option string }.

Record Query := {
  page : option string;
  limit : option string;
  search : option string
}.

(** The uploaded part, [req.file]. *)
Module File.
Record t := mk {
  originalname : string;
  mimetype : string;
  size : Z;
  buffer : string
}.
End File.

Record Request (B : Type) := {
  authorization : option string;     (* req.headers['authorization'] *)
  user : option ReqUser.t;           (* req.user *)
  params_id : string;                (* req.params.id *)
  query : Query;                     (* req.query *)
  body : B;                          (* req.body *)
  validation : list FieldError;      (* validationResult(req), once the route's validators ran *)
  part : option File.t;              (* the multipart part named 'image', as sent *)
  file : option File.t               (* req.file, once multer accepted the part *)
}.
Arguments authorization {B} _.
Arguments user {B} _.
Arguments params_id {B} _.
Arguments query {B} _.
Arguments body {B} _.
Arguments validation {B} _.
Arguments part {B} _.
Arguments file {B} _.

Definition with_user {B} (req : Request B) (u : ReqUser.t) : Request B :=
  {| authorization := authorization req; user := Some u; params_id := params_id req;
     query := query req; body := body req; validation := validation req;
     part := part req; file := file req |}.

(** The request after a sanitizer wrote into [req.body], or into
    [req.query]. *)
Definition with_body {B} (req : Request B) (b : B) : Request B :=
  {| authorization := authorization req; user := user req; params_id := params_id req;
     query := query req; body := b; validation := validation req;
     part := part req; file := file req |}.

Definition with_query {B} (req : Request B) (q : Query) : Request B :=
  {| authorization := authorization req; user := user req; params_id := params_id req;
     query := q; body := body req; validation := validation req;
     part := part req; file := file req |}.

Definition with_file {B} (req : Request B) (f : File.t) : Request B :=
  {| authorization := authorization req; user := user req; params_id := params_id req;
     query := query req; body := body req; validation := validation req;
     part := part req; file := Some f |}.

Record UserJson := {
  uj_id : option string;
  uj_email : option string;
  uj_firstName : option string;
  uj_lastName : option string;
  uj_role : option string;
  uj_licenseNumber : option string;
  uj_createdAt : option Z
}.

Record PersonnelRef := {
  pr_firstName : string;
  pr_lastName : string;
  pr_role : string
}.

Record PatientJson := {
  pj_id : string;
  pj_firstName : string;
  pj_lastName : string;
  pj_dateOfBirth : string;
  pj_gender : string;
  pj_phoneNumber : option string;
  pj_email : option string;
  pj_address : option string;
  pj_medicalHistory : option string;
  pj_createdAt : option Z;
  pj_createdBy : option string;
  pj_updatedAt : option Z;
  pj_updatedBy : option string;
  pj_createdByUser : option PersonnelRef
}.

Record Pagination := {
  currentPage : Z;
  totalPages : Z;
  totalCount : Z;
  pg_limit : Z;
  hasNext : bool;
  hasPrev : bool
}.

Record PatientRef := {
  ref_id : string;
  ref_firstName : string;
  ref_lastName : string
}.

Record SymptomJson := {
  sj_id : string;
  sj_name : string;
  sj_severity : string;
  sj_duration : option string;
  sj_notes : option string;
  sj_recordedAt : Z
}.

Record SymptomUpdateJson := {
  sm_id : string;
  sm_name : string;
  sm_severity : string;
  sm_duration : option string;
  sm_notes : option string;
  sm_updatedAt : option Z;
  sm_updatedBy : option string
}.

Record SessionJson := {
  ss_id : string;
  ss_notes : option string;
  ss_recordedAt : Z
}.

Record ImageJson := {
  ij_id : string;
  ij_fileName : string;
  ij_filePath : option string;
  ij_fileSize : option Z;
  ij_mimeType : option string;
  ij_imageType : string;
  ij_bodyPart : string;
  ij_notes : option string;
  ij_publicUrl : option string;
  ij_uploadedAt : option Z;
  ij_uploadedBy : option string;
  ij_updatedAt : option Z;
  ij_updatedBy : option string
}.

Record Stats := {
  totalPatients : Z;
  genderDistribution : gmap string Z;
  recentPatients : Z;
  lastUpdated : Z
}.

Inductive Body :=
| ErrorBody (error message : string)
| ValidationBody (error message : string) (details : list FieldError)
| AccountBody (message : string) (account : UserJson) (token : string)
| PatientBody (message : option string) (patient : PatientJson)
| PatientsBody (listed : list PatientJson) (pagination : Pagination)
| NoteBody (message note : string)
| StatsBody (stats : Stats)
| SymptomsBody (message : string) (patient : PatientRef)
    (recorded : list SymptomJson) (session : option SessionJson)
| SymptomBody (message : string) (symptom : SymptomUpdateJson)
| ImageBody (message : string) (image : ImageJson) (patient : option PatientRef)
| MessageBody (message : string).

(** Errors that reach [next(err)] instead of a handler's response. *)
Inductive UploadError :=
| LIMIT_FILE_SIZE                       (* multer's error code for a part over limits.fileSize *)
| InvalidFileType (message : string).   (* the Error the fileFilter passes to its callback *)

Inductive Response :=
| Json (status : Z) (payload : Body)    (* res.status(status).json(payload) *)
| NextError (err : UploadError).        (* next(err): handed to the application's error handler *)

(** A middleware either ends the request or calls [next()]. *)
Inductive Outcome (B : Type) :=
| Respond (r : Response)
| Next (req : Request B).
Arguments Respond {B} _.
Arguments Next {B} _.

(** A handler ends the request and leaves the collaborator in a new state. *)
Definition Handler (B : Type) := Request B → World → Response * World.

(** [router.use(m)] or a middleware listed before the handler: the handler
    runs when [m] calls [next()]. *)
Definition guard {B} (m : Request B → World → Outcome B) (h : Handler B) : Handler B :=
  λ req w,
    match m req w with
    | Respond r => (r, w)
    | Next req' => h req' w
    end.

(** ** Writes to the collaborator *)

Definition set_medical_personnel (rows : list Personnel.row) (w : World) : World :=
  {| medical_personnel := rows; patients := patients w; symptoms := symptoms w;
     symptom_sessions := symptom_sessions w; xray_images := xray_images w;
     bucket := bucket w |}.

Definition set_patients (rows : list Patient.row) (w : World) : World :=
  {| medical_personnel := medical_personnel w; patients := rows; symptoms := symptoms w;
     symptom_sessions := symptom_sessions w; xray_images := xray_images w;
     bucket := bucket w |}.

Definition set_symptoms (rows : list Symptom.row) (w : World) : World :=
  {| medical_personnel := medical_personnel w; patients := patients w; symptoms := rows;
     symptom_sessions := symptom_sessions w; xray_images := xray_images w;
     bucket := bucket w |}.

Definition set_symptom_sessions (rows : list Session.row) (w : World) : World :=
  {| medical_personnel := medical_personnel w; patients := patients w;
     symptoms := symptoms w; symptom_sessions := rows; xray_images := xray_images w;
     bucket := bucket w |}.

Definition set_xray_images (rows : list Xray.row) (w : World) : World :=
  {| medical_personnel := medical_personnel w; patients := patients w;
     symptoms := symptoms w; symptom_sessions := symptom_sessions w; xray_images := rows;
     bucket := bucket w |}.

Definition set_bucket (objects : gmap string Blob.t) (w : World) : World :=
  {| medical_personnel := medical_personnel w; patients := patients w;
     symptoms := symptoms w; symptom_sessions := symptom_sessions w;
     xray_images := xray_images w; bucket := objects |}.

(** [from('medical_personnel').insert(values)]: the table fills [id]; the
    email column is UNIQUE. *)
Definition insert_personnel (F : Faults) (values : string → Personnel.row) (w : World)
  : Reply Personnel.row * World :=
  let row := values (uuid_generate_v4 (Personnel.id <$> medical_personnel w)) in
  if F (Insert T_medical_personnel) then (failed Unavailable, w)
  else if bool_decide (Personnel.email row ∈ Personnel.email <$> medical_personnel w)
  then (failed UniqueViolation, w)
  else (ok row, set_medical_personnel (medical_personnel w ++ [row]) w).

Definition insert_patient (F : Faults) (values : string → Patient.row) (w : World)
  : Reply Patient.row * World :=
  let row := values (uuid_generate_v4 (Patient.id <$> patients w)) in
  if F (Insert T_patients) then (failed Unavailable, w)
  else (ok row, set_patients (patients w ++ [row]) w).

(** Inserting an array of rows: each one gets an id of its own. *)
Fixpoint assign_ids (taken : list string) (values : list (string → Symptom.row))
  : list Symptom.row :=
  match values with
  | [] => []
  | v :: rest =>
      let i := uuid_generate_v4 taken in
      v i :: assign_ids (i :: taken) rest
  end.

Definition insert_symptoms (F : Faults) (values : list (string → Symptom.row)) (w : World)
  : Reply (list Symptom.row) * World :=
  let rows := assign_ids (Symptom.id <$> symptoms w) values in
  if F (Insert T_symptoms) then (failed Unavailable, w)
  else (ok rows, set_symptoms (symptoms w ++ rows) w).

Definition insert_session (F : Faults) (values : string → Session.row) (w : World)
  : Reply Session.row * World :=
  let row := values (uuid_generate_v4 (Session.id <$> symptom_sessions w)) in
  if F (Insert T_symptom_sessions) then (failed Unavailable, w)
  else (ok row, set_symptom_sessions (symptom_sessions w ++ [row]) w).

Definition insert_xray (F : Faults) (values : string → Xray.row) (w : World)
  : Reply Xray.row * World :=
  let row := values (uuid_generate_v4 (Xray.id <$> xray_images w)) in
  if F (Insert T_xray_images) then (failed Unavailable, w)
  else (ok row, set_xray_images (xray_images w ++ [row]) w).

(** [update(values).eq('id', id)]: every row with that id is rewritten and
    returned. *)
Definition update_where {A} (matches : A → bool) (change : A → A) (rows : list A) : list A :=
  (λ r, if matches r then change r else r) <$> rows.

Definition update_personnel (F : Faults) (matches : Personnel.row → bool)
    (change : Personnel.row → Personnel.row) (w : World) : Reply (list Personnel.row) * World :=
  if F (Update T_medical_personnel) then (failed Unavailable, w)
  else (ok (change <$> List.filter matches (medical_personnel w)),
        set_medical_personnel (update_where matches change (medical_personnel w)) w).

Definition update_patients (F : Faults) (matches : Patient.row → bool)
    (change : Patient.row → Patient.row) (w : World) : Reply (list Patient.row) * World :=
  if F (Update T_patients) then (failed Unavailable, w)
  else (ok (change <$> List.filter matches (patients w)),
        set_patients (update_where matches change (patients w)) w).

Definition update_xray (F : Faults) (matches : Xray.row → bool)
    (change : Xray.row → Xray.row) (w : World) : Reply (list Xray.row) * World :=
  if F (Update T_xray_images) then (failed Unavailable, w)
  else (ok (change <$> List.filter matches (xray_images w)),
        set_xray_images (update_where matches change (xray_images w)) w).

Definition update_symptoms (F : Faults) (matches : Symptom.row → bool)
    (change : Symptom.row → Symptom.row) (w : World) : Reply (list Symptom.row) * World :=
  if F (Update T_symptoms) then (failed Unavailable, w)
  else (ok (change <$> List.filter matches (symptoms w)),
        set_symptoms (update_where matches change (symptoms w)) w).

(** [delete().eq('id', id)]: the rows with that id are gone. *)
Definition delete_symptoms (F : Faults) (matches : Symptom.row → bool) (w : World)
  : Reply unit * World :=
  if F (Delete T_symptoms) then (failed Unavailable, w)
  else (ok (), set_symptoms (List.filter (λ r, negb (matches r)) (symptoms w)) w).

Definition delete_xray (F : Faults) (matches : Xray.row → bool) (w : World)
  : Reply unit * World :=
  if F (Delete T_xray_images) then (failed Unavailable, w)
  else (ok (), set_xray_images (List.filter (λ r, negb (matches r)) (xray_images w)) w).

(** [storage.from(bucket).upload(path, ...)] without upsert: the key must be
    free. *)
Definition storage_upload (F : Faults) (path : string) (object : Blob.t) (w : World)
  : Reply string * World :=
  if F StorageUpload then (failed Unavailable, w)
  else match bucket w !! path with
       | Some _ => (failed AlreadyExists, w)
       | None => (ok path, set_bucket (<[path := object]> (bucket w)) w)
       end.

(** [storage.from(bucket).remove(paths)]. *)
Definition storage_remove (F : Faults) (paths : list string) (w : World)
  : Reply (list string) * World :=
  if F StorageRemove then (failed Unavailable, w)
  else (ok paths, set_bucket (foldr delete (bucket w) paths) w).

Definition respond {B} (status : Z) (error message : string) : Outcome B :=
  Respond (Json status (ErrorBody error message)).

(** Truthiness of a boolean column that may be [undefined]. *)
Definition truthy_bool (v : option bool) : bool := default false v.

(** [allowed.includes(v)]. *)
Definition includes (allowed : list string) (v : option string) : bool :=
  match v with
  | Some s => bool_decide (s ∈ allowed)
  | None => false
  end.

Section Middleware.
Context `{Platform}.

(** ** middleware/auth.js *)

(** [authHeader && authHeader.split(' ')[1]]. *)
Definition bearer (authHeader : option string) : option string :=
  if truthy authHeader then authHeader ≫= (λ h, split space h !! 1%nat)
  else authHeader.

(** The rows [from('medical_personnel').select(columns).eq('id', userId)]
    matches. *)
Definition personnel_by_id (columns : list string) (userId : option string) (w : World)
  : list User.object :=
  select_columns columns <$>
    filter (λ r, Some (Personnel.id r) = userId) (medical_personnel w).

Definition authenticateToken {B} (F : Faults) (req : Request B) (w : World) : Outcome B :=
  let authHeader := authorization req in
  let token := bearer authHeader in
  if negb (truthy token) then
    respond 401 "Access token required" "Please provide a valid authentication token"
  else
    match jwt_verify (default "" token) JWT_SECRET with
    | Decoded decoded =>
        let r := single F (Select T_medical_personnel)
                   (personnel_by_id ["id"; "email"; "role"; "is_active"]
                      (Claims.userId decoded) w) in
        match error r, data r with
        | None, Some user =>
            if negb (truthy_bool (User.is_active user)) then
              respond 403 "Account deactivated"
                "Your account has been deactivated. Please contact administrator."
            else
              Next (with_user req
                      {| ReqUser.id := User.id user;
                         ReqUser.email := User.email user;
                         ReqUser.role := User.role user |})
        | _, _ =>       (* error || !user *)
            respond 401 "Invalid token" "User not found or account deactivated"
        end
    | Throws name =>    (* catch (error) *)
        if String.eqb name "JsonWebTokenError" then
          respond 401 "Invalid token" "The provided token is invalid or expired"
        else if String.eqb name "TokenExpiredError" then
          respond 401 "Token expired" "Your session has expired. Please login again."
        else
          respond 500 "Authentication error" "An error occurred during authentication"
    end.

Definition optionalAuth {B} (F : Faults) (req : Request B) (w : World) : Outcome B :=
  let authHeader := authorization req in
  let token := bearer authHeader in
  if truthy token then
    match jwt_verify (default "" token) JWT_SECRET with
    | Decoded decoded =>
        let r := single F (Select T_medical_personnel)
                   (personnel_by_id ["id"; "email"; "role"] (Claims.userId decoded) w) in
        match data r with
        | Some user =>
            if truthy_bool (User.is_active user) then
              Next (with_user req
                      {| ReqUser.id := User.id user;
                         ReqUser.email := User.email user;
                         ReqUser.role := User.role user |})
            else Next req
        | None => Next req
        end
    | Throws _ => Next req    (* catch: continue without authentication *)
    end
  else Next req.

Definition requireRole {B} (allowedRoles : list string) (req : Request B) : Outcome B :=
  match user req with
  | None =>
      respond 401 "Authentication required" "Please login to access this resource"
  | Some u =>
      if negb (includes allowedRoles (ReqUser.role u)) then
        respond 403 "Insufficient permissions"
          "You do not have permission to access this resource"
      else Next req
  end.

(** ** middleware/validation.js *)

Definition handleValidationErrors {B} (req : Request B) : Outcome B :=
  let errors := validation req in
  if negb (bool_decide (errors = [])) then
    Respond (Json 400 (ValidationBody "Validation failed" "Please check your input data"
                         errors))
  else Next req.

(** A validator chain placed before a handler.  The chains below run
    their sanitizers on the fields, writing the results back into the
    request, and end in [handleValidationErrors]; what their validators found
    is [validation req].  A field under [.optional()] is left alone when it is
    [undefined]. *)
Definition validated {B} (chain : Request B → Outcome B) (h : Handler B) : Handler B :=
  guard (λ req _, chain req) h.

(** ** routes/auth.js *)

Record SignupBody := {
  su_email : string;
  su_password : string;
  su_firstName : string;
  su_lastName : string;
  su_role : string;
  su_licenseNumber : option string
}.

Record SigninBody := {
  si_email : string;
  si_password : string
}.

Definition signupValidation (req : Request SignupBody) : Outcome SignupBody :=
  let b := body req in
  handleValidationErrors
    (with_body req
       {| su_email := normalizeEmail (su_email b);
          su_password := su_password b;
          su_firstName := validator_trim (su_firstName b);
          su_lastName := validator_trim (su_lastName b);
          su_role := su_role b;
          su_licenseNumber := validator_trim <$> su_licenseNumber b |}).

Definition signinValidation (req : Request SigninBody) : Outcome SigninBody :=
  let b := body req in
  handleValidationErrors
    (with_body req
       {| si_email := normalizeEmail (si_email b);
          si_password := si_password b |}).

Definition personnel_by_email (columns : list string) (email : string) (w : World)
  : list User.object :=
  select_columns columns <$>
    filter (λ r, Personnel.email r = email) (medical_personnel w).

Definition signup_handler (F : Faults) (env : Env) : Handler SignupBody :=
  λ req w,
    let b := body req in
    let existingUser :=
      data (single F (Select T_medical_personnel)
              (personnel_by_email ["id"] (su_email b) w)) in
    match existingUser with
    | Some _ =>
        (Json 409 (ErrorBody "User already exists"
                     "An account with this email already exists"), w)
    | None =>
        let saltRounds := 12 in
        let hashedPassword := bcrypt_hash (su_password b) saltRounds (salt env) in
        let '(created, w') :=
          insert_personnel F
            (λ new_id,
               {| Personnel.id := new_id;
                  Personnel.email := su_email b;
                  Personnel.password_hash := hashedPassword;
                  Personnel.first_name := su_firstName b;
                  Personnel.last_name := su_lastName b;
                  Personnel.role := su_role b;
                  Personnel.license_number := su_licenseNumber b;
                  Personnel.is_active := true;
                  Personnel.created_at := now env;
                  Personnel.last_login := None |}) w in
        match error created, data created with
        | None, Some row =>
            let newUser :=
              select_columns ["id"; "email"; "first_name"; "last_name"; "role";
                              "license_number"; "created_at"] row in
            let token :=
              jwt_sign {| Claims.userId := User.id newUser;
                          Claims.email := User.email newUser;
                          Claims.role := User.role newUser |}
                JWT_SECRET "24h" (now env) in
            (Json 201
               (AccountBody "User account created successfully"
                  {| uj_id := User.id newUser;
                     uj_email := User.email newUser;
                     uj_firstName := User.first_name newUser;
                     uj_lastName := User.last_name newUser;
                     uj_role := User.role newUser;
                     uj_licenseNumber := User.license_number newUser;
                     uj_createdAt := User.created_at newUser |}
                  token), w')
        | _, _ =>       (* createError *)
            (Json 500 (ErrorBody "User creation failed" "Failed to create user account"),
             w')
        end
    end.

Definition signup (F : Faults) (env : Env) : Handler SignupBody :=
  validated signupValidation (signup_handler F env).

Definition signin_handler (F : Faults) (env : Env) : Handler SigninBody :=
  λ req w,
    let b := body req in
    let r := single F (Select T_medical_personnel)
               (personnel_by_email
                  ["id"; "email"; "password_hash"; "first_name"; "last_name"; "role";
                   "license_number"; "is_active"] (si_email b) w) in
    match error r, data r with
    | None, Some user =>
        if negb (truthy_bool (User.is_active user)) then
          (Json 403 (ErrorBody "Account deactivated"
                       "Your account has been deactivated. Please contact administrator."),
           w)
        else
          match User.password_hash user with
          | None =>     (* bcrypt.compare rejects an undefined hash: catch *)
              (Json 500 (ErrorBody "Signin failed" "An error occurred during login"), w)
          | Some password_hash =>
              let isPasswordValid := bcrypt_compare (si_password b) password_hash in
              if negb isPasswordValid then
                (Json 401 (ErrorBody "Invalid credentials"
                             "Email or password is incorrect"), w)
              else
                let token :=
                  jwt_sign {| Claims.userId := User.id user;
                              Claims.email := User.email user;
                              Claims.role := User.role user |}
                    JWT_SECRET "24h" (now env) in
                let '(_, w') :=
                  update_personnel F
                    (λ p, bool_decide (Some (Personnel.id p) = User.id user))
                    (λ p, {| Personnel.id := Personnel.id p;
                             Personnel.email := Personnel.email p;
                             Personnel.password_hash := Personnel.password_hash p;
                             Personnel.first_name := Personnel.first_name p;
                             Personnel.last_name := Personnel.last_name p;
                             Personnel.role := Personnel.role p;
                             Personnel.license_number := Personnel.license_number p;
                             Personnel.is_active := Personnel.is_active p;
                             Personnel.created_at := Personnel.created_at p;
                             Personnel.last_login := Some (now env) |}) w in
                (Json 200
                   (AccountBody "Login successful"
                      {| uj_id := User.id user;
                         uj_email := User.email user;
                         uj_firstName := User.first_name user;
                         uj_lastName := User.last_name user;
                         uj_role := User.role user;
                         uj_licenseNumber := User.license_number user;
                         uj_createdAt := None |}
                      token), w')
          end
    | _, _ =>           (* findError || !user *)
        (Json 401 (ErrorBody "Invalid credentials" "Email or password is incorrect"), w)
    end.

Definition signin (F : Faults) (env : Env) : Handler SigninBody :=
  validated signinValidation (signin_handler F env).

End Middleware.

(** ** routes/patients.js *)

Record PatientInput := {
  in_firstName : string;
  in_lastName : string;
  in_dateOfBirth : string;
  in_gender : string;
  in_phoneNumber : option string;
  in_email : option string;
  in_address : option string;
  in_medicalHistory : option string
}.

(** The body of an update: a field that is [undefined] is [None]. *)
Record PatientUpdate := {
  up_firstName : option string;
  up_lastName : option string;
  up_dateOfBirth : option string;
  up_gender : option string;
  up_phoneNumber : option string;
  up_email : option string;
  up_address : option string;
  up_medicalHistory : option string
}.

(** [order('created_at', { ascending: false })]. *)
Definition newest_first : relation Patient.row :=
  λ a b, Patient.created_at b ≤ Patient.created_at a.

#[global] Instance newest_first_dec : RelDecision newest_first.
Proof. intros a b. unfold newest_first. apply _. Defined.

Definition order_created_at_desc (rows : list Patient.row) : list Patient.row :=
  merge_sort newest_first rows.

(** The fields every patient response carries. *)
Definition patient_fields (p : Patient.row)
    (createdAt : option Z) (createdBy : option string)
    (updatedAt : option Z) (updatedBy : option string)
    (createdByUser : option PersonnelRef) : PatientJson :=
  {| pj_id := Patient.id p;
     pj_firstName := Patient.first_name p;
     pj_lastName := Patient.last_name p;
     pj_dateOfBirth := Patient.date_of_birth p;
     pj_gender := Patient.gender p;
     pj_phoneNumber := Patient.phone_number p;
     pj_email := Patient.email p;
     pj_address := Patient.address p;
     pj_medicalHistory := Patient.medical_history p;
     pj_createdAt := createdAt;
     pj_createdBy := createdBy;
     pj_updatedAt := updatedAt;
     pj_updatedBy := updatedBy;
     pj_createdByUser := createdByUser |}.

Definition patient_created (p : Patient.row) : PatientJson :=
  patient_fields p (Some (Patient.created_at p)) (Patient.created_by p) None None None.

(** The embedded resource [medical_personnel:created_by(first_name,
    last_name, role)]. *)
Definition created_by_user (w : World) (p : Patient.row) : option PersonnelRef :=
  (λ u, {| pr_firstName := Personnel.first_name u;
           pr_lastName := Personnel.last_name u;
           pr_role := Personnel.role u |}) <$>
    head (filter (λ u, Some (Personnel.id u) = Patient.created_by p) (medical_personnel w)).

Definition patient_fetched (w : World) (p : Patient.row) : PatientJson :=
  patient_fields p (Some (Patient.created_at p)) (Patient.created_by p) None None
    (created_by_user w p).

Definition patient_updated (p : Patient.row) : PatientJson :=
  patient_fields p None None (Patient.updated_at p) (Patient.updated_by p) None.

(** [update(updateData)] of the update route on one row. *)
Definition apply_update (u : PatientUpdate) (at_ : Z) (by_ : option string)
    (p : Patient.row) : Patient.row :=
  {| Patient.id := Patient.id p;
     Patient.first_name := default (Patient.first_name p) (up_firstName u);
     Patient.last_name := default (Patient.last_name p) (up_lastName u);
     Patient.date_of_birth := default (Patient.date_of_birth p) (up_dateOfBirth u);
     Patient.gender := default (Patient.gender p) (up_gender u);
     Patient.phone_number :=
       match up_phoneNumber u with Some v => Some v | None => Patient.phone_number p end;
     Patient.email :=
       match up_email u with Some v => Some v | None => Patient.email p end;
     Patient.address :=
       match up_address u with Some v => Some v | None => Patient.address p end;
     Patient.medical_history :=
       match up_medicalHistory u with
       | Some v => Some v
       | None => Patient.medical_history p
       end;
     Patient.is_deleted := Patient.is_deleted p;
     Patient.created_by := Patient.created_by p;
     Patient.created_at := Patient.created_at p;
     Patient.updated_at := Some at_;
     Patient.updated_by := by_;
     Patient.deleted_at := Patient.deleted_at p;
     Patient.deleted_by := Patient.deleted_by p |}.

(** [update({ is_deleted: true, deleted_at, deleted_by })] on one row. *)
Definition mark_deleted (at_ : Z) (by_ : option string) (p : Patient.row) : Patient.row :=
  {| Patient.id := Patient.id p;
     Patient.first_name := Patient.first_name p;
     Patient.last_name := Patient.last_name p;
     Patient.date_of_birth := Patient.date_of_birth p;
     Patient.gender := Patient.gender p;
     Patient.phone_number := Patient.phone_number p;
     Patient.email := Patient.email p;
     Patient.address := Patient.address p;
     Patient.medical_history := Patient.medical_history p;
     Patient.is_deleted := true;
     Patient.created_by := Patient.created_by p;
     Patient.created_at := Patient.created_at p;
     Patient.updated_at := Patient.updated_at p;
     Patient.updated_by := Patient.updated_by p;
     Patient.deleted_at := Some at_;
     Patient.deleted_by := by_ |}.

(** [reduce] of the stats route: one counter per gender. *)
Definition count_by_gender (rows : list Patient.row) : gmap string Z :=
  foldl (λ acc p, <[Patient.gender p := default 0 (acc !! Patient.gender p) + 1]> acc)
    ∅ rows.

Section Patients.
Context `{Platform}.

Definition create_patient_handler (F : Faults) (env : Env) : Handler PatientInput :=
  λ req w,
    let b := body req in
    let existingPatient :=
      data (single F (Select T_patients)
              (filter (λ p, Patient.first_name p = in_firstName b
                            ∧ Patient.last_name p = in_lastName b
                            ∧ Patient.date_of_birth p = in_dateOfBirth b) (patients w))) in
    match existingPatient with
    | Some _ =>
        (Json 409 (ErrorBody "Patient already exists"
                     "A patient with these details already exists in the system"), w)
    | None =>
        match user req with
        | None =>       (* req.user.id throws: catch *)
            (Json 500 (ErrorBody "Patient creation failed"
                         "An error occurred while creating patient record"), w)
        | Some u =>
            let '(created, w') :=
              insert_patient F
                (λ new_id,
                   {| Patient.id := new_id;
                      Patient.first_name := in_firstName b;
                      Patient.last_name := in_lastName b;
                      Patient.date_of_birth := in_dateOfBirth b;
                      Patient.gender := in_gender b;
                      Patient.phone_number := in_phoneNumber b;
                      Patient.email := in_email b;
                      Patient.address := in_address b;
                      Patient.medical_history := in_medicalHistory b;
                      Patient.is_deleted := false;
                      Patient.created_by := ReqUser.id u;
                      Patient.created_at := now env;
                      Patient.updated_at := None;
                      Patient.updated_by := None;
                      Patient.deleted_at := None;
                      Patient.deleted_by := None |}) w in
            match error created, data created with
            | None, Some newPatient =>
                (Json 201 (PatientBody (Some "Patient created successfully")
                             (patient_created newPatient)), w')
            | _, _ =>     (* createError *)
                (Json 500 (ErrorBody "Patient creation failed"
                             "Failed to create patient record"), w')
            end
        end
    end.

(** The query of the list route before [.range]: the optional search
    filter, then the order. *)
Definition listed_patients (search : string) (w : World) : list Patient.row :=
  order_created_at_desc
    (if truthy (Some search) then List.filter (or_ilike search) (patients w)
     else patients w).

Definition list_patients_handler (F : Faults) : Handler unit :=
  λ req w,
    let page := or_number (page (query req) ≫= parseInt) 1 in
    let limit := or_number (limit (query req) ≫= parseInt) 20 in
    let search := or_string (search (query req)) "" in
    let offset := (page - 1) * limit in
    let matched := listed_patients search w in
    let r := many F (Select T_patients) (range offset (offset + limit - 1) matched) in
    let count :=
      match error r with
      | Some _ => None
      | None => Some (Z.of_nat (length matched))
      end in
    match error r, data r with
    | None, Some rows =>
        let totalPages := ceil_div (or_number count 0) limit in
        (Json 200
           (PatientsBody (patient_created <$> rows)
              {| currentPage := page;
                 totalPages := totalPages;
                 totalCount := or_number count 0;
                 pg_limit := limit;
                 hasNext := page <? totalPages;
                 hasPrev := 1 <? page |}), w)
    | _, _ =>
        (Json 500 (ErrorBody "Patient fetch failed" "Failed to fetch patient records"), w)
    end.

Definition get_patient_handler (F : Faults) : Handler unit :=
  λ req w,
    let id := params_id req in
    let r := single F (Select T_patients)
               (filter (λ p, Patient.id p = id) (patients w)) in
    match error r, data r with
    | None, Some patient =>
        (Json 200 (PatientBody None (patient_fetched w patient)), w)
    | _, _ =>         (* error || !patient *)
        (Json 404 (ErrorBody "Patient not found" "Patient record not found"), w)
    end.

Definition update_patient_handler (F : Faults) (env : Env) : Handler PatientUpdate :=
  λ req w,
    let id := params_id req in
    match user req with
    | None =>         (* req.user.id throws: catch *)
        (Json 500 (ErrorBody "Patient update failed"
                     "An error occurred while updating patient record"), w)
    | Some u =>
        let '(updated, w') :=
          update_patients F (λ p, bool_decide (Patient.id p = id))
            (apply_update (body req) (now env) (ReqUser.id u)) w in
        let r := single_of updated in
        match error r, data r with
        | None, Some updatedPatient =>
            (Json 200 (PatientBody (Some "Patient updated successfully")
                         (patient_updated updatedPatient)), w')
        | _, _ =>     (* error || !updatedPatient *)
            (Json 404 (ErrorBody "Patient not found"
                         "Patient record not found or update failed"), w')
        end
    end.

Definition delete_patient_handler (F : Faults) (env : Env) : Handler unit :=
  λ req w,
    let id := params_id req in
    match user req with
    | None =>         (* req.user.id throws: catch *)
        (Json 500 (ErrorBody "Patient deletion failed"
                     "An error occurred while deleting patient record"), w)
    | Some u =>
        let '(r, w') :=
          update_patients F (λ p, bool_decide (Patient.id p = id))
            (mark_deleted (now env) (ReqUser.id u)) w in
        match error r with
        | Some _ =>
            (Json 500 (ErrorBody "Patient deletion failed"
                         "Failed to delete patient record"), w')
        | None =>
            (Json 200 (NoteBody "Patient deleted successfully"
                         "Patient record has been soft deleted"), w')
        end
    end.

Definition patient_stats_handler (F : Faults) (env : Env) : Handler unit :=
  λ req w,
    let live := List.filter (λ p, negb (Patient.is_deleted p)) (patients w) in
    let totalPatients :=
      (λ rows, Z.of_nat (length rows)) <$> data (many F (Select T_patients) live) in
    let genderStats := data (many F (Select T_patients) live) in
    let genderCounts := default ∅ (count_by_gender <$> genderStats) in
    let recentPatients :=
      (λ rows, Z.of_nat (length rows)) <$>
        data (many F (Select T_patients)
                (List.filter (λ p, thirtyDaysAgo env <=? Patient.created_at p) live)) in
    (Json 200
       (StatsBody {| totalPatients := or_number totalPatients 0;
                     genderDistribution := genderCounts;
                     recentPatients := or_number recentPatients 0;
                     lastUpdated := now env |}), w).

(** The chains of validation.js these routes list. *)
Definition patientValidation (req : Request PatientInput) : Outcome PatientInput :=
  let b := body req in
  handleValidationErrors
    (with_body req
       {| in_firstName := validator_trim (in_firstName b);
          in_lastName := validator_trim (in_lastName b);
          in_dateOfBirth := in_dateOfBirth b;
          in_gender := in_gender b;
          in_phoneNumber := in_phoneNumber b;
          in_email := normalizeEmail <$> in_email b;
          in_address := validator_trim <$> in_address b;
          in_medicalHistory := validator_trim <$> in_medicalHistory b |}).

Definition patientUpdateValidation (req : Request PatientUpdate) : Outcome PatientUpdate :=
  let b := body req in
  handleValidationErrors
    (with_body req
       {| up_firstName := validator_trim <$> up_firstName b;
          up_lastName := validator_trim <$> up_lastName b;
          up_dateOfBirth := up_dateOfBirth b;
          up_gender := up_gender b;
          up_phoneNumber := up_phoneNumber b;
          up_email := normalizeEmail <$> up_email b;
          up_address := validator_trim <$> up_address b;
          up_medicalHistory := validator_trim <$> up_medicalHistory b |}).

Definition paginationValidation {B} (req : Request B) : Outcome B :=
  let q := query req in
  handleValidationErrors
    (with_query req
       {| page := page q; limit := limit q; search := validator_trim <$> search q |}).

(** The router: [router.use(authenticateToken)], then the middleware each
    route lists before its handler. *)
Definition create_patient (F : Faults) (env : Env) : Handler PatientInput :=
  guard (authenticateToken F) (validated patientValidation (create_patient_handler F env)).

Definition list_patients (F : Faults) : Handler unit :=
  guard (authenticateToken F) (validated paginationValidation (list_patients_handler F)).

Definition get_patient (F : Faults) : Handler unit :=
  guard (authenticateToken F) (get_patient_handler F).

Definition update_patient (F : Faults) (env : Env) : Handler PatientUpdate :=
  guard (authenticateToken F)
    (validated patientUpdateValidation (update_patient_handler F env)).

Definition delete_patient (F : Faults) (env : Env) : Handler unit :=
  guard (authenticateToken F)
    (guard (λ req _, requireRole ["admin"] req) (delete_patient_handler F env)).

Definition patient_stats (F : Faults) (env : Env) : Handler unit :=
  guard (authenticateToken F) (patient_stats_handler F env).

End Patients.

(** ** routes/symptoms.js *)

Record SymptomInput := {
  sy_name : string;
  sy_severity : string;
  sy_duration : option string;
  sy_notes : option string
}.

Record SymptomsInput := {
  sb_patientId : string;
  sb_symptoms : list SymptomInput;
  sb_notes : option string
}.

(** [v || null]. *)
Definition or_null (v : option string) : option string :=
  if truthy v then v else None.

Definition patient_ref (p : Patient.row) : PatientRef :=
  {| ref_id := Patient.id p;
     ref_firstName := Patient.first_name p;
     ref_lastName := Patient.last_name p |}.

(** The check the symptom and upload routes start with:
    [eq('id', patientId).eq('is_deleted', false).single()]. *)
Definition find_patient (F : Faults) (patientId : string) (w : World) : Reply Patient.row :=
  single F (Select T_patients)
    (filter (λ p, Patient.id p = patientId ∧ Patient.is_deleted p = false) (patients w)).

Definition symptom_json (s : Symptom.row) : SymptomJson :=
  {| sj_id := Symptom.id s;
     sj_name := Symptom.name s;
     sj_severity := Symptom.severity s;
     sj_duration := Symptom.duration s;
     sj_notes := Symptom.notes s;
     sj_recordedAt := Symptom.recorded_at s |}.

Definition record_symptoms_handler (F : Faults) (env : Env) : Handler SymptomsInput :=
  λ req w,
    let b := body req in
    let patientId := sb_patientId b in
    let found := find_patient F patientId w in
    match error found, data found with
    | None, Some patient =>
        match user req with
        | None =>       (* req.user.id throws: catch *)
            match sb_symptoms b with
            | [] =>     (* the map callback never runs; the session insert throws *)
                if F (Insert T_symptoms) then
                  (Json 500 (ErrorBody "Symptom creation failed"
                               "Failed to create symptom records"), w)
                else
                  (Json 500 (ErrorBody "Symptom creation failed"
                               "An error occurred while recording symptoms"), w)
            | _ :: _ =>
                (Json 500 (ErrorBody "Symptom creation failed"
                             "An error occurred while recording symptoms"), w)
            end
        | Some u =>
            let symptomsData :=
              (λ symptom new_id,
                 {| Symptom.id := new_id;
                    Symptom.patient_id := patientId;
                    Symptom.name := sy_name symptom;
                    Symptom.severity := sy_severity symptom;
                    Symptom.duration := sy_duration symptom;
                    Symptom.notes := or_null (sy_notes symptom);
                    Symptom.recorded_by := ReqUser.id u;
                    Symptom.recorded_at := now env;
                    Symptom.updated_at := None;
                    Symptom.updated_by := None |}) <$> sb_symptoms b in
            let '(inserted, w1) := insert_symptoms F symptomsData w in
            match error inserted, data inserted with
            | None, Some insertedSymptoms =>
                let '(created, w2) :=
                  insert_session F
                    (λ new_id,
                       {| Session.id := new_id;
                          Session.patient_id := patientId;
                          Session.notes := sb_notes b;
                          Session.recorded_by := ReqUser.id u;
                          Session.recorded_at := now env |}) w1 in
                let session := data created in   (* sessionError is only logged *)
                (Json 201
                   (SymptomsBody "Symptoms recorded successfully" (patient_ref patient)
                      (symptom_json <$> insertedSymptoms)
                      ((λ s, {| ss_id := Session.id s;
                                ss_notes := Session.notes s;
                                ss_recordedAt := Session.recorded_at s |}) <$> session)),
                 w2)
            | _, _ =>   (* insertError *)
                (Json 500 (ErrorBody "Symptom creation failed"
                             "Failed to create symptom records"), w1)
            end
        end
    | _, _ =>           (* patientError || !patient *)
        (Json 404 (ErrorBody "Patient not found" "Patient record not found"), w)
    end.

(** The body of a symptom update: a field that is [undefined] is [None]. *)
Record SymptomUpdate := {
  sx_name : option string;
  sx_severity : option string;
  sx_duration : option string;
  sx_notes : option string
}.

(** [update(updateData)] of the symptom update route on one row. *)
Definition apply_symptom_update (u : SymptomUpdate) (at_ : Z) (by_ : option string)
    (s : Symptom.row) : Symptom.row :=
  {| Symptom.id := Symptom.id s;
     Symptom.patient_id := Symptom.patient_id s;
     Symptom.name := default (Symptom.name s) (sx_name u);
     Symptom.severity := default (Symptom.severity s) (sx_severity u);
     Symptom.duration :=
       match sx_duration u with Some v => Some v | None => Symptom.duration s end;
     Symptom.notes := match sx_notes u with Some v => Some v | None => Symptom.notes s end;
     Symptom.recorded_by := Symptom.recorded_by s;
     Symptom.recorded_at := Symptom.recorded_at s;
     Symptom.updated_at := Some at_;
     Symptom.updated_by := by_ |}.

Definition update_symptom_handler (F : Faults) (env : Env) : Handler SymptomUpdate :=
  λ req w,
    let id := params_id req in
    let existing := single F (Select T_symptoms)
                      (filter (λ s, Symptom.id s = id) (symptoms w)) in
    match error existing, data existing with
    | None, Some existingSymptom =>
        match user req with
        | None =>       (* req.user.id throws: catch *)
            (Json 500 (ErrorBody "Symptom update failed"
                         "An error occurred while updating symptom record"), w)
        | Some u =>
            let '(updated, w') :=
              update_symptoms F (λ s, bool_decide (Symptom.id s = id))
                (apply_symptom_update (body req) (now env) (ReqUser.id u)) w in
            let r := single_of updated in
            match error r, data r with
            | None, Some updatedSymptom =>
                (Json 200
                   (SymptomBody "Symptom updated successfully"
                      {| sm_id := Symptom.id updatedSymptom;
                         sm_name := Symptom.name updatedSymptom;
                         sm_severity := Symptom.severity updatedSymptom;
                         sm_duration := Symptom.duration updatedSymptom;
                         sm_notes := Symptom.notes updatedSymptom;
                         sm_updatedAt := Symptom.updated_at updatedSymptom;
                         sm_updatedBy := Symptom.updated_by updatedSymptom |}), w')
            | _, _ =>   (* updateError *)
                (Json 500 (ErrorBody "Symptom update failed"
                             "Failed to update symptom record"), w')
            end
        end
    | _, _ =>           (* fetchError || !existingSymptom *)
        (Json 404 (ErrorBody "Symptom not found" "Symptom record not found"), w)
    end.

Definition delete_symptom_handler (F : Faults) : Handler unit :=
  λ req w,
    let id := params_id req in
    let found := single F (Select T_symptoms)
                   (filter (λ s, Symptom.id s = id) (symptoms w)) in
    match error found, data found with
    | None, Some symptom =>
        let '(r, w') := delete_symptoms F (λ s, bool_decide (Symptom.id s = id)) w in
        match error r with
        | Some _ =>     (* deleteError *)
            (Json 500 (ErrorBody "Symptom deletion failed"
                         "Failed to delete symptom record"), w')
        | None => (Json 200 (MessageBody "Symptom deleted successfully"), w')
        end
    | _, _ =>           (* fetchError || !symptom *)
        (Json 404 (ErrorBody "Symptom not found" "Symptom record not found"), w)
    end.

(** ** routes/upload.js *)

Record UploadInput := {
  ub_patientId : option string;
  ub_imageType : option string;
  ub_notes : option string;
  ub_bodyPart : option string
}.

Record XrayUpdate := {
  xu_notes : option string;
  xu_imageType : option string;
  xu_bodyPart : option string
}.

(** [list.join(sep)]. *)
Fixpoint join (sep : string) (pieces : list string) : string :=
  match pieces with
  | [] => ""
  | [piece] => piece
  | piece :: rest => piece +:+ sep +:+ join sep rest
  end.

Definition image_uploaded (i : Xray.row) : ImageJson :=
  {| ij_id := Xray.id i;
     ij_fileName := Xray.file_name i;
     ij_filePath := Some (Xray.file_path i);
     ij_fileSize := Some (Xray.file_size i);
     ij_mimeType := Some (Xray.mime_type i);
     ij_imageType := Xray.image_type i;
     ij_bodyPart := Xray.body_part i;
     ij_notes := Xray.notes i;
     ij_publicUrl := Some (Xray.public_url i);
     ij_uploadedAt := Some (Xray.uploaded_at i);
     ij_uploadedBy := Xray.uploaded_by i;
     ij_updatedAt := None;
     ij_updatedBy := None |}.

Definition image_updated (i : Xray.row) : ImageJson :=
  {| ij_id := Xray.id i;
     ij_fileName := Xray.file_name i;
     ij_filePath := None;
     ij_fileSize := None;
     ij_mimeType := None;
     ij_imageType := Xray.image_type i;
     ij_bodyPart := Xray.body_part i;
     ij_notes := Xray.notes i;
     ij_publicUrl := None;
     ij_uploadedAt := None;
     ij_uploadedBy := None;
     ij_updatedAt := Xray.updated_at i;
     ij_updatedBy := Xray.updated_by i |}.

(** [update(updateData)] of the metadata route on one row. *)
Definition apply_xray_update (u : XrayUpdate) (at_ : Z) (by_ : option string)
    (i : Xray.row) : Xray.row :=
  {| Xray.id := Xray.id i;
     Xray.patient_id := Xray.patient_id i;
     Xray.file_name := Xray.file_name i;
     Xray.file_path := Xray.file_path i;
     Xray.file_size := Xray.file_size i;
     Xray.mime_type := Xray.mime_type i;
     Xray.image_type := default (Xray.image_type i) (xu_imageType u);
     Xray.body_part := default (Xray.body_part i) (xu_bodyPart u);
     Xray.notes := match xu_notes u with Some v => Some v | None => Xray.notes i end;
     Xray.public_url := Xray.public_url i;
     Xray.uploaded_by := Xray.uploaded_by i;
     Xray.uploaded_at := Xray.uploaded_at i;
     Xray.updated_at := Some at_;
     Xray.updated_by := by_ |}.

Section Upload.
Context `{Platform}.

(** [limits.fileSize] of the multer configuration. *)
Definition fileSize : Z :=
  or_number (MAX_FILE_SIZE ≫= parseInt) (10 * 1024 * 1024).

Definition allowedTypes : list string :=
  split comma (or_string ALLOWED_FILE_TYPES "image/jpeg,image/png,image/jpg").

(** The [fileFilter] of the multer configuration: [None] accepts the part,
    [Some err] is the error passed to the callback. *)
Definition fileFilter (f : File.t) : option UploadError :=
  if includes allowedTypes (Some (File.mimetype f)) then None
  else Some (InvalidFileType ("Invalid file type. Allowed types: " +:+ join ", " allowedTypes)).

(** [upload.single('image')].  multer asks the [fileFilter] when the part
    starts, then reads the part into memory and aborts with
    [LIMIT_FILE_SIZE] once the bytes read reach [limits.fileSize], so a part
    of exactly that many bytes is refused as well; either error goes to
    [next(err)].  Without a part the request goes on with no [req.file]. *)
Definition upload_single {B} (req : Request B) : Outcome B :=
  match part req with
  | None => Next req
  | Some f =>
      match fileFilter f with
      | Some err => Respond (NextError err)
      | None =>
          if fileSize <=? File.size f then Respond (NextError LIMIT_FILE_SIZE)
          else Next (with_file req f)
      end
  end.

(** The storage key of an upload. *)
Definition xray_fileName (patientId : string) (env : Env) (f : File.t) : string :=
  "xray_" +:+ patientId +:+ "_" +:+ uuidv4 env +:+ extname (File.originalname f).

Definition xray_filePath (patientId : string) (env : Env) (f : File.t) : string :=
  patientId +:+ "/" +:+ xray_fileName patientId env f.

Definition upload_xray_handler (F : Faults) (env : Env) : Handler UploadInput :=
  λ req w,
    match file req with
    | None =>
        (Json 400 (ErrorBody "No file uploaded" "Please upload an X-ray image"), w)
    | Some f =>
        let b := body req in
        if negb (truthy (ub_patientId b)) then
          (Json 400 (ErrorBody "Patient ID required" "Please provide a patient ID"), w)
        else
          let patientId := default "" (ub_patientId b) in
          let found := find_patient F patientId w in
          match error found, data found with
          | None, Some patient =>
              let fileName := xray_fileName patientId env f in
              let filePath := xray_filePath patientId env f in
              match user req with
              | None =>     (* req.user.id throws: catch *)
                  (Json 500 (ErrorBody "Upload failed"
                               "An error occurred while uploading X-ray image"), w)
              | Some u =>
                  let '(uploaded, w1) :=
                    storage_upload F filePath
                      {| Blob.buffer := File.buffer f;
                         Blob.contentType := File.mimetype f;
                         Blob.originalName := File.originalname f;
                         Blob.uploadedBy := ReqUser.id u;
                         Blob.patientId := patientId;
                         Blob.imageType := or_string (ub_imageType b) "xray";
                         Blob.bodyPart := or_string (ub_bodyPart b) "unknown" |} w in
                  match error uploaded with
                  | Some _ =>   (* uploadError *)
                      (Json 500 (ErrorBody "File upload failed"
                                   "Failed to upload X-ray image to storage"), w1)
                  | None =>
                      let publicUrl := getPublicUrl filePath in
                      let '(created, w2) :=
                        insert_xray F
                          (λ new_id,
                             {| Xray.id := new_id;
                                Xray.patient_id := patientId;
                                Xray.file_name := fileName;
                                Xray.file_path := filePath;
                                Xray.file_size := File.size f;
                                Xray.mime_type := File.mimetype f;
                                Xray.image_type := or_string (ub_imageType b) "xray";
                                Xray.body_part := or_string (ub_bodyPart b) "unknown";
                                Xray.notes := or_null (ub_notes b);
                                Xray.public_url := publicUrl;
                                Xray.uploaded_by := ReqUser.id u;
                                Xray.uploaded_at := now env;
                                Xray.updated_at := None;
                                Xray.updated_by := None |}) w1 in
                      match error created, data created with
                      | None, Some imageRecord =>
                          (Json 201
                             (ImageBody "X-ray image uploaded successfully"
                                (image_uploaded imageRecord) (Some (patient_ref patient))),
                           w2)
                      | _, _ =>   (* dbError: try to delete the uploaded file *)
                          let '(_, w3) := storage_remove F [filePath] w2 in
                          (Json 500 (ErrorBody "Record creation failed"
                                       "Failed to create image record in database"), w3)
                      end
                  end
              end
          | _, _ =>         (* patientError || !patient *)
              (Json 404 (ErrorBody "Patient not found" "Patient record not found"), w)
          end
    end.

Definition update_xray_handler (F : Faults) (env : Env) : Handler XrayUpdate :=
  λ req w,
    let id := params_id req in
    let existing := single F (Select T_xray_images)
                      (filter (λ i, Xray.id i = id) (xray_images w)) in
    match error existing, data existing with
    | None, Some existingImage =>
        match user req with
        | None =>       (* req.user.id throws: catch *)
            (Json 500 (ErrorBody "Image update failed"
                         "An error occurred while updating image metadata"), w)
        | Some u =>
            let '(updated, w') :=
              update_xray F (λ i, bool_decide (Xray.id i = id))
                (apply_xray_update (body req) (now env) (ReqUser.id u)) w in
            let r := single_of updated in
            match error r, data r with
            | None, Some updatedImage =>
                (Json 200 (ImageBody "Image metadata updated successfully"
                             (image_updated updatedImage) None), w')
            | _, _ =>   (* updateError *)
                (Json 500 (ErrorBody "Image update failed"
                             "Failed to update image metadata"), w')
            end
        end
    | _, _ =>           (* fetchError || !existingImage *)
        (Json 404 (ErrorBody "Image not found" "X-ray image not found"), w)
    end.

Definition delete_xray_handler (F : Faults) : Handler unit :=
  λ req w,
    let id := params_id req in
    let found := single F (Select T_xray_images)
                   (filter (λ i, Xray.id i = id) (xray_images w)) in
    match error found, data found with
    | None, Some image =>
        (* storageError is only logged: the row is deleted all the same *)
        let '(_, w1) := storage_remove F [Xray.file_path image] w in
        let '(r, w2) := delete_xray F (λ i, bool_decide (Xray.id i = id)) w1 in
        match error r with
        | Some _ =>     (* dbError *)
            (Json 500 (ErrorBody "Image deletion failed"
                         "Failed to delete image record from database"), w2)
        | None => (Json 200 (MessageBody "X-ray image deleted successfully"), w2)
        end
    | _, _ =>           (* fetchError || !image *)
        (Json 404 (ErrorBody "Image not found" "X-ray image not found"), w)
    end.

(** The chain of validation.js the symptom record route lists. *)
Definition symptomValidation (req : Request SymptomsInput) : Outcome SymptomsInput :=
  let b := body req in
  handleValidationErrors
    (with_body req
       {| sb_patientId := sb_patientId b;
          sb_symptoms :=
            (λ s, {| sy_name := validator_trim (sy_name s);
                     sy_severity := sy_severity s;
                     sy_duration := validator_trim <$> sy_duration s;
                     sy_notes := sy_notes s |}) <$> sb_symptoms b;
          sb_notes := validator_trim <$> sb_notes b |}).

(** The routers of symptoms.js and upload.js, each under
    [router.use(authenticateToken)]. *)
Definition record_symptoms (F : Faults) (env : Env) : Handler SymptomsInput :=
  guard (authenticateToken F) (validated symptomValidation (record_symptoms_handler F env)).

Definition upload_xray (F : Faults) (env : Env) : Handler UploadInput :=
  guard (authenticateToken F)
    (guard (λ req _, upload_single req) (upload_xray_handler F env)).

Definition update_xray_metadata (F : Faults) (env : Env) : Handler XrayUpdate :=
  guard (authenticateToken F) (update_xray_handler F env).

Definition update_symptom (F : Faults) (env : Env) : Handler SymptomUpdate :=
  guard (authenticateToken F) (update_symptom_handler F env).

Definition delete_symptom (F : Faults) : Handler unit :=
  guard (authenticateToken F) (delete_symptom_handler F).

Definition delete_xray_image (F : Faults) : Handler unit :=
  guard (authenticateToken F) (delete_xray_handler F).

End Upload.

(** ** Vocabulary of the statements *)

(** The identity the auth middleware attaches for a personnel row. *)
Definition identity_of (r : Personnel.row) : ReqUser.t :=
  {| ReqUser.id := Some (Personnel.id r);
     ReqUser.email := Some (Personnel.email r);
     ReqUser.role := Some (Personnel.role r) |}.

(** The request carries a bearer token that [jwt.verify] accepts, and its
    payload is [decoded]. *)
Definition bears_token `{Platform} {B} (req : Request B) (decoded : Claims.t) : Prop :=
  ∃ token, bearer (authorization req) = Some token ∧ token ≠ ""
           ∧ jwt_verify token JWT_SECRET = Decoded decoded.

(** The request carries a still-valid token whose subject is the row [r] of
    the credential store, ids being the table's primary key, and the store
    answers the lookup. *)
Definition token_of `{Platform} {B} (F : Faults) (req : Request B) (w : World)
    (r : Personnel.row) : Prop :=
  (∃ decoded, bears_token req decoded ∧ Claims.userId decoded = Some (Personnel.id r))
  ∧ r ∈ medical_personnel w
  ∧ NoDup (Personnel.id <$> medical_personnel w)
  ∧ F (Select T_medical_personnel) = false.

(** Every row of [after] was in [before] or names [actor] in [field]. *)
Definition stamped {A} (field : A → option string) (actor : string)
    (before after : list A) : Prop :=
  ∀ x, x ∈ after → x ∈ before ∨ field x = Some actor.

(** Whatever a request wrote between [w] and [w'] names [actor]: patients in
    [patient_field], symptoms in [symptom_field], X-ray rows in [xray_field],
    sessions in recorded_by, blobs in their uploadedBy tag; the credential
    store is untouched. *)
Definition writes_stamped (actor : string) (patient_field : Patient.row → option string)
    (symptom_field : Symptom.row → option string)
    (xray_field : Xray.row → option string) (w w' : World) : Prop :=
  medical_personnel w' = medical_personnel w
  ∧ stamped patient_field actor (patients w) (patients w')
  ∧ stamped symptom_field actor (symptoms w) (symptoms w')
  ∧ stamped Session.recorded_by actor (symptom_sessions w) (symptom_sessions w')
  ∧ stamped xray_field actor (xray_images w) (xray_images w')
  ∧ (∀ key object, bucket w' !! key = Some object →
       bucket w !! key = Some object ∨ Blob.uploadedBy object = Some actor).

(** The response a middleware ends the request with, if it does. *)
Definition rejection {B} (o : Outcome B) : option Response :=
  match o with
  | Respond r => Some r
  | Next _ => None
  end.

(** ** Sample data *)

Fixpoint decimal (acc : Z) (digits : string) : option Z :=
  match digits with
  | EmptyString => Some acc
  | String c rest =>
      let d := Z.of_nat (Ascii.nat_of_ascii c) - 48 in
      if (0 <=? d) && (d <=? 9) then decimal (10 * acc + d) rest else None
  end.

Definition sample_claims (userId email role : string) : Claims.t :=
  {| Claims.userId := Some userId; Claims.email := Some email; Claims.role := Some role |}.

Definition sample_verify (token secret : string) : Verified :=
  if String.eqb token "admin.jwt" then Decoded (sample_claims "u-admin" "admin@x.com" "admin")
  else if String.eqb token "nurse.jwt" then Decoded (sample_claims "u-nurse" "nurse@x.com" "nurse")
  else if String.eqb token "former.jwt" then Decoded (sample_claims "u-former" "former@x.com" "doctor")
  else if String.eqb token "ghost.jwt" then Decoded (sample_claims "u-ghost" "ghost@x.com" "doctor")
  else if String.eqb token "old.jwt" then Throws "TokenExpiredError"
  else Throws "JsonWebTokenError".

(** Lower-casing of the ASCII letters, and the removal of the blanks
    around a string. *)
Definition lower (c : Ascii.ascii) : Ascii.ascii :=
  let n := Ascii.nat_of_ascii c in
  if ((65 <=? n) && (n <=? 90))%nat then Ascii.ascii_of_nat (n + 32) else c.

Fixpoint lowercase (s : string) : string :=
  match s with
  | EmptyString => EmptyString
  | String c rest => String (lower c) (lowercase rest)
  end.

Fixpoint trim_start (s : string) : string :=
  match s with
  | EmptyString => EmptyString
  | String c rest => if decide (c = space) then trim_start rest else s
  end.

Fixpoint trim_end (s : string) : string :=
  match s with
  | EmptyString => EmptyString
  | String c rest =>
      match trim_end rest with
      | EmptyString => if decide (c = space) then EmptyString else String c EmptyString
      | kept => String c kept
      end
  end.

Definition sample_platform : Platform :=
  {| JWT_SECRET := "secret";
     MAX_FILE_SIZE := None;
     ALLOWED_FILE_TYPES := None;
     jwt_verify := sample_verify;
     jwt_sign := λ payload _ _ _, default "" (Claims.userId payload) +:+ ".jwt";
     bcrypt_hash := λ password _ salt, salt +:+ "$" +:+ password;
     bcrypt_compare := λ password hash, String.eqb ("salt$" +:+ password) hash;
     parseInt := λ s, if String.eqb s "" then None else decimal 0 s;
     normalizeEmail := lowercase;
     validator_trim := λ s, trim_end (trim_start s);
     extname := λ _, ".png";
     getPublicUrl := λ path, "https://storage.example/" +:+ path;
     or_ilike := λ _ _, true |}.

Definition sample_person (id email role : string) (active : bool) : Personnel.row :=
  {| Personnel.id := id; Personnel.email := email;
     Personnel.password_hash := "salt$Secret123";
     Personnel.first_name := "Ada"; Personnel.last_name := "Okoye";
     Personnel.role := role; Personnel.license_number := None;
     Personnel.is_active := active; Personnel.created_at := 1000;
     Personnel.last_login := None |}.

Definition sample_patient (id : string) (created_at : Z) : Patient.row :=
  {| Patient.id := id; Patient.first_name := "Kofi"; Patient.last_name := "Mensah";
     Patient.date_of_birth := "1980-02-03"; Patient.gender := "male";
     Patient.phone_number := None; Patient.email := None; Patient.address := None;
     Patient.medical_history := None; Patient.is_deleted := false;
     Patient.created_by := Some "u-admin"; Patient.created_at := created_at;
     Patient.updated_at := None; Patient.updated_by := None;
     Patient.deleted_at := None; Patient.deleted_by := None |}.

Definition sample_world : World :=
  {| medical_personnel :=
       [sample_person "u-admin" "admin@x.com" "admin" true;
        sample_person "u-nurse" "nurse@x.com" "nurse" true;
        sample_person "u-former" "former@x.com" "doctor" false];
     patients := [sample_patient "p-1" 2000; sample_patient "p-2" 3000];
     symptoms := [];
     symptom_sessions := [];
     xray_images := [];
     bucket := ∅ |}.

(** Twenty-five patients, created one after the other. *)
Definition sample_ward : World :=
  {| medical_personnel := medical_personnel sample_world;
     patients := (λ i, sample_patient (pretty i) (Z.of_nat i)) <$> seq 1 25;
     symptoms := [];
     symptom_sessions := [];
     xray_images := [];
     bucket := ∅ |}.

Definition sample_env : Env :=
  {| now := 5000; thirtyDaysAgo := 1500; salt := "salt"; uuidv4 := "0000-1111" |}.

Definition sample_request {B} (authorization : option string) (id : string) (b : B)
  : Request B :=
  {| authorization := authorization; user := None; params_id := id;
     query := {| page := None; limit := None; search := None |};
     body := b; validation := []; part := None; file := None |}.

Definition sample_signup (email : string) : Request SignupBody :=
  sample_request None ""
    {| su_email := email; su_password := "Secret123"; su_firstName := "Efua";
       su_lastName := "Boateng"; su_role := "doctor"; su_licenseNumber := Some "MD-12345" |}.

Definition sample_file (name type : string) (bytes : Z) : File.t :=
  {| File.originalname := name; File.mimetype := type; File.size := bytes;
     File.buffer := "payload" |}.

Definition sample_upload (auth : option string) (f : File.t) : Request UploadInput :=
  {| authorization := auth; user := None; params_id := "";
     query := {| page := None; limit := None; search := None |};
     body := {| ub_patientId := Some "p-1"; ub_imageType := None; ub_notes := None;
                ub_bodyPart := Some "chest" |};
     validation := []; part := Some f; file := None |}.

(** The collaborator refuses the insert of the metadata row, and nothing
    else. *)
Definition metadata_insert_fails : Faults :=
  λ c, match c with Insert T_xray_images => true | _ => false end.

Definition sample_new_patient : PatientInput :=
  {| in_firstName := "Yaa"; in_lastName := "Asante"; in_dateOfBirth := "1991-07-19";
     in_gender := "female"; in_phoneNumber := Some "+233 20 000 0000"; in_email := None;
     in_address := None; in_medicalHistory := None |}.

(** The sample store after the admin soft-deleted patient p-1. *)
Definition sample_after_delete : World :=
  snd (@delete_patient sample_platform no_faults sample_env
         (sample_request (Some "Bearer admin.jwt") "p-1" ()) sample_world).


(** ** routes/auth.js: profile, refresh and logout *)

(** The answer of a route whose success body has a shape of its own;
    refusals are the error responses above. *)
Inductive Answer (P : Type) :=
| Refused (r : Response)
| Answered (status : Z) (payload : P).
Arguments Refused {P} _.
Arguments Answered {P} _ _.

Definition Route (B P : Type) := Request B → World → Answer P * World.

(** A middleware before such a route. *)
Definition guarded {B P} (m : Request B → World → Outcome B) (h : Route B P) : Route B P :=
  λ req w,
    match m req w with
    | Respond r => (Refused r, w)
    | Next req' => h req' w
    end.

Record ProfileJson := {
  pf_id : option string;
  pf_email : option string;
  pf_firstName : option string;
  pf_lastName : option string;
  pf_role : option string;
  pf_licenseNumber : option string;
  pf_createdAt : option Z;
  pf_lastLogin : option Z
}.

Record TokenJson := {
  tk_message : string;
  tk_token : string
}.

Section Account.
Context `{Platform}.

Definition profile_handler (F : Faults) : Route unit ProfileJson :=
  λ req w,
    match user req with
    | None =>         (* req.user.id throws: catch *)
        (Refused (Json 500 (ErrorBody "Profile fetch failed"
                              "An error occurred while fetching profile")), w)
    | Some u =>
        let r := single F (Select T_medical_personnel)
                   (personnel_by_id
                      ["id"; "email"; "first_name"; "last_name"; "role"; "license_number";
                       "created_at"; "last_login"] (ReqUser.id u) w) in
        match error r, data r with
        | None, Some user =>
            (Answered 200
               {| pf_id := User.id user;
                  pf_email := User.email user;
                  pf_firstName := User.first_name user;
                  pf_lastName := User.last_name user;
                  pf_role := User.role user;
                  pf_licenseNumber := User.license_number user;
                  pf_createdAt := User.created_at user;
                  pf_lastLogin := User.last_login user |}, w)
        | _, _ =>     (* error || !user *)
            (Refused (Json 404 (ErrorBody "User not found" "User profile not found")), w)
        end
    end.

Definition refresh_handler (env : Env) : Route unit TokenJson :=
  λ req w,
    match user req with
    | None =>         (* req.user.id throws: catch *)
        (Refused (Json 500 (ErrorBody "Token refresh failed"
                              "An error occurred while refreshing token")), w)
    | Some u =>
        let token :=
          jwt_sign {| Claims.userId := ReqUser.id u;
                      Claims.email := ReqUser.email u;
                      Claims.role := ReqUser.role u |}
            JWT_SECRET "24h" (now env) in
        (Answered 200 {| tk_message := "Token refreshed successfully"; tk_token := token |},
         w)
    end.

Definition logout_handler : Handler unit :=
  λ req w,
    (Json 200 (NoteBody "Logout successful"
                 "Please remove the token from your client storage"), w).

Definition profile (F : Faults) : Route unit ProfileJson :=
  guarded (authenticateToken F) (profile_handler F).

Definition refresh (F : Faults) (env : Env) : Route unit TokenJson :=
  guarded (authenticateToken F) (refresh_handler env).

Definition logout (F : Faults) : Handler unit :=
  guard (authenticateToken F) logout_handler.

End Account.

(** ** frontend/app/symptom-input.tsx *)

(** The updater [toggleSymptom] hands to [setSelectedSymptoms]; the one of
    [toggleComorbidity] is the same function. *)
Definition toggleSymptom (symptom : string) (prev : list string) : list string :=
  if bool_decide (symptom ∈ prev) then filter (λ s, s ≠ symptom) prev
  else prev ++ [symptom].

Definition toggleComorbidity (comorbidity : string) (prev : list string) : list string :=
  if bool_decide (comorbidity ∈ prev) then filter (λ c, c ≠ comorbidity) prev
  else prev ++ [comorbidity].

(** ** frontend/utils/api.ts *)

(** [s.replace(/\/$/, '')]: one slash at the end of the string is dropped. *)
Fixpoint drop_final_slash (s : string) : string :=
  match s with
  | EmptyString => EmptyString
  | String c rest =>
      if decide (c = Ascii.ascii_of_nat 47) then
        match rest with
        | EmptyString => EmptyString
        | _ => String c (drop_final_slash rest)
        end
      else String c (drop_final_slash rest)
  end.

(** [path.startsWith('/')]. *)
Definition starts_with_slash (path : string) : bool :=
  match path with
  | String c _ => bool_decide (c = Ascii.ascii_of_nat 47)
  | EmptyString => false
  end.

(** What the client runs on: the environment, the device, the storage. *)
Record Client := {
  EXPO_PUBLIC_API_URL : option string;   (* process.env.EXPO_PUBLIC_API_URL *)
  trim : string → string;                (* String.prototype.trim *)
  OS : string;                           (* Platform.OS *)
  authToken : option string              (* AsyncStorage.getItem('authToken') *)
}.

Definition getBaseUrl (c : Client) : string :=
  let envUrl := trim c <$> EXPO_PUBLIC_API_URL c in
  if truthy envUrl then drop_final_slash (default "" envUrl)
  else if String.eqb (OS c) "android" then "http://10.0.2.2:3000"
  else "http://localhost:3000".

(** The request [apiFetch] passes to [fetch]: the URL and the headers. *)
Record Fetch := {
  url : string;
  headers : gmap string string
}.

Definition apiFetch (c : Client) (path : string) (init_headers : gmap string string)
    (withAuth : bool) : Fetch :=
  let baseUrl := getBaseUrl c in
  let url := baseUrl +:+ (if starts_with_slash path then path else "/" +:+ path) in
  let headers := init_headers ∪ {[ "Content-Type" := "application/json" ]} in
  let headers :=
    if withAuth then
      let token := authToken c in
      if truthy token then <[ "Authorization" := "Bearer " +:+ default "" token ]> headers
      else headers
    else headers in
  {| url := url; headers := headers |}.

(** ** Further vocabulary *)

(** The keys of the schema hold: ids are unique in every table, and so are
    the emails of the credential store. *)
Definition well_formed (w : World) : Prop :=
  NoDup (Personnel.id <$> medical_personnel w)
  ∧ NoDup (Personnel.email <$> medical_personnel w)
  ∧ NoDup (Patient.id <$> patients w)
  ∧ NoDup (Symptom.id <$> symptoms w)
  ∧ NoDup (Session.id <$> symptom_sessions w)
  ∧ NoDup (Xray.id <$> xray_images w).

(** Every metadata row points at a blob of the bucket. *)
Definition backed (w : World) : Prop :=
  ∀ i, i ∈ xray_images w → is_Some (bucket w !! Xray.file_path i).

(** The patients a list response carries. *)
Definition rows_of (r : Response) : list PatientJson :=
  match r with
  | Json _ (PatientsBody rows _) => rows
  | _ => []
  end.

Definition status_of (r : Response) : option Z :=
  match r with
  | Json status _ => Some status
  | NextError _ => None
  end.

(** The string has no space in it. *)
Fixpoint spaceless (s : string) : bool :=
  match s with
  | EmptyString => true
  | String c rest => negb (bool_decide (c = space)) && spaceless rest
  end.

(** The page numbers [1 .. pages]. *)
Definition page_numbers (pages : Z) : list Z :=
  (λ i, Z.of_nat i) <$> seq 1 (Z.to_nat pages).

(** A platform whose tokens are the bare subject ids, for the account of
    [sample_signup]. *)
Definition plain_platform : Platform :=
  {| JWT_SECRET := "secret";
     MAX_FILE_SIZE := None;
     ALLOWED_FILE_TYPES := None;
     jwt_verify := λ token _,
       if String.eqb token "" then Throws "JsonWebTokenError"
       else Decoded (sample_claims token "efua@x.com" "doctor");
     jwt_sign := λ payload _ _ _, default "" (Claims.userId payload);
     bcrypt_hash := λ password _ salt, salt +:+ "$" +:+ password;
     bcrypt_compare := λ password hash, String.eqb ("salt$" +:+ password) hash;
     parseInt := λ s, if String.eqb s "" then None else decimal 0 s;
     normalizeEmail := lowercase;
     validator_trim := λ s, trim_end (trim_start s);
     extname := λ _, ".png";
     getPublicUrl := λ path, "https://storage.example/" +:+ path;
     or_ilike := λ _ _, true |}.

(** The list request for page [n] with the given limit. *)
Definition sample_page (limit : string) (n : Z) : Request unit :=
  {| authorization := None; user := None; params_id := "";
     query := {| page := Some (pretty n); limit := Some limit; search := None |};
     body := (); validation := []; part := None; file := None |}.

(** Two symptoms for patient p-1, recorded by the nurse. *)
Definition sample_symptoms : Request SymptomsInput :=
  with_user
    (sample_request None ""
       {| sb_patientId := "p-1";
          sb_symptoms :=
            [{| sy_name := "cough"; sy_severity := "moderate";
                sy_duration := Some "2 weeks"; sy_notes := Some "" |};
             {| sy_name := "fever"; sy_severity := "mild";
                sy_duration := None; sy_notes := Some "evenings" |}];
          sb_notes := Some "first visit" |})
    {| ReqUser.id := Some "u-nurse"; ReqUser.email := Some "nurse@x.com";
       ReqUser.role := Some "nurse" |}.

(** The session table is down. *)
Definition session_insert_fails : Faults :=
  λ c, match c with Insert T_symptom_sessions => true | _ => false end.

(** The sample store after the symptoms above were recorded. *)
Definition sample_recorded : World :=
  snd (record_symptoms_handler no_faults sample_env sample_symptoms sample_world).

(** An accepted PNG for patient p-1, sent by the nurse. *)
Definition sample_image : Request UploadInput :=
  with_user
    (with_file (sample_upload None (sample_file "chest.png" "image/png" 2048))
       (sample_file "chest.png" "image/png" 2048))
    {| ReqUser.id := Some "u-nurse"; ReqUser.email := Some "nurse@x.com";
       ReqUser.role := Some "nurse" |}.

(** The storage refuses removals, and nothing else fails. *)
Definition storage_remove_fails : Faults :=
  λ c, match c with StorageRemove => true | _ => false end.

(** The metadata table refuses deletions, and nothing else fails. *)
Definition metadata_delete_fails : Faults :=
  λ c, match c with Delete T_xray_images => true | _ => false end.

(** The sample store after that image was uploaded. *)
Definition sample_uploaded : World :=
  snd (@upload_xray_handler sample_platform no_faults sample_env sample_image sample_world).

(** [selectedSymptoms] after the chips in [taps] were pressed one after the
    other, from [useState([])]. *)
Definition selectedSymptoms (taps : list string) : list string :=
  foldl (λ prev symptom, toggleSymptom symptom prev) [] taps.

(** A device with a stored token, configured with a URL that ends in a
    slash. *)
Definition sample_client : Client :=
  {| EXPO_PUBLIC_API_URL := Some "https://api.example/";
     trim := λ s, s;
     OS := "android";
     authToken := Some "nurse.jwt" |}.

(** A request the validators found fault with. *)
Definition sample_finding : FieldError :=
  {| field := "email"; msg := "Please provide a valid email address";
     value := Some "nobody" |}.

Definition sample_invalid {B} (authorization : option string) (b : B) : Request B :=
  {| authorization := authorization; user := None; params_id := "p-1";
     query := {| page := None; limit := None; search := None |};
     body := b; validation := [sample_finding]; part := None; file := None |}.

(** * Properties *)

(** Membership of a listed row in a concrete table. *)
Ltac listed := simpl; repeat first [apply list_elem_of_here | apply list_elem_of_further].

(** A decidable fact about concrete data. *)
Ltac evaluated := apply (bool_decide_unpack _); vm_compute; exact I.

(** ** The idioms on small inputs *)

Example split_header : split space "Bearer abc.def" = ["Bearer"; "abc.def"].
Proof. reflexivity. Qed.

Example split_types :
  split comma "image/jpeg,image/png,image/jpg" = ["image/jpeg"; "image/png"; "image/jpg"].
Proof. reflexivity. Qed.

(** The token is the second piece of the header, whatever the first one
    is; a header without a second piece, or with an empty one, has none. *)
Example bearer_pieces :
  bearer (Some "Bearer abc.def") = Some "abc.def"
  ∧ bearer (Some "Token abc.def") = Some "abc.def"
  ∧ bearer (Some "Bearer") = None
  ∧ truthy (bearer (Some "Bearer ")) = false
  ∧ bearer None = None.
Proof. repeat split. Qed.

Example ceil_div_pages : ceil_div 25 10 = 3 ∧ ceil_div 30 10 = 3 ∧ ceil_div 0 10 = 0.
Proof. repeat split. Qed.

Example range_second_page : range 2 3 ["a"; "b"; "c"; "d"; "e"] = ["c"; "d"].
Proof. reflexivity. Qed.

(** ** Queries over a table with a key *)

Lemma filter_none {A} (P : A → Prop) `{∀ x, Decision (P x)} (l : list A) :
  (∀ x, x ∈ l → ¬ P x) → filter P l = [].
Proof.
  induction l as [|a l IH]; intros Hno; [done|].
  rewrite filter_cons_False; [|apply Hno; left].
  apply IH. intros x Hx. apply Hno. by right.
Qed.

(** Over a key without duplicates, the rows a predicate selects are exactly
    [x] when the predicate holds of the rows that share [x]'s key. *)
Lemma filter_key {A K} (key : A → K) (P : A → Prop) `{∀ x, Decision (P x)}
    (l : list A) (x : A) :
  NoDup (key <$> l) → x ∈ l → (∀ y, y ∈ l → P y ↔ key y = key x) →
  filter P l = [x].
Proof.
  induction l as [|a l IH]; intros Hnd Hx HP; [by apply elem_of_nil in Hx|].
  rewrite fmap_cons in Hnd. apply NoDup_cons in Hnd as [Hfresh Hnd].
  apply elem_of_cons in Hx as [->|Hx].
  - rewrite filter_cons_True; [|apply HP; [left|done]].
    f_equal. apply filter_none. intros y Hy Py.
    apply HP in Py; [|by right].
    apply Hfresh. rewrite <- Py. apply list_elem_of_fmap. eauto.
  - rewrite filter_cons_False.
    + apply IH; [done|done|]. intros y Hy. apply HP. by right.
    + intros Pa. apply HP in Pa; [|left].
      apply Hfresh. rewrite Pa. apply list_elem_of_fmap. eauto.
Qed.

Lemma single_one {A} (F : Faults) (c : Call) (x : A) :
  F c = false → single F c [x] = ok x.
Proof. intros HF. unfold single, many, single_of. by rewrite HF. Qed.

Lemma single_nil {A} (F : Faults) (c : Call) :
  data (single F c (@nil A)) = None ∧ is_Some (error (single F c (@nil A))).
Proof. unfold single, many, single_of. destruct (F c); simpl; eauto. Qed.

(** [.single()] yields a row only when the query matched that row alone and
    the call went through. *)
Lemma single_data {A} (F : Faults) (c : Call) (rows : list A) (x : A) :
  data (single F c rows) = Some x → rows = [x] ∧ F c = false.
Proof.
  unfold single, many, single_of. destruct (F c); simpl; [done|].
  destruct rows as [|a [|b rows]]; simpl; [done| |done]. by intros [= ->].
Qed.

Lemma single_error_or_data {A} (F : Faults) (c : Call) (rows : list A) :
  (∃ x, single F c rows = ok x) ∨ (∃ e, single F c rows = failed e).
Proof.
  unfold single, many, single_of. destruct (F c); simpl; [eauto|].
  destruct rows as [|a [|b rows]]; simpl; eauto.
Qed.

(** ** The auth middleware *)

Section Auth.
Context `{Platform}.
Context {B : Type}.
Implicit Types (req : Request B) (w : World) (F : Faults) (r : Personnel.row).

Lemma personnel_by_id_found columns w r :
  NoDup (Personnel.id <$> medical_personnel w) → r ∈ medical_personnel w →
  personnel_by_id columns (Some (Personnel.id r)) w = [select_columns columns r].
Proof.
  intros Hnd Hr. unfold personnel_by_id.
  rewrite (filter_key Personnel.id _ _ r); [done|done|done|].
  intros y _. split; [by intros [= ->]|by intros ->].
Qed.

Lemma personnel_by_id_missing columns w userId :
  (∀ r, r ∈ medical_personnel w → Some (Personnel.id r) ≠ userId) →
  personnel_by_id columns userId w = [].
Proof. intros Hno. unfold personnel_by_id. by rewrite filter_none. Qed.

Lemma bears_token_truthy req decoded :
  bears_token req decoded →
  ∃ token, truthy (bearer (authorization req)) = true
           ∧ default "" (bearer (authorization req)) = token
           ∧ jwt_verify token JWT_SECRET = Decoded decoded.
Proof.
  intros (token & Hb & Hne & Hv). exists token. rewrite Hb. simpl.
  split; [|done]. destruct token; [done|reflexivity].
Qed.

Lemma authenticateToken_missing F req w :
  truthy (bearer (authorization req)) = false →
  authenticateToken F req w
  = respond 401 "Access token required" "Please provide a valid authentication token".
Proof. intros Hno. unfold authenticateToken. by rewrite Hno. Qed.

Lemma authenticateToken_unknown F req w decoded :
  bears_token req decoded →
  (∀ r, r ∈ medical_personnel w → Some (Personnel.id r) ≠ Claims.userId decoded) →
  authenticateToken F req w
  = respond 401 "Invalid token" "User not found or account deactivated".
Proof.
  intros (token & Ht & <- & Hv)%bears_token_truthy Hno.
  unfold authenticateToken. rewrite Ht, Hv. simpl.
  rewrite personnel_by_id_missing by done.
  unfold single, many, single_of. by destruct (F _).
Qed.

Lemma authenticateToken_found F req w r :
  token_of F req w r →
  authenticateToken F req w
  = if Personnel.is_active r then Next (with_user req (identity_of r))
    else respond 403 "Account deactivated"
           "Your account has been deactivated. Please contact administrator.".
Proof.
  intros ((decoded & (token & Ht & <- & Hv)%bears_token_truthy & Hid) & Hr & Hnd & HF).
  unfold authenticateToken. rewrite Ht, Hv. simpl. rewrite Hid.
  rewrite personnel_by_id_found by done. rewrite single_one by done. simpl.
  by destruct (Personnel.is_active r).
Qed.

End Auth.

(** C1.  On an authenticated route the auth middleware answers 401 when the
    Authorization header carries no bearer token; 401 when the token verifies
    but the credential store has no identity with the token's subject id; 403
    when that identity exists and is inactive, so a still-valid token of a
    deactivated identity is always refused with 403; and when the identity
    exists and is active it calls next with the request it was given, whose
    [user] now holds the id, email and role of that identity and whose other
    fields are as they were.  (For the two cases that read the identity, the
    store answers the lookup and ids are the table's primary key.) *)
Theorem authenticateToken_contract `{Platform} {B} (F : Faults) (req : Request B)
    (w : World) :
  (truthy (bearer (authorization req)) = false →
   authenticateToken F req w
   = respond 401 "Access token required" "Please provide a valid authentication token")
  ∧ (∀ decoded, bears_token req decoded →
       (∀ r, r ∈ medical_personnel w → Some (Personnel.id r) ≠ Claims.userId decoded) →
       authenticateToken F req w
       = respond 401 "Invalid token" "User not found or account deactivated")
  ∧ (∀ r, token_of F req w r → Personnel.is_active r = false →
       authenticateToken F req w
       = respond 403 "Account deactivated"
           "Your account has been deactivated. Please contact administrator.")
  ∧ (∀ r, token_of F req w r → Personnel.is_active r = true →
       ∃ req',
         authenticateToken F req w = Next req'
         ∧ user req' = Some {| ReqUser.id := Some (Personnel.id r);
                               ReqUser.email := Some (Personnel.email r);
                               ReqUser.role := Some (Personnel.role r) |}
         ∧ authorization req' = authorization req
         ∧ params_id req' = params_id req
         ∧ query req' = query req
         ∧ body req' = body req
         ∧ validation req' = validation req
         ∧ part req' = part req
         ∧ file req' = file req).
Proof.
  split; [apply authenticateToken_missing|].
  split; [intros decoded; apply authenticateToken_unknown|].
  split; intros r Htok Hact; rewrite (authenticateToken_found F req w r Htok), Hact.
  - reflexivity.
  - eexists. split; [reflexivity|]. by repeat split.
Qed.

(** Concrete tokens against the sample credential store. *)
Lemma sample_token_of {B} (F : Faults) (auth token : string) (id : string) (b : B)
    (decoded : Claims.t) (r : Personnel.row) :
  bearer (Some auth) = Some token → token ≠ "" →
  sample_verify token "secret" = Decoded decoded →
  Claims.userId decoded = Some (Personnel.id r) →
  r ∈ medical_personnel sample_world →
  F (Select T_medical_personnel) = false →
  @token_of sample_platform B F (sample_request (Some auth) id b) sample_world r.
Proof.
  intros Hb Hne Hv Hid Hr HF. split; [|split; [done|split; [|done]]].
  - exists decoded. split; [|done]. by exists token.
  - evaluated.
Defined.

Lemma authenticateToken_contract_witness :
  let auth := @authenticateToken sample_platform unit no_faults in
  auth (sample_request None "" ()) sample_world
  = respond 401 "Access token required" "Please provide a valid authentication token"
  ∧ auth (sample_request (Some "Bearer ghost.jwt") "" ()) sample_world
    = respond 401 "Invalid token" "User not found or account deactivated"
  ∧ auth (sample_request (Some "Bearer former.jwt") "" ()) sample_world
    = respond 403 "Account deactivated"
        "Your account has been deactivated. Please contact administrator."
  ∧ ∃ req',
      auth (sample_request (Some "Bearer admin.jwt") "" ()) sample_world = Next req'
      ∧ user req' = Some {| ReqUser.id := Some "u-admin";
                            ReqUser.email := Some "admin@x.com";
                            ReqUser.role := Some "admin" |}
      ∧ authorization req' = Some "Bearer admin.jwt".
Proof.
  intros auth. unfold auth. split; [|split; [|split]].
  - apply (@authenticateToken_contract sample_platform). reflexivity.
  - eapply (proj1 (proj2 (@authenticateToken_contract sample_platform unit no_faults
                            (sample_request (Some "Bearer ghost.jwt") "" ())
                            sample_world))).
    + exists "ghost.jwt". split; [reflexivity|split; [discriminate|reflexivity]].
    + apply Forall_forall. evaluated.
  - apply (proj1 (proj2 (proj2 (@authenticateToken_contract sample_platform unit no_faults
                                   (sample_request (Some "Bearer former.jwt") "" ())
                                   sample_world)))
             (sample_person "u-former" "former@x.com" "doctor" false));
      [|reflexivity].
    eapply sample_token_of; [reflexivity|discriminate|reflexivity|reflexivity|listed|reflexivity].
  - destruct (proj2 (proj2 (proj2 (@authenticateToken_contract sample_platform unit
                                      no_faults
                                      (sample_request (Some "Bearer admin.jwt") "" ())
                                      sample_world)))
                (sample_person "u-admin" "admin@x.com" "admin" true))
      as (req' & Hnext & Huser & Hauth & _); [|reflexivity|].
    + eapply sample_token_of;
        [reflexivity|discriminate|reflexivity|reflexivity|listed|reflexivity].
    + exists req'. split; [exact Hnext|]. split; [exact Huser|exact Hauth].
Defined.

(** ** The optional variant *)

(** The optional variant selects 'id, email, role': the object it reads
    [is_active] from never has that column. *)
Lemma is_active_not_selected `{Platform} (userId : option string) (w : World)
    (user : User.object) :
  user ∈ personnel_by_id ["id"; "email"; "role"] userId w → User.is_active user = None.
Proof.
  unfold personnel_by_id. intros (r & -> & _)%list_elem_of_fmap. reflexivity.
Qed.

(** C3 (the code departs from the claim).  Whatever the request carries,
    the optional variant calls next with the request as it came: it never
    rejects, and it never attaches an identity either, not even for a valid
    token of an existing, active identity. *)
Theorem optionalAuth_never_attaches `{Platform} {B} (F : Faults) (req : Request B)
    (w : World) :
  optionalAuth F req w = Next req.
Proof.
  unfold optionalAuth.
  destruct (truthy _); [|done].
  destruct (jwt_verify _ _) as [decoded|name]; [|done].
  destruct (data _) as [user|] eqn:Hdata; [|done].
  apply single_data in Hdata as [Hrows _].
  rewrite (is_active_not_selected (Claims.userId decoded) w user); [done|].
  rewrite Hrows. left.
Qed.

(** The admin of the sample store, active and bearing a valid token, goes
    through the optional variant without an identity, while the required
    middleware attaches one for the same request. *)
Example optionalAuth_active_admin :
  let req := sample_request (Some "Bearer admin.jwt") "" () in
  @optionalAuth sample_platform unit no_faults req sample_world = Next req
  ∧ @authenticateToken sample_platform unit no_faults req sample_world
    = Next (with_user req (identity_of (sample_person "u-admin" "admin@x.com" "admin" true))).
Proof. split; reflexivity. Qed.

(** ** The role gate *)

Section RoleGate.
Context `{Platform}.

Lemma requireRole_decides {B} (allowedRoles : list string) (req : Request B) :
  requireRole allowedRoles req
  = match user req with
    | None => respond 401 "Authentication required" "Please login to access this resource"
    | Some u =>
        if includes allowedRoles (ReqUser.role u) then Next req
        else respond 403 "Insufficient permissions"
               "You do not have permission to access this resource"
    end.
Proof.
  unfold requireRole. destruct (user req) as [u|]; [|done].
  by destruct (includes _ _).
Qed.

Lemma includes_identity (allowedRoles : list string) (r : Personnel.row) :
  includes allowedRoles (ReqUser.role (identity_of r))
  = bool_decide (Personnel.role r ∈ allowedRoles).
Proof. reflexivity. Qed.

(** A route behind [router.use(authenticateToken)], called with a valid
    token of an active identity, runs what follows with that identity
    attached. *)
Lemma guard_authenticated {B} (F : Faults) (h : Handler B) (req : Request B) (w : World)
    (r : Personnel.row) :
  token_of F req w r → Personnel.is_active r = true →
  guard (authenticateToken F) h req w = h (with_user req (identity_of r)) w.
Proof.
  intros Htok Hact. unfold guard.
  rewrite (authenticateToken_found F req w r Htok). by rewrite Hact.
Qed.

Lemma update_where_length {A} (matches : A → bool) (change : A → A) (rows : list A) :
  length (update_where matches change rows) = length rows.
Proof. unfold update_where. apply length_fmap. Qed.

Lemma update_where_hit {A} (matches : A → bool) (change : A → A) (rows : list A) (x : A) :
  x ∈ rows → matches x = true → change x ∈ update_where matches change rows.
Proof.
  intros Hx Hm. unfold update_where. apply list_elem_of_fmap.
  exists x. by rewrite Hm.
Qed.

Lemma update_where_miss {A} (matches : A → bool) (change : A → A) (rows : list A) (x : A) :
  x ∈ rows → matches x = false → x ∈ update_where matches change rows.
Proof.
  intros Hx Hm. unfold update_where. apply list_elem_of_fmap.
  exists x. by rewrite Hm.
Qed.

Lemma update_where_keys {A K} (key : A → K) (matches : A → bool) (change : A → A)
    (rows : list A) :
  (∀ x, key (change x) = key x) →
  key <$> update_where matches change rows = key <$> rows.
Proof.
  intros Hkey. unfold update_where. rewrite <- list_fmap_compose.
  apply list_fmap_ext. intros i x _. simpl. by destruct (matches x).
Qed.

(** What the soft delete does to the store when the update goes through. *)
Lemma delete_patient_handler_ok (F : Faults) (env : Env) (req : Request ()) (w : World)
    (u : ReqUser.t) :
  user req = Some u → F (Update T_patients) = false →
  delete_patient_handler F env req w
  = (Json 200 (NoteBody "Patient deleted successfully"
                 "Patient record has been soft deleted"),
     set_patients
       (update_where (λ p, bool_decide (Patient.id p = params_id req))
          (mark_deleted (now env) (ReqUser.id u)) (patients w)) w).
Proof.
  intros Hu HF. unfold delete_patient_handler, update_patients. by rewrite Hu, HF.
Qed.

End RoleGate.

(** C2.  [requireRole(allowedRoles)] answers 401 when no identity is
    attached to the request, 403 when the attached identity's role is not one
    of [allowedRoles], and calls next otherwise; it takes the request and the
    allowed roles only, and its verdict depends on nothing but [req.user].
    On patient-delete, an active identity whose role is not admin (a nurse,
    say) gets 403 and the store is left as it was; an admin gets 200 and the
    patient is soft-deleted: the table keeps the same rows under the same
    ids, and the row with the requested id now has [is_deleted = true]. *)
Theorem requireRole_gate `{Platform} :
  (∀ B (allowedRoles : list string) (req : Request B),
     (user req = None →
      requireRole allowedRoles req
      = respond 401 "Authentication required" "Please login to access this resource")
     ∧ (∀ u, user req = Some u → includes allowedRoles (ReqUser.role u) = false →
          requireRole allowedRoles req
          = respond 403 "Insufficient permissions"
              "You do not have permission to access this resource")
     ∧ (∀ u, user req = Some u → includes allowedRoles (ReqUser.role u) = true →
          requireRole allowedRoles req = Next req)
     ∧ (∀ req' : Request B, user req' = user req →
          rejection (requireRole allowedRoles req')
          = rejection (requireRole allowedRoles req)))
  ∧ (∀ F env (req : Request ()) w r,
       token_of F req w r → Personnel.is_active r = true →
       Personnel.role r ≠ "admin" →
       delete_patient F env req w
       = (Json 403 (ErrorBody "Insufficient permissions"
                      "You do not have permission to access this resource"), w))
  ∧ (∀ F env (req : Request ()) w r,
       token_of F req w r → Personnel.is_active r = true →
       Personnel.role r = "admin" → F (Update T_patients) = false →
       ∃ w', delete_patient F env req w
             = (Json 200 (NoteBody "Patient deleted successfully"
                            "Patient record has been soft deleted"), w')
             ∧ Patient.id <$> patients w' = Patient.id <$> patients w
             ∧ (∀ p, p ∈ patients w → Patient.id p = params_id req →
                  mark_deleted (now env) (Some (Personnel.id r)) p ∈ patients w')
             ∧ (∀ p', p' ∈ patients w' → Patient.id p' = params_id req →
                  Patient.is_deleted p' = true)).
Proof.
  split; [|split].
  - intros B allowedRoles req. repeat split.
    + intros Hu. rewrite requireRole_decides. by rewrite Hu.
    + intros u Hu Hinc. rewrite requireRole_decides. by rewrite Hu, Hinc.
    + intros u Hu Hinc. rewrite requireRole_decides. by rewrite Hu, Hinc.
    + intros req' Hsame. rewrite !requireRole_decides, Hsame.
      destruct (user req) as [u|]; [|done]. by destruct (includes _ _).
  - intros F env req w r Htok Hact Hrole. unfold delete_patient.
    rewrite (guard_authenticated F _ req w r Htok Hact).
    unfold guard. rewrite requireRole_decides. simpl.
    rewrite bool_decide_eq_false_2; [done|].
    intros Hin. apply list_elem_of_singleton in Hin. done.
  - intros F env req w r Htok Hact Hrole HF. unfold delete_patient.
    rewrite (guard_authenticated F _ req w r Htok Hact).
    unfold guard. rewrite requireRole_decides. simpl. rewrite Hrole. simpl.
    rewrite (delete_patient_handler_ok F env _ w (identity_of r)) by done.
    eexists. split; [reflexivity|]. simpl. split; [|split].
    + by apply update_where_keys.
    + intros p Hp Hid. apply update_where_hit; [done|]. by apply bool_decide_eq_true_2.
    + intros p' (p & -> & Hp)%list_elem_of_fmap Hid.
      destruct (bool_decide (Patient.id p = params_id req)) eqn:Hm; [done|].
      apply bool_decide_eq_false_1 in Hm. done.
Qed.

Lemma requireRole_gate_witness :
  let nurse := sample_request (Some "Bearer nurse.jwt") "p-1" () in
  let admin := sample_request (Some "Bearer admin.jwt") "p-1" () in
  requireRole ["admin"] nurse
  = respond 401 "Authentication required" "Please login to access this resource"
  ∧ @delete_patient sample_platform no_faults sample_env nurse sample_world
    = (Json 403 (ErrorBody "Insufficient permissions"
                   "You do not have permission to access this resource"), sample_world)
  ∧ ∃ w', @delete_patient sample_platform no_faults sample_env admin sample_world
          = (Json 200 (NoteBody "Patient deleted successfully"
                         "Patient record has been soft deleted"), w')
          ∧ Patient.id <$> patients w' = ["p-1"; "p-2"]
          ∧ mark_deleted 5000 (Some "u-admin") (sample_patient "p-1" 2000) ∈ patients w'.
Proof.
  intros nurse admin.
  destruct (@requireRole_gate sample_platform) as (Hgate & Hnurse & Hadmin).
  split; [|split].
  - apply (Hgate unit ["admin"] nurse). reflexivity.
  - apply (Hnurse no_faults sample_env nurse sample_world
             (sample_person "u-nurse" "nurse@x.com" "nurse" true));
      [|reflexivity|discriminate].
    eapply sample_token_of; [reflexivity|discriminate|reflexivity|reflexivity|listed|reflexivity].
  - destruct (Hadmin no_faults sample_env admin sample_world
                (sample_person "u-admin" "admin@x.com" "admin" true))
      as (w' & Hres & Hids & Hrow & _);
      [|reflexivity|reflexivity|reflexivity|].
    + eapply sample_token_of;
        [reflexivity|discriminate|reflexivity|reflexivity|listed|reflexivity].
    + exists w'. split; [exact Hres|]. split; [exact Hids|].
      apply Hrow; [listed|reflexivity].
Defined.

(** ** Pagination of the patient list *)

Lemma ceil_div_opp (a b : Z) : ceil_div a b = - ((- a) / b).
Proof.
  unfold ceil_div, Qceiling. f_equal. rewrite Zdiv_Qdiv.
  apply Qfloor_comp. rewrite inject_Z_opp. unfold Qdiv. ring.
Qed.

(** [ceil_div a b] is the least integer whose multiple by [b] reaches [a]. *)
Lemma ceil_div_bounds (a b : Z) :
  0 < b → b * (ceil_div a b - 1) < a ≤ b * ceil_div a b.
Proof.
  intros Hb. rewrite ceil_div_opp.
  pose proof (Z.mul_div_le (- a) b Hb).
  pose proof (Z.mul_succ_div_gt (- a) b Hb).
  lia.
Qed.

Lemma or_number_nonzero (n d : Z) : n ≠ 0 → or_number (Some n) d = n.
Proof. intros Hn. unfold or_number. by rewrite (proj2 (Z.eqb_neq n 0) Hn). Qed.

#[local] Instance newest_first_total : Total newest_first.
Proof. intros a b. unfold newest_first. lia. Qed.

Lemma order_created_at_desc_sorted (rows : list Patient.row) :
  Sorted newest_first (order_created_at_desc rows).
Proof. apply (Sorted_merge_sort newest_first). Qed.

Lemma order_created_at_desc_perm (rows : list Patient.row) :
  order_created_at_desc rows ≡ₚ rows.
Proof. apply merge_sort_Permutation. Qed.

Lemma order_created_at_desc_length (rows : list Patient.row) :
  length (order_created_at_desc rows) = length rows.
Proof. apply Permutation_length, order_created_at_desc_perm. Qed.

(** The rows of [.range(from, to)] are the positions [from .. to] of the
    list. *)
Lemma range_lookup {A} (from to : Z) (rows : list A) (i : nat) :
  0 ≤ from →
  range from to rows !! i
  = if decide (from + Z.of_nat i ≤ to) then rows !! (Z.to_nat from + i)%nat else None.
Proof.
  intros Hfrom. unfold range. case_decide as Hi.
  - rewrite lookup_take_lt by lia. apply lookup_drop.
  - apply lookup_take_ge. lia.
Qed.

Lemma range_length {A} (from to : Z) (rows : list A) :
  0 ≤ from → from ≤ to + 1 →
  Z.of_nat (length (range from to rows))
  = Z.min (to - from + 1) (Z.max 0 (Z.of_nat (length rows) - from)).
Proof.
  intros Hfrom Hto. unfold range. rewrite length_take, length_drop. lia.
Qed.

(** C4.  A list request with page p >= 1 and limit l in [1,100], over a
    collection of n matching patients ordered newest first, is answered with
    the envelope totalPages = ceil(n / l), currentPage = p, totalCount = n,
    hasNext = (p < totalPages), hasPrev = (p > 1), and with the rows at
    positions (p-1)*l .. (p-1)*l + l - 1 of the ordered collection; page 2 with
    limit 10 over 25 patients gives 10 rows, hasNext, hasPrev and 3 pages.
    (The store answers the query.) *)
Theorem list_patients_pagination `{Platform} (F : Faults) (req : Request ()) (w : World)
    (p l : Z) :
  page (query req) ≫= parseInt = Some p →
  limit (query req) ≫= parseInt = Some l →
  1 ≤ p → 1 ≤ l ≤ 100 →
  F (Select T_patients) = false →
  let ordered := listed_patients (or_string (search (query req)) "") w in
  let n := Z.of_nat (length ordered) in
  ∃ rows envelope,
    list_patients_handler F req w
    = (Json 200 (PatientsBody (patient_created <$> rows) envelope), w)
    ∧ totalPages envelope = ceil_div n l
    ∧ l * (totalPages envelope - 1) < n ≤ l * totalPages envelope
    ∧ currentPage envelope = p
    ∧ totalCount envelope = n
    ∧ hasNext envelope = bool_decide (p < totalPages envelope)
    ∧ hasPrev envelope = bool_decide (p > 1)
    ∧ (∀ i : nat,
         rows !! i
         = if decide ((p - 1) * l + Z.of_nat i ≤ (p - 1) * l + l - 1)
           then ordered !! (Z.to_nat ((p - 1) * l) + i)%nat else None)
    ∧ Z.of_nat (length rows) = Z.min l (Z.max 0 (n - (p - 1) * l))
    ∧ (p = 2 → l = 10 → n = 25 →
       length rows = 10%nat ∧ hasNext envelope = true ∧ hasPrev envelope = true
       ∧ totalPages envelope = 3).
Proof.
  intros Hp Hl Hp1 Hl1 HF ordered n.
  assert (Hcount : or_number (Some n) 0 = n).
  { unfold or_number. destruct (n =? 0) eqn:Hn; [|done]. by apply Z.eqb_eq in Hn. }
  assert (Hceil := ceil_div_bounds n l ltac:(lia)).
  eexists (range ((p - 1) * l) ((p - 1) * l + l - 1) ordered), _.
  split.
  { unfold list_patients_handler, many. rewrite Hp, Hl, HF.
    rewrite !or_number_nonzero by lia. simpl. fold ordered. fold n.
    unfold or_number in Hcount. rewrite Hcount. reflexivity. }
  simpl.
  assert (Hlen : Z.of_nat (length (range ((p - 1) * l) ((p - 1) * l + l - 1) ordered))
                 = Z.min l (Z.max 0 (n - (p - 1) * l))).
  { rewrite range_length by nia. fold n. f_equal. lia. }
  split; [done|]. split; [done|]. split; [done|]. split; [done|].
  split.
  { destruct (p <? ceil_div n l) eqn:Hlt.
    - apply Z.ltb_lt in Hlt. by rewrite bool_decide_eq_true_2.
    - apply Z.ltb_ge in Hlt. rewrite bool_decide_eq_false_2; [done|lia]. }
  split.
  { destruct (1 <? p) eqn:Hlt.
    - apply Z.ltb_lt in Hlt. rewrite bool_decide_eq_true_2; [done|lia].
    - apply Z.ltb_ge in Hlt. rewrite bool_decide_eq_false_2; [done|lia]. }
  split; [intros i; apply range_lookup; nia|].
  split; [exact Hlen|].
  intros -> -> Hn. rewrite Hn in *.
  assert (ceil_div 25 10 = 3) as -> by reflexivity.
  repeat split; lia.
Qed.

Lemma list_patients_pagination_witness :
  let req : Request () :=
    {| authorization := None; user := None; params_id := "";
       query := {| page := Some "2"; limit := Some "10"; search := None |};
       body := (); validation := []; part := None; file := None |} in
  ∃ rows envelope,
    @list_patients_handler sample_platform no_faults req sample_ward
    = (Json 200 (PatientsBody (patient_created <$> rows) envelope), sample_ward)
    ∧ length rows = 10%nat ∧ hasNext envelope = true ∧ hasPrev envelope = true
    ∧ totalPages envelope = 3 ∧ currentPage envelope = 2 ∧ totalCount envelope = 25.
Proof.
  intros req.
  destruct (@list_patients_pagination sample_platform no_faults req sample_ward 2 10)
    as (rows & envelope & Hres & _ & _ & Hpage & Hcount & _ & _ & _ & _ & Hcase);
    [reflexivity|reflexivity|lia|lia|reflexivity|].
  destruct Hcase as (Hrows & Hnext & Hprev & Hpages); [reflexivity|reflexivity|evaluated|].
  exists rows, envelope.
  split; [exact Hres|]. split; [exact Hrows|]. split; [exact Hnext|].
  split; [exact Hprev|]. split; [exact Hpages|]. split; [exact Hpage|].
  rewrite Hcount. evaluated.
Defined.

(** ** Signup and signin *)

Section Accounts.
Context `{Platform}.

Lemma personnel_by_email_missing columns (email : string) (w : World) :
  (∀ r, r ∈ medical_personnel w → Personnel.email r ≠ email) →
  personnel_by_email columns email w = [].
Proof. intros Hno. unfold personnel_by_email. by rewrite filter_none. Qed.

Lemma personnel_by_email_found columns (w : World) (r : Personnel.row) :
  NoDup (Personnel.email <$> medical_personnel w) → r ∈ medical_personnel w →
  personnel_by_email columns (Personnel.email r) w = [select_columns columns r].
Proof.
  intros Hnd Hr. unfold personnel_by_email.
  by rewrite (filter_key Personnel.email _ _ r).
Qed.

Lemma handleValidationErrors_passes {B} (req : Request B) :
  validation req = [] → handleValidationErrors req = Next req.
Proof. intros Hv. unfold handleValidationErrors. by rewrite Hv. Qed.

Lemma handleValidationErrors_rejects {B} (req : Request B) :
  validation req ≠ [] →
  handleValidationErrors req
  = Respond (Json 400 (ValidationBody "Validation failed" "Please check your input data"
                         (validation req))).
Proof.
  intros Hv. unfold handleValidationErrors. by rewrite bool_decide_eq_false_2.
Qed.

(** An account with the email is on file: signup answers 409 and writes
    nothing. *)
Lemma signup_handler_conflict (F : Faults) (env : Env) (req : Request SignupBody)
    (w : World) (user : User.object) :
  F (Select T_medical_personnel) = false →
  personnel_by_email ["id"] (su_email (body req)) w = [user] →
  signup_handler F env req w
  = (Json 409 (ErrorBody "User already exists"
                 "An account with this email already exists"), w).
Proof.
  intros HF Hrows. unfold signup_handler. simpl. rewrite Hrows.
  by rewrite single_one.
Qed.

End Accounts.

(** C5, as amended.  The validators of the signup route rewrite the
    payload before the handler reads it: the email is normalised, the names
    and the licence number are trimmed.  For a payload that passes validation,
    the store answering its calls: when no identity has the normalised email,
    exactly one identity is appended to the credential store, under an id no
    row had and with the normalised email and the trimmed names, and the
    answer is 201 with that user and a token; a second signup whose email
    normalises to the same address then gets 409 and leaves the store as it
    is.  When an identity with the normalised email is on file (email being
    UNIQUE), the answer is 409 and nothing is inserted. *)
Theorem signup_once `{Platform} (F : Faults) (env : Env) (req : Request SignupBody)
    (w : World) :
  validation req = [] →
  F (Select T_medical_personnel) = false →
  F (Insert T_medical_personnel) = false →
  let b := body req in
  let email := normalizeEmail (su_email b) in
  ((∀ r, r ∈ medical_personnel w → Personnel.email r ≠ email) →
   ∃ new_id w',
     let created :=
       {| Personnel.id := new_id;
          Personnel.email := email;
          Personnel.password_hash := bcrypt_hash (su_password b) 12 (salt env);
          Personnel.first_name := validator_trim (su_firstName b);
          Personnel.last_name := validator_trim (su_lastName b);
          Personnel.role := su_role b;
          Personnel.license_number := validator_trim <$> su_licenseNumber b;
          Personnel.is_active := true;
          Personnel.created_at := now env;
          Personnel.last_login := None |} in
     signup F env req w
     = (Json 201
          (AccountBody "User account created successfully"
             {| uj_id := Some new_id;
                uj_email := Some email;
                uj_firstName := Some (validator_trim (su_firstName b));
                uj_lastName := Some (validator_trim (su_lastName b));
                uj_role := Some (su_role b);
                uj_licenseNumber := validator_trim <$> su_licenseNumber b;
                uj_createdAt := Some (now env) |}
             (jwt_sign {| Claims.userId := Some new_id;
                          Claims.email := Some email;
                          Claims.role := Some (su_role b) |}
                JWT_SECRET "24h" (now env))), w')
     ∧ w' = set_medical_personnel (medical_personnel w ++ [created]) w
     ∧ medical_personnel w' = medical_personnel w ++ [created]
     ∧ (new_id ∉ Personnel.id <$> medical_personnel w)
     ∧ (∀ env' (again : Request SignupBody),
          validation again = [] → normalizeEmail (su_email (body again)) = email →
          signup F env' again w'
          = (Json 409 (ErrorBody "User already exists"
                         "An account with this email already exists"), w')))
  ∧ (NoDup (Personnel.email <$> medical_personnel w) →
     (∃ r, r ∈ medical_personnel w ∧ Personnel.email r = email) →
     signup F env req w
     = (Json 409 (ErrorBody "User already exists"
                    "An account with this email already exists"), w)).
Proof.
  intros Hvalid HFs HFi b email. split.
  - intros Hfree.
    exists (uuid_generate_v4 (Personnel.id <$> medical_personnel w)). eexists.
    split; [|split; [reflexivity|split; [reflexivity|split]]].
    + unfold signup, validated, guard, signupValidation.
      rewrite handleValidationErrors_passes by done.
      unfold signup_handler. simpl. fold b. fold email.
      rewrite personnel_by_email_missing by done.
      destruct (single_nil F (Select T_medical_personnel) (A:=User.object)) as [-> _].
      unfold insert_personnel. rewrite HFi. simpl.
      rewrite bool_decide_eq_false_2; [reflexivity|].
      intros (r & Hemail & Hr)%list_elem_of_fmap. by apply (Hfree r).
    + apply infinite_is_fresh.
    + intros env' again Hvalid' Hsame.
      unfold signup, validated, guard, signupValidation.
      rewrite handleValidationErrors_passes by done.
      eapply signup_handler_conflict; [done|].
      unfold personnel_by_email. simpl. rewrite filter_app, Hsame.
      rewrite filter_none by done.
      rewrite filter_cons_True by done. reflexivity.
  - intros Hnd (r & Hr & Hemail).
    unfold signup, validated, guard, signupValidation.
    rewrite handleValidationErrors_passes by done.
    eapply signup_handler_conflict; [done|].
    simpl. fold b. fold email. rewrite <- Hemail. by apply personnel_by_email_found.
Qed.

Lemma signup_once_witness :
  (∃ new_id w',
     @signup sample_platform no_faults sample_env (sample_signup "EFUA@x.com")
       sample_world
     = (Json 201
          (AccountBody "User account created successfully"
             {| uj_id := Some new_id; uj_email := Some "efua@x.com";
                uj_firstName := Some "Efua"; uj_lastName := Some "Boateng";
                uj_role := Some "doctor"; uj_licenseNumber := Some "MD-12345";
                uj_createdAt := Some 5000 |}
             (new_id +:+ ".jwt")), w')
     ∧ Personnel.email <$> medical_personnel w'
       = ["admin@x.com"; "nurse@x.com"; "former@x.com"; "efua@x.com"]
     ∧ @signup sample_platform no_faults sample_env (sample_signup "efua@X.com") w'
       = (Json 409 (ErrorBody "User already exists"
                      "An account with this email already exists"), w'))
  ∧ @signup sample_platform no_faults sample_env (sample_signup "admin@x.com")
      sample_world
    = (Json 409 (ErrorBody "User already exists"
                   "An account with this email already exists"), sample_world).
Proof.
  split.
  - destruct (@signup_once sample_platform no_faults sample_env
                (sample_signup "EFUA@x.com") sample_world)
      as [Hnew _]; [reflexivity|reflexivity|reflexivity|].
    destruct Hnew as (new_id & w' & Hres & _ & Hrows & _ & Hagain).
    { apply Forall_forall. evaluated. }
    exists new_id, w'. split; [exact Hres|]. split; [by rewrite Hrows|].
    by apply Hagain.
  - apply (@signup_once sample_platform no_faults sample_env
             (sample_signup "admin@x.com") sample_world);
      [reflexivity|reflexivity|reflexivity|evaluated|].
    exists (sample_person "u-admin" "admin@x.com" "admin" true). split; [listed|reflexivity].
Defined.

(** C5, as stated, fails for an address written in another case: no
    identity of the sample store has the email "Admin@X.com", yet a valid
    signup with it is answered 409, because the validators normalise it to
    "admin@x.com", which is on file; and a valid signup with
    "New.Person@X.com" creates the identity under "new.person@x.com", not
    under the payload's string. *)
Lemma signup_once_other_spelling :
  Forall (λ r, Personnel.email r ≠ "Admin@X.com") (medical_personnel sample_world)
  ∧ @signup sample_platform no_faults sample_env (sample_signup "Admin@X.com")
      sample_world
    = (Json 409 (ErrorBody "User already exists"
                   "An account with this email already exists"), sample_world)
  ∧ Personnel.email <$>
      medical_personnel
        (@signup sample_platform no_faults sample_env (sample_signup "New.Person@X.com")
           sample_world).2
    = ["admin@x.com"; "nurse@x.com"; "former@x.com"; "new.person@x.com"].
Proof. split; [evaluated|]. split; reflexivity. Qed.

(** C6.  A signin whose email is that of an existing, active identity and
    whose password does not match the stored hash is answered 401 Invalid
    credentials: the body carries no token, and the credential store, the
    identity's last_login with it, is left as it was. *)
Theorem signin_wrong_password `{Platform} (F : Faults) (env : Env)
    (req : Request SigninBody) (w : World) (r : Personnel.row) :
  r ∈ medical_personnel w →
  Personnel.email r = si_email (body req) →
  Personnel.is_active r = true →
  bcrypt_compare (si_password (body req)) (Personnel.password_hash r) = false →
  signin_handler F env req w
  = (Json 401 (ErrorBody "Invalid credentials" "Email or password is incorrect"), w).
Proof.
  intros Hr Hemail Hact Hpw. unfold signin_handler.
  destruct (single_error_or_data F (Select T_medical_personnel)
              (personnel_by_email
                 ["id"; "email"; "password_hash"; "first_name"; "last_name"; "role";
                  "license_number"; "is_active"] (si_email (body req)) w))
    as [[user Hok]|[e Hfail]].
  - rewrite Hok. simpl.
    assert (Hdata : data (single F (Select T_medical_personnel)
                            (personnel_by_email
                               ["id"; "email"; "password_hash"; "first_name"; "last_name";
                                "role"; "license_number"; "is_active"]
                               (si_email (body req)) w)) = Some user) by by rewrite Hok.
    apply single_data in Hdata as [Hrows _].
    assert (Hin : select_columns
                    ["id"; "email"; "password_hash"; "first_name"; "last_name"; "role";
                     "license_number"; "is_active"] r
                  ∈ [user]).
    { rewrite <- Hrows. unfold personnel_by_email. apply list_elem_of_fmap.
      exists r. split; [done|]. by apply list_elem_of_filter. }
    apply list_elem_of_singleton in Hin. subst user.
    change (User.is_active (select_columns _ r)) with (Some (Personnel.is_active r)).
    change (User.password_hash (select_columns _ r)) with (Some (Personnel.password_hash r)).
    rewrite Hact. simpl. by rewrite Hpw.
  - by rewrite Hfail.
Qed.

Lemma signin_wrong_password_witness :
  @signin_handler sample_platform no_faults sample_env
    (sample_request None "" {| si_email := "admin@x.com"; si_password := "wrong" |})
    sample_world
  = (Json 401 (ErrorBody "Invalid credentials" "Email or password is incorrect"),
     sample_world).
Proof.
  apply (@signin_wrong_password sample_platform no_faults sample_env _ sample_world
           (sample_person "u-admin" "admin@x.com" "admin" true));
    [listed|reflexivity|reflexivity|reflexivity].
Defined.

(** The other side of the password check: a matching password is answered
    200 with a token, and only then is last_login written. *)
Lemma signin_right_password_sample :
  ∃ w', @signin_handler sample_platform no_faults sample_env
          (sample_request None "" {| si_email := "admin@x.com"; si_password := "Secret123" |})
          sample_world
        = (Json 200
             (AccountBody "Login successful"
                {| uj_id := Some "u-admin"; uj_email := Some "admin@x.com";
                   uj_firstName := Some "Ada"; uj_lastName := Some "Okoye";
                   uj_role := Some "admin"; uj_licenseNumber := None;
                   uj_createdAt := None |} "u-admin.jwt"), w')
        ∧ Personnel.last_login <$> medical_personnel w' = [Some 5000; None; None].
Proof. eexists. split; reflexivity. Qed.

(** ** File intake *)

Section Intake.
Context `{Platform}.

Lemma fileFilter_allowed (f : File.t) :
  File.mimetype f ∈ allowedTypes → fileFilter f = None.
Proof.
  intros Hin. unfold fileFilter, includes. by rewrite bool_decide_eq_true_2.
Qed.

Lemma fileFilter_refused (f : File.t) :
  File.mimetype f ∉ allowedTypes →
  fileFilter f
  = Some (InvalidFileType ("Invalid file type. Allowed types: " +:+ join ", " allowedTypes)).
Proof.
  intros Hin. unfold fileFilter, includes. by rewrite bool_decide_eq_false_2.
Qed.

Lemma upload_single_accepts {B} (req : Request B) (f : File.t) :
  part req = Some f → File.mimetype f ∈ allowedTypes → File.size f < fileSize →
  upload_single req = Next (with_file req f).
Proof.
  intros Hpart Htype Hsize. unfold upload_single.
  rewrite Hpart, fileFilter_allowed by done.
  by rewrite (proj2 (Z.leb_gt _ _) Hsize).
Qed.

Lemma find_patient_live (F : Faults) (w : World) (p : Patient.row) :
  F (Select T_patients) = false →
  NoDup (Patient.id <$> patients w) → p ∈ patients w → Patient.is_deleted p = false →
  find_patient F (Patient.id p) w = ok p.
Proof.
  intros HF Hnd Hp Hlive. unfold find_patient.
  rewrite (filter_key Patient.id _ _ p); [by apply single_one|done|done|].
  intros y Hy. split; [by intros [-> _]|].
  intros Hid. split; [done|].
  assert (y = p) as ->; [|done].
  apply list_elem_of_lookup in Hy as [i Hi]. apply list_elem_of_lookup in Hp as [j Hj].
  assert (i = j) as ->.
  { eapply NoDup_lookup; [exact Hnd| |]; rewrite list_lookup_fmap.
    - by rewrite Hi.
    - rewrite Hj. simpl. by rewrite Hid. }
  congruence.
Qed.

(** The upload handler on a request multer accepted, for a live patient,
    with the collaborator answering. *)
Lemma upload_xray_handler_stores (F : Faults) (env : Env) (req : Request UploadInput)
    (w : World) (u : ReqUser.t) (f : File.t) (patientId : string) (patient : Patient.row) :
  user req = Some u → file req = Some f →
  ub_patientId (body req) = Some patientId → patientId ≠ "" →
  find_patient F patientId w = ok patient →
  F StorageUpload = false → F (Insert T_xray_images) = false →
  bucket w !! xray_filePath patientId env f = None →
  ∃ row object,
    upload_xray_handler F env req w
    = (Json 201 (ImageBody "X-ray image uploaded successfully" (image_uploaded row)
                   (Some (patient_ref patient))),
       set_xray_images (xray_images w ++ [row])
         (set_bucket (<[xray_filePath patientId env f := object]> (bucket w)) w))
    ∧ Xray.file_path row = xray_filePath patientId env f
    ∧ Xray.uploaded_by row = ReqUser.id u
    ∧ Blob.buffer object = File.buffer f
    ∧ Blob.contentType object = File.mimetype f
    ∧ Blob.uploadedBy object = ReqUser.id u.
Proof.
  intros Hu Hf Hpid Hne Hfound HFu HFi Hfree.
  eexists _, _. split.
  { unfold upload_xray_handler. rewrite Hf, Hpid. simpl.
    destruct patientId; [done|]. simpl. rewrite Hfound. simpl. rewrite Hu.
    unfold storage_upload. rewrite HFu, Hfree. simpl.
    unfold insert_xray. rewrite HFi. simpl. reflexivity. }
  repeat split.
Qed.

End Intake.

(** C7, as amended.  The limit is [MAX_FILE_SIZE], 10 MiB when unset, and
    the allow-list is [ALLOWED_FILE_TYPES], JPEG and PNG when unset.  A part
    whose MIME type is not in the allow-list fails with InvalidFileType,
    whatever its size; a part of an allowed type whose size reaches the limit
    (a positive number of bytes) or exceeds it fails with PayloadTooLarge,
    multer's LIMIT_FILE_SIZE, so a part of exactly the limit is refused; a part
    of an allowed type strictly under the limit is accepted, and for a live
    patient, the collaborator answering and the storage key being free, the
    upload answers 201 and leaves a metadata row whose [file_path] is the key
    of a blob in the bucket, holding the uploaded buffer. *)
Theorem upload_intake `{Platform} :
  (MAX_FILE_SIZE = None → fileSize = 10 * 1024 * 1024)
  ∧ (ALLOWED_FILE_TYPES = None → allowedTypes = ["image/jpeg"; "image/png"; "image/jpg"])
  ∧ (∀ B (req : Request B) f,
       part req = Some f → File.mimetype f ∉ allowedTypes →
       upload_single req
       = Respond (NextError (InvalidFileType
                               ("Invalid file type. Allowed types: "
                                +:+ join ", " allowedTypes))))
  ∧ (∀ B (req : Request B) f,
       part req = Some f → File.mimetype f ∈ allowedTypes →
       0 < fileSize → fileSize ≤ File.size f →
       upload_single req = Respond (NextError LIMIT_FILE_SIZE))
  ∧ (∀ F env (req : Request UploadInput) w r f patientId patient,
       token_of F req w r → Personnel.is_active r = true →
       part req = Some f → File.mimetype f ∈ allowedTypes →
       0 ≤ File.size f < fileSize →
       ub_patientId (body req) = Some patientId → patientId ≠ "" →
       find_patient F patientId w = ok patient →
       F StorageUpload = false → F (Insert T_xray_images) = false →
       bucket w !! xray_filePath patientId env f = None →
       ∃ row object w',
         upload_xray F env req w
         = (Json 201 (ImageBody "X-ray image uploaded successfully" (image_uploaded row)
                        (Some (patient_ref patient))), w')
         ∧ xray_images w' = xray_images w ++ [row]
         ∧ bucket w' !! Xray.file_path row = Some object
         ∧ Blob.buffer object = File.buffer f).
Proof.
  split; [|split; [|split; [|split; [|]]]].
  - intros Hunset. unfold fileSize. by rewrite Hunset.
  - intros Hunset. unfold allowedTypes. by rewrite Hunset.
  - intros B req f Hpart Htype. unfold upload_single.
    by rewrite Hpart, fileFilter_refused.
  - intros B req f Hpart Htype Hlimit Hsize. unfold upload_single.
    rewrite Hpart, fileFilter_allowed by done.
    by rewrite (proj2 (Z.leb_le _ _) Hsize).
  - intros F env req w r f patientId patient Htok Hact Hpart Htype [_ Hsize] Hpid Hne
      Hfound HFu HFi Hfree.
    unfold upload_xray. rewrite (guard_authenticated F _ req w r Htok Hact).
    unfold guard at 1. rewrite (upload_single_accepts _ f) by done.
    destruct (upload_xray_handler_stores F env
                (with_file (with_user req (identity_of r)) f) w (identity_of r) f
                patientId patient) as (row & object & Hres & Hpath & _ & Hbuf & _);
      try done.
    exists row, object. eexists. split; [exact Hres|]. simpl.
    split; [done|]. split; [|done]. rewrite Hpath. apply lookup_insert_eq.
Qed.

Lemma upload_intake_witness :
  let png (bytes : Z) := sample_file "chest.png" "image/png" bytes in
  let pdf := sample_file "report.pdf" "application/pdf" 1024 in
  @upload_single sample_platform _ (sample_upload None (png (15 * 1024 * 1024)))
  = Respond (NextError LIMIT_FILE_SIZE)
  ∧ @upload_single sample_platform _ (sample_upload None (png 10485760))
    = Respond (NextError LIMIT_FILE_SIZE)
  ∧ @upload_single sample_platform _ (sample_upload None pdf)
    = Respond (NextError (InvalidFileType
        "Invalid file type. Allowed types: image/jpeg, image/png, image/jpg"))
  ∧ ∃ row object w',
      @upload_xray sample_platform no_faults sample_env
        (sample_upload (Some "Bearer admin.jwt") (png 10485759)) sample_world
      = (Json 201 (ImageBody "X-ray image uploaded successfully" (image_uploaded row)
                     (Some (patient_ref (sample_patient "p-1" 2000)))), w')
      ∧ xray_images w' = [row]
      ∧ bucket w' !! Xray.file_path row = Some object
      ∧ Blob.buffer object = "payload".
Proof.
  intros png pdf.
  destruct (@upload_intake sample_platform) as (_ & _ & Htype & Hsize & Hok).
  split; [|split; [|split]].
  - apply (Hsize _ _ (png (15 * 1024 * 1024)));
      [reflexivity|evaluated|reflexivity|by vm_compute].
  - apply (Hsize _ _ (png 10485760)); [reflexivity|evaluated|reflexivity|by vm_compute].
  - apply (Htype _ _ pdf); [reflexivity|evaluated].
  - apply (Hok no_faults sample_env _ sample_world
             (sample_person "u-admin" "admin@x.com" "admin" true)
             (png 10485759) "p-1" (sample_patient "p-1" 2000));
      [|reflexivity|reflexivity|evaluated|by vm_compute|reflexivity|discriminate
       |reflexivity|reflexivity|reflexivity|reflexivity].
    split; [|split; [listed|split; [evaluated|reflexivity]]].
    exists (sample_claims "u-admin" "admin@x.com" "admin"). split; [|reflexivity].
    exists "admin.jwt". split; [reflexivity|split; [discriminate|reflexivity]].
Defined.

(** C7, as stated, fails in two places under the default configuration.  A
    15 MiB PDF is over the size limit and is refused with InvalidFileType, not
    PayloadTooLarge, because the type is asked first; and a PNG of exactly
    10 MiB, whose size does not exceed the maximum, is refused with
    LIMIT_FILE_SIZE, because the part is cut off once the bytes read reach the
    limit. *)
Lemma upload_intake_refusals :
  let pdf := sample_file "report.pdf" "application/pdf" (15 * 1024 * 1024) in
  let png := sample_file "chest.png" "image/png" (10 * 1024 * 1024) in
  @fileSize sample_platform < File.size pdf
  ∧ @upload_single sample_platform _ (sample_upload None pdf)
    = Respond (NextError (InvalidFileType
        "Invalid file type. Allowed types: image/jpeg, image/png, image/jpg"))
  ∧ File.size png ≤ @fileSize sample_platform
  ∧ File.mimetype png ∈ @allowedTypes sample_platform
  ∧ @upload_single sample_platform _ (sample_upload None png)
    = Respond (NextError LIMIT_FILE_SIZE).
Proof.
  intros pdf png. split; [reflexivity|]. split; [reflexivity|].
  split; [by vm_compute|]. split; [evaluated|reflexivity].
Qed.

(** ** Cleanup after a failed metadata insert *)

(** C8.  In the X-ray upload, when the blob was stored under the generated
    key and the insert of the metadata row then fails, the handler asks the
    storage to remove that key, and only then answers 500: the state it leaves
    is the one [remove([filePath])] yields from the state that holds the blob.
    No metadata row is added, and, the removal going through, no blob is left
    under the key: the collaborator is back in the state the request found it
    in. *)
Theorem upload_cleanup `{Platform} (F : Faults) (env : Env) (req : Request UploadInput)
    (w : World) (u : ReqUser.t) (f : File.t) (patientId : string) (patient : Patient.row) :
  user req = Some u → file req = Some f →
  ub_patientId (body req) = Some patientId → patientId ≠ "" →
  find_patient F patientId w = ok patient →
  F StorageUpload = false →
  bucket w !! xray_filePath patientId env f = None →
  F (Insert T_xray_images) = true →
  let key := xray_filePath patientId env f in
  ∃ object w',
    upload_xray_handler F env req w
    = (Json 500 (ErrorBody "Record creation failed"
                   "Failed to create image record in database"), w')
    ∧ Blob.buffer object = File.buffer f
    ∧ w' = snd (storage_remove F [key] (set_bucket (<[key := object]> (bucket w)) w))
    ∧ xray_images w' = xray_images w
    ∧ (F StorageRemove = false → bucket w' !! key = None ∧ w' = w).
Proof.
  intros Hu Hf Hpid Hne Hfound HFu Hfree HFi key.
  set (object := {| Blob.buffer := File.buffer f;
                    Blob.contentType := File.mimetype f;
                    Blob.originalName := File.originalname f;
                    Blob.uploadedBy := ReqUser.id u;
                    Blob.patientId := patientId;
                    Blob.imageType := or_string (ub_imageType (body req)) "xray";
                    Blob.bodyPart := or_string (ub_bodyPart (body req)) "unknown" |}).
  exists object, (snd (storage_remove F [key] (set_bucket (<[key := object]> (bucket w)) w))).
  split.
  { unfold upload_xray_handler. rewrite Hf, Hpid. simpl.
    destruct patientId; [done|]. simpl. rewrite Hfound. simpl. rewrite Hu.
    unfold storage_upload. rewrite HFu, Hfree. simpl.
    unfold insert_xray. rewrite HFi. simpl.
    fold key. fold object. by destruct (storage_remove F _ _). }
  split; [reflexivity|]. split; [reflexivity|].
  unfold storage_remove. destruct (F StorageRemove); simpl.
  - split; [done|]. by intros.
  - split; [done|]. intros _. fold key. rewrite delete_insert_id by done.
    split; [done|]. by destruct w.
Qed.

Lemma upload_cleanup_witness :
  let req :=
    with_file (with_user (sample_upload None (sample_file "chest.png" "image/png" 2048))
                 (identity_of (sample_person "u-nurse" "nurse@x.com" "nurse" true)))
      (sample_file "chest.png" "image/png" 2048) in
  @upload_xray_handler sample_platform metadata_insert_fails sample_env req sample_world
  = (Json 500 (ErrorBody "Record creation failed"
                 "Failed to create image record in database"), sample_world).
Proof.
  intros req.
  destruct (@upload_cleanup sample_platform metadata_insert_fails sample_env req
              sample_world
              (identity_of (sample_person "u-nurse" "nurse@x.com" "nurse" true))
              (sample_file "chest.png" "image/png" 2048) "p-1" (sample_patient "p-1" 2000))
    as (object & w' & Hres & _ & _ & _ & Hback);
    [reflexivity|reflexivity|reflexivity|discriminate|reflexivity|reflexivity
    |reflexivity|reflexivity|].
  destruct Hback as [_ Hsame]; [reflexivity|].
  rewrite Hres. by rewrite Hsame.
Defined.

(** What the removal protects from: were it to fail as well, the blob would
    stay in the bucket with no metadata row pointing at it. *)
Lemma upload_cleanup_needs_removal `{Platform} (F : Faults) (env : Env)
    (req : Request UploadInput) (w : World) (u : ReqUser.t) (f : File.t)
    (patientId : string) (patient : Patient.row) :
  user req = Some u → file req = Some f →
  ub_patientId (body req) = Some patientId → patientId ≠ "" →
  find_patient F patientId w = ok patient →
  F StorageUpload = false →
  bucket w !! xray_filePath patientId env f = None →
  F (Insert T_xray_images) = true →
  F StorageRemove = true →
  is_Some (bucket (snd (upload_xray_handler F env req w)) !! xray_filePath patientId env f)
  ∧ xray_images (snd (upload_xray_handler F env req w)) = xray_images w.
Proof.
  intros Hu Hf Hpid Hne Hfound HFu Hfree HFi HFr.
  unfold upload_xray_handler. rewrite Hf, Hpid. simpl.
  destruct patientId; [done|]. simpl. rewrite Hfound. simpl. rewrite Hu.
  unfold storage_upload. rewrite HFu, Hfree. simpl.
  unfold insert_xray. rewrite HFi. simpl.
  unfold storage_remove. rewrite HFr. simpl.
  split; [|done]. rewrite lookup_insert_eq. eauto.
Qed.

(** ** The actor on every write *)

Lemma stamped_refl {A} (field : A → option string) (actor : string) (rows : list A) :
  stamped field actor rows rows.
Proof. intros x Hx. by left. Qed.

Lemma stamped_trans {A} (field : A → option string) (actor : string) (l1 l2 l3 : list A) :
  stamped field actor l1 l2 → stamped field actor l2 l3 → stamped field actor l1 l3.
Proof.
  intros H12 H23 x Hx. destruct (H23 x Hx) as [Hx2|Hf]; [|by right]. by apply H12.
Qed.

Lemma stamped_app {A} (field : A → option string) (actor : string) (rows new : list A) :
  (∀ x, x ∈ new → field x = Some actor) → stamped field actor rows (rows ++ new).
Proof.
  intros Hnew x Hx. apply elem_of_app in Hx as [Hx|Hx]; [by left|right; by apply Hnew].
Qed.

Lemma stamped_update_where {A} (field : A → option string) (actor : string)
    (matches : A → bool) (change : A → A) (rows : list A) :
  (∀ x, field (change x) = Some actor) →
  stamped field actor rows (update_where matches change rows).
Proof.
  intros Hchange x (y & -> & Hy)%list_elem_of_fmap.
  destruct (matches y); [right; apply Hchange|by left].
Qed.

Lemma assign_ids_field (field : Symptom.row → option string) (actor : string)
    (values : list (string → Symptom.row)) (taken : list string) :
  (∀ v i, v ∈ values → field (v i) = Some actor) →
  ∀ x, x ∈ assign_ids taken values → field x = Some actor.
Proof.
  revert taken. induction values as [|v values IH]; intros taken Hall x Hx; simpl in Hx.
  - by apply elem_of_nil in Hx.
  - apply elem_of_cons in Hx as [->|Hx].
    + apply Hall. left.
    + apply (IH (uuid_generate_v4 taken :: taken)); [|done].
      intros v' i Hv'. apply Hall. by right.
Qed.

Lemma stamped_filter {A} (field : A → option string) (actor : string)
    (keep : A → bool) (rows : list A) :
  stamped field actor rows (List.filter keep rows).
Proof.
  intros x Hx. left. apply list_elem_of_In in Hx. apply List.filter_In in Hx as [Hx _].
  by apply list_elem_of_In.
Qed.

Section Stamps.
Context (actor : string) (pf : Patient.row → option string)
  (sf : Symptom.row → option string) (xf : Xray.row → option string).

Lemma writes_stamped_refl (w : World) : writes_stamped actor pf sf xf w w.
Proof.
  split; [done|]. repeat split; try apply stamped_refl. intros key object Hk. by left.
Qed.

Lemma writes_stamped_trans (w1 w2 w3 : World) :
  writes_stamped actor pf sf xf w1 w2 → writes_stamped actor pf sf xf w2 w3 →
  writes_stamped actor pf sf xf w1 w3.
Proof.
  intros (Hm & Hp & Hs & Hss & Hx & Hb) (Hm' & Hp' & Hs' & Hss' & Hx' & Hb').
  split; [congruence|]. repeat split; try (eapply stamped_trans; eassumption).
  intros key object Hk. destruct (Hb' key object Hk) as [Hk2|Hu]; [|by right].
  by apply Hb.
Qed.

Lemma writes_stamped_patients (w : World) (rows : list Patient.row) :
  stamped pf actor (patients w) rows → writes_stamped actor pf sf xf w (set_patients rows w).
Proof.
  intros Hrows. split; [done|]. simpl.
  repeat split; try apply stamped_refl; [done|]. intros key object Hk. by left.
Qed.

Lemma writes_stamped_symptoms (w : World) (rows : list Symptom.row) :
  stamped sf actor (symptoms w) rows → writes_stamped actor pf sf xf w (set_symptoms rows w).
Proof.
  intros Hrows. split; [done|]. simpl.
  repeat split; try apply stamped_refl; [done|]. intros key object Hk. by left.
Qed.

Lemma writes_stamped_sessions (w : World) (rows : list Session.row) :
  stamped Session.recorded_by actor (symptom_sessions w) rows →
  writes_stamped actor pf sf xf w (set_symptom_sessions rows w).
Proof.
  intros Hrows. split; [done|]. simpl.
  repeat split; try apply stamped_refl; [done|]. intros key object Hk. by left.
Qed.

Lemma writes_stamped_xray (w : World) (rows : list Xray.row) :
  stamped xf actor (xray_images w) rows →
  writes_stamped actor pf sf xf w (set_xray_images rows w).
Proof.
  intros Hrows. split; [done|]. simpl.
  repeat split; try apply stamped_refl; [done|]. intros key object Hk. by left.
Qed.

Lemma writes_stamped_bucket (w : World) (objects : gmap string Blob.t) :
  (∀ key object, objects !! key = Some object →
     bucket w !! key = Some object ∨ Blob.uploadedBy object = Some actor) →
  writes_stamped actor pf sf xf w (set_bucket objects w).
Proof.
  intros Hobjects. split; [done|]. simpl. repeat split; try apply stamped_refl. done.
Qed.

End Stamps.

Section Writes.
Context `{Platform}.
Context (F : Faults) (env : Env) (actor : string) (u : ReqUser.t).
Hypothesis actor_attached : ReqUser.id u = Some actor.

Lemma create_patient_handler_stamped sf xf (req : Request PatientInput) (w : World) :
  user req = Some u →
  writes_stamped actor Patient.created_by sf xf w
    (snd (create_patient_handler F env req w)).
Proof.
  intros Hu. unfold create_patient_handler.
  destruct (data _); [apply writes_stamped_refl|]. rewrite Hu.
  unfold insert_patient. destruct (F _); simpl; [apply writes_stamped_refl|].
  apply writes_stamped_patients, stamped_app.
  by intros x ->%list_elem_of_singleton.
Qed.

Lemma update_patient_handler_stamped sf xf (req : Request PatientUpdate) (w : World) :
  user req = Some u →
  writes_stamped actor Patient.updated_by sf xf w
    (snd (update_patient_handler F env req w)).
Proof.
  intros Hu. unfold update_patient_handler. rewrite Hu.
  unfold update_patients. destruct (F _); simpl; [apply writes_stamped_refl|].
  assert (Hw : writes_stamped actor Patient.updated_by sf xf w
                 (set_patients
                    (update_where (λ p, bool_decide (Patient.id p = params_id req))
                       (apply_update (body req) (now env) (ReqUser.id u)) (patients w)) w)).
  { apply writes_stamped_patients, stamped_update_where. by intros x. }
  by repeat case_match.
Qed.

Lemma delete_patient_handler_stamped sf xf (req : Request ()) (w : World) :
  user req = Some u →
  writes_stamped actor Patient.deleted_by sf xf w
    (snd (delete_patient_handler F env req w)).
Proof.
  intros Hu. unfold delete_patient_handler. rewrite Hu.
  unfold update_patients. destruct (F _); simpl; [apply writes_stamped_refl|].
  apply writes_stamped_patients, stamped_update_where. by intros x.
Qed.

Lemma record_symptoms_handler_stamped pf xf (req : Request SymptomsInput) (w : World) :
  user req = Some u →
  writes_stamped actor pf Symptom.recorded_by xf w
    (snd (record_symptoms_handler F env req w)).
Proof.
  intros Hu. unfold record_symptoms_handler.
  destruct (find_patient _ _ _) as [[patient|] [e|]]; simpl;
    try apply writes_stamped_refl.
  rewrite Hu. unfold insert_symptoms. destruct (F (Insert T_symptoms)); simpl;
    [apply writes_stamped_refl|].
  match goal with
  | |- context [set_symptoms ?rows w] =>
      assert (Hsym : writes_stamped actor pf Symptom.recorded_by xf w (set_symptoms rows w))
  end.
  { apply writes_stamped_symptoms, stamped_app.
    apply assign_ids_field. intros v i (s & -> & _)%list_elem_of_fmap. done. }
  unfold insert_session. destruct (F (Insert T_symptom_sessions)); simpl; [done|].
  eapply writes_stamped_trans; [exact Hsym|].
  apply writes_stamped_sessions, stamped_app.
  by intros x ->%list_elem_of_singleton.
Qed.

Lemma update_symptom_handler_stamped pf xf (req : Request SymptomUpdate) (w : World) :
  user req = Some u →
  writes_stamped actor pf Symptom.updated_by xf w
    (snd (update_symptom_handler F env req w)).
Proof.
  intros Hu. unfold update_symptom_handler.
  destruct (single _ _ _) as [[existing|] [e|]]; simpl; try apply writes_stamped_refl.
  rewrite Hu. unfold update_symptoms.
  destruct (F (Update T_symptoms)); simpl; [apply writes_stamped_refl|].
  assert (Hw : writes_stamped actor pf Symptom.updated_by xf w
                 (set_symptoms
                    (update_where (λ s, bool_decide (Symptom.id s = params_id req))
                       (apply_symptom_update (body req) (now env) (ReqUser.id u))
                       (symptoms w)) w)).
  { apply writes_stamped_symptoms, stamped_update_where. by intros x. }
  by repeat case_match.
Qed.

Lemma upload_xray_handler_stamped pf sf (req : Request UploadInput) (w : World) :
  user req = Some u →
  writes_stamped actor pf sf Xray.uploaded_by w (snd (upload_xray_handler F env req w)).
Proof.
  intros Hu. unfold upload_xray_handler.
  destruct (file req) as [f|]; [|apply writes_stamped_refl].
  destruct (negb _); [apply writes_stamped_refl|].
  destruct (find_patient _ _ _) as [[patient|] [e|]]; simpl;
    try apply writes_stamped_refl.
  rewrite Hu. unfold storage_upload.
  destruct (F StorageUpload); simpl; [apply writes_stamped_refl|].
  destruct (bucket w !! _) eqn:Hfree; simpl; [apply writes_stamped_refl|].
  match goal with
  | |- context [set_bucket ?objects w] =>
      assert (Hblob : writes_stamped actor pf sf Xray.uploaded_by w (set_bucket objects w))
  end.
  { apply writes_stamped_bucket. intros key object Hk.
    apply lookup_insert_Some in Hk as [[_ <-]|[_ Hk]]; [by right|by left]. }
  unfold insert_xray. destruct (F (Insert T_xray_images)); simpl.
  - unfold storage_remove. destruct (F StorageRemove); simpl; [done|].
    rewrite delete_insert_id by done.
    replace (set_bucket (bucket w) _) with w by by destruct w.
    apply writes_stamped_refl.
  - eapply writes_stamped_trans; [exact Hblob|].
    apply writes_stamped_xray, stamped_app.
    by intros x ->%list_elem_of_singleton.
Qed.

Lemma update_xray_handler_stamped pf sf (req : Request XrayUpdate) (w : World) :
  user req = Some u →
  writes_stamped actor pf sf Xray.updated_by w (snd (update_xray_handler F env req w)).
Proof.
  intros Hu. unfold update_xray_handler.
  destruct (single _ _ _) as [[existing|] [e|]]; simpl; try apply writes_stamped_refl.
  rewrite Hu. unfold update_xray.
  destruct (F (Update T_xray_images)); simpl; [apply writes_stamped_refl|].
  assert (Hw : writes_stamped actor pf sf Xray.updated_by w
                 (set_xray_images
                    (update_where (λ i, bool_decide (Xray.id i = params_id req))
                       (apply_xray_update (body req) (now env) (ReqUser.id u))
                       (xray_images w)) w)).
  { apply writes_stamped_xray, stamped_update_where. by intros x. }
  by repeat case_match.
Qed.

(** The routes that delete for good write no row and no blob. *)
Lemma delete_symptom_handler_stamped pf sf xf (req : Request ()) (w : World) :
  writes_stamped actor pf sf xf w (snd (delete_symptom_handler F req w)).
Proof.
  unfold delete_symptom_handler.
  destruct (single _ _ _) as [[found|] [e|]]; simpl; try apply writes_stamped_refl.
  unfold delete_symptoms. destruct (F (Delete T_symptoms)); simpl;
    [apply writes_stamped_refl|].
  apply writes_stamped_symptoms, stamped_filter.
Qed.

Lemma delete_xray_handler_stamped pf sf xf (req : Request ()) (w : World) :
  writes_stamped actor pf sf xf w (snd (delete_xray_handler F req w)).
Proof.
  unfold delete_xray_handler.
  destruct (single _ _ _) as [[image|] [e|]]; simpl; try apply writes_stamped_refl.
  assert (Hremoved : writes_stamped actor pf sf xf w
                       (snd (storage_remove F [Xray.file_path image] w))).
  { unfold storage_remove. destruct (F StorageRemove); simpl; [apply writes_stamped_refl|].
    apply writes_stamped_bucket. intros key object Hk.
    apply lookup_delete_Some in Hk as [_ Hk]. by left. }
  destruct (storage_remove F _ w) as [removed w1]. simpl in Hremoved.
  unfold delete_xray. destruct (F (Delete T_xray_images)); simpl; [done|].
  eapply writes_stamped_trans; [exact Hremoved|].
  apply writes_stamped_xray, stamped_filter.
Qed.

End Writes.

Section Routes.
Context `{Platform}.

(** A property of the state a route leaves holds behind the auth middleware
    when it holds of the state as found and of the handler run with the
    token's identity attached. *)
Lemma behind_authenticateToken {B} (P : World → Prop) (F : Faults) (h : Handler B)
    (req : Request B) (w : World) (r : Personnel.row) :
  token_of F req w r → P w →
  (∀ req', user req' = Some (identity_of r) → P (snd (h req' w))) →
  P (snd (guard (authenticateToken F) h req w)).
Proof.
  intros Htok Hw Hh. unfold guard.
  rewrite (authenticateToken_found F req w r Htok).
  destruct (Personnel.is_active r); [|done]. by apply Hh.
Qed.

Lemma behind_validation {B} (P : World → Prop) (h : Handler B) (sanitized : Request B)
    (w : World) :
  P w → P (snd (h sanitized w)) →
  P (snd (match handleValidationErrors sanitized with
          | Respond r => (r, w)
          | Next req' => h req' w
          end)).
Proof.
  intros Hw Hh. unfold handleValidationErrors.
  by destruct (negb _).
Qed.

Lemma behind_requireRole {B} (P : World → Prop) (allowedRoles : list string)
    (h : Handler B) (req : Request B) (w : World) :
  P w → P (snd (h req w)) →
  P (snd (guard (λ req _, requireRole allowedRoles req) h req w)).
Proof.
  intros Hw Hh. unfold guard. rewrite requireRole_decides.
  destruct (user req) as [u|]; [|done]. by destruct (includes _ _).
Qed.

Lemma behind_upload_single (P : World → Prop) (h : Handler UploadInput)
    (req : Request UploadInput) (w : World) :
  P w → (∀ req', user req' = user req → P (snd (h req' w))) →
  P (snd (guard (λ req _, upload_single req) h req w)).
Proof.
  intros Hw Hh. unfold guard, upload_single.
  destruct (part req) as [f|]; [|by apply Hh].
  destruct (fileFilter f); [done|].
  destruct (_ <=? _); [done|]. by apply Hh.
Qed.

End Routes.

(** C9.  On every authenticated mutating route, called with a valid token
    of the identity [r], every row the request adds or rewrites names [r]'s id
    in the route's field: created_by (patient create), updated_by (patient
    update), deleted_by (patient soft delete), recorded_by (symptom record:
    the symptoms and their session), uploaded_by (X-ray upload: the metadata
    row, and the blob's tag), updated_by (X-ray metadata update, symptom
    update).  The two routes that delete for good (symptom, X-ray image) add
    and rewrite nothing. *)
Theorem writes_carry_actor `{Platform} (F : Faults) (env : Env) (w : World)
    (r : Personnel.row) :
  let actor := Personnel.id r in
  (∀ req, token_of F req w r →
     writes_stamped actor Patient.created_by Symptom.recorded_by Xray.uploaded_by w
       (snd (create_patient F env req w)))
  ∧ (∀ req, token_of F req w r →
       writes_stamped actor Patient.updated_by Symptom.recorded_by Xray.uploaded_by w
         (snd (update_patient F env req w)))
  ∧ (∀ req, token_of F req w r →
       writes_stamped actor Patient.deleted_by Symptom.recorded_by Xray.uploaded_by w
         (snd (delete_patient F env req w)))
  ∧ (∀ req, token_of F req w r →
       writes_stamped actor Patient.created_by Symptom.recorded_by Xray.uploaded_by w
         (snd (record_symptoms F env req w)))
  ∧ (∀ req, token_of F req w r →
       writes_stamped actor Patient.created_by Symptom.recorded_by Xray.uploaded_by w
         (snd (upload_xray F env req w)))
  ∧ (∀ req, token_of F req w r →
       writes_stamped actor Patient.created_by Symptom.recorded_by Xray.updated_by w
         (snd (update_xray_metadata F env req w)))
  ∧ (∀ req, token_of F req w r →
       writes_stamped actor Patient.created_by Symptom.updated_by Xray.uploaded_by w
         (snd (update_symptom F env req w)))
  ∧ (∀ req, token_of F req w r →
       writes_stamped actor Patient.created_by Symptom.recorded_by Xray.uploaded_by w
         (snd (delete_symptom F req w)))
  ∧ (∀ req, token_of F req w r →
       writes_stamped actor Patient.created_by Symptom.recorded_by Xray.uploaded_by w
         (snd (delete_xray_image F req w))).
Proof.
  intros actor.
  split; [|split; [|split; [|split; [|split; [|split; [|split; [|split]]]]]]];
    intros req Htok;
    (apply (behind_authenticateToken _ F _ req w r Htok); [apply writes_stamped_refl|]);
    intros req' Hu.
  - unfold validated, guard, patientValidation.
    apply behind_validation; [apply writes_stamped_refl|].
    by apply (create_patient_handler_stamped F env actor (identity_of r)).
  - unfold validated, guard, patientUpdateValidation.
    apply behind_validation; [apply writes_stamped_refl|].
    by apply (update_patient_handler_stamped F env actor (identity_of r)).
  - apply behind_requireRole; [apply writes_stamped_refl|].
    by apply (delete_patient_handler_stamped F env actor (identity_of r)).
  - unfold validated, guard, symptomValidation.
    apply behind_validation; [apply writes_stamped_refl|].
    by apply (record_symptoms_handler_stamped F env actor (identity_of r)).
  - apply behind_upload_single; [apply writes_stamped_refl|].
    intros req'' Hu''.
    apply (upload_xray_handler_stamped F env actor (identity_of r)); [done|].
    by rewrite Hu''.
  - by apply (update_xray_handler_stamped F env actor (identity_of r)).
  - by apply (update_symptom_handler_stamped F env actor (identity_of r)).
  - apply delete_symptom_handler_stamped.
  - apply delete_xray_handler_stamped.
Qed.

Lemma writes_carry_actor_witness :
  let req := sample_request (Some "Bearer nurse.jwt") "" sample_new_patient in
  let w' := snd (@create_patient sample_platform no_faults sample_env req sample_world) in
  writes_stamped "u-nurse" Patient.created_by Symptom.recorded_by Xray.uploaded_by
    sample_world w'
  ∧ Patient.created_by <$> patients w' = [Some "u-admin"; Some "u-admin"; Some "u-nurse"].
Proof.
  intros req w'. split; [|reflexivity].
  apply (@writes_carry_actor sample_platform no_faults sample_env sample_world
           (sample_person "u-nurse" "nurse@x.com" "nurse" true)).
  eapply sample_token_of; [reflexivity|discriminate|reflexivity|reflexivity|listed|reflexivity].
Defined.

(** ** Soft-deleted patients *)

Lemma filter_length_lt {A} (keep : A → bool) (l : list A) (x : A) :
  x ∈ l → keep x = false → (length (List.filter keep l) < length l)%nat.
Proof.
  induction l as [|a l IH]; intros Hx Hdrop; [by apply elem_of_nil in Hx|].
  simpl. pose proof (List.filter_length_le keep l) as Hle.
  apply elem_of_cons in Hx as [<-|Hx].
  - rewrite Hdrop. lia.
  - specialize (IH Hx Hdrop). destruct (keep a); simpl; lia.
Qed.

Section SoftDelete.
Context `{Platform}.

Lemma list_patients_handler_answer (F : Faults) (req : Request ()) (w : World) (p l : Z) :
  page (query req) ≫= parseInt = Some p →
  limit (query req) ≫= parseInt = Some l →
  p ≠ 0 → l ≠ 0 →
  F (Select T_patients) = false →
  let ordered := listed_patients (or_string (search (query req)) "") w in
  let n := Z.of_nat (length ordered) in
  list_patients_handler F req w
  = (Json 200
       (PatientsBody
          (patient_created <$> range ((p - 1) * l) ((p - 1) * l + l - 1) ordered)
          {| currentPage := p;
             totalPages := ceil_div n l;
             totalCount := n;
             pg_limit := l;
             hasNext := p <? ceil_div n l;
             hasPrev := 1 <? p |}), w).
Proof.
  intros Hp Hl Hp0 Hl0 HF ordered n.
  assert (Hcount : (if n =? 0 then 0 else n) = n).
  { destruct (n =? 0) eqn:Hn; [|done]. by apply Z.eqb_eq in Hn. }
  unfold list_patients_handler, many. rewrite Hp, Hl, HF.
  rewrite !or_number_nonzero by done. simpl. fold ordered. fold n.
  by rewrite Hcount.
Qed.

Lemma find_patient_deleted (F : Faults) (w : World) (p : Patient.row) :
  NoDup (Patient.id <$> patients w) → p ∈ patients w → Patient.is_deleted p = true →
  ∃ e, find_patient F (Patient.id p) w = failed e.
Proof.
  intros Hnd Hp Hdel. unfold find_patient. rewrite filter_none.
  - unfold single, many, single_of. destruct (F _); simpl; eauto.
  - intros y Hy [Hid Hlive].
    assert (y = p) as ->; [|congruence].
    apply list_elem_of_lookup in Hy as [i Hi]. apply list_elem_of_lookup in Hp as [j Hj].
    assert (i = j) as ->; [|congruence].
    eapply NoDup_lookup; [exact Hnd| |]; rewrite list_lookup_fmap.
    + by rewrite Hi.
    + rewrite Hj. simpl. by rewrite Hid.
Qed.

End SoftDelete.

(** Every position of a list falls on the page that counts it. *)
Lemma range_covers {A} (rows : list A) (i : nat) (x : A) (l : Z) :
  rows !! i = Some x → 1 ≤ l →
  let p := Z.of_nat i / l + 1 in
  1 ≤ p ∧ x ∈ range ((p - 1) * l) ((p - 1) * l + l - 1) rows.
Proof.
  intros Hi Hl p.
  pose proof (Z.div_pos (Z.of_nat i) l ltac:(lia) ltac:(lia)) as Hq.
  pose proof (Z.mul_div_le (Z.of_nat i) l ltac:(lia)) as Hlow.
  pose proof (Z.mul_succ_div_gt (Z.of_nat i) l ltac:(lia)) as Hhigh.
  split; [unfold p; lia|].
  apply list_elem_of_lookup. exists (i - Z.to_nat ((p - 1) * l))%nat.
  rewrite range_lookup by (unfold p; nia).
  rewrite decide_True by (unfold p; nia).
  rewrite <- Hi. f_equal. unfold p. nia.
Qed.

(** C10.  A patient whose row has [is_deleted = true] is still served by
    get-by-id and still listed (for every limit there is a page that shows it,
    and the total count includes it), since neither query filters on the
    flag; the stats endpoint does not count it, and the patient check of the
    symptom and upload routes answers 404 for it.  (Ids are the table's
    primary key; the store answers the queries.) *)
Theorem soft_deleted_still_served `{Platform} (F : Faults) (env : Env) (w : World)
    (p : Patient.row) :
  p ∈ patients w → Patient.is_deleted p = true →
  NoDup (Patient.id <$> patients w) →
  F (Select T_patients) = false →
  (∀ req : Request (), params_id req = Patient.id p →
     get_patient_handler F req w = (Json 200 (PatientBody None (patient_fetched w p)), w))
  ∧ (∀ l, 1 ≤ l ≤ 100 →
       ∃ pg, 1 ≤ pg
         ∧ ∀ req : Request (),
             page (query req) ≫= parseInt = Some pg →
             limit (query req) ≫= parseInt = Some l →
             truthy (search (query req)) = false →
             ∃ listed envelope,
               list_patients_handler F req w = (Json 200 (PatientsBody listed envelope), w)
               ∧ patient_created p ∈ listed
               ∧ totalCount envelope = Z.of_nat (length (patients w)))
  ∧ (∀ req : Request (),
       ∃ stats,
         patient_stats_handler F env req w = (Json 200 (StatsBody stats), w)
         ∧ totalPatients stats
           = Z.of_nat (length (List.filter (λ q, negb (Patient.is_deleted q)) (patients w)))
         ∧ totalPatients stats < Z.of_nat (length (patients w)))
  ∧ (∀ req : Request SymptomsInput, sb_patientId (body req) = Patient.id p →
       record_symptoms_handler F env req w
       = (Json 404 (ErrorBody "Patient not found" "Patient record not found"), w))
  ∧ (∀ (req : Request UploadInput) f,
       file req = Some f → ub_patientId (body req) = Some (Patient.id p) →
       Patient.id p ≠ "" →
       upload_xray_handler F env req w
       = (Json 404 (ErrorBody "Patient not found" "Patient record not found"), w)).
Proof.
  intros Hp Hdel Hnd HF.
  split; [|split; [|split; [|split]]].
  - intros req Hid. unfold get_patient_handler. rewrite Hid.
    rewrite (filter_key Patient.id _ _ p); [|done|done|done].
    by rewrite single_one.
  - intros l Hl.
    assert (Hin : p ∈ order_created_at_desc (patients w))
      by by rewrite order_created_at_desc_perm.
    apply list_elem_of_lookup in Hin as [i Hi].
    destruct (range_covers _ i p l Hi ltac:(lia)) as [Hpg Hrow].
    eexists. split; [exact Hpg|].
    intros req Hpage Hlimit Hsearch.
    rewrite (list_patients_handler_answer F req w _ l Hpage Hlimit) by (done || lia).
    eexists _, _. split; [reflexivity|].
    assert (Hall : listed_patients (or_string (search (query req)) "") w
                   = order_created_at_desc (patients w)).
    { unfold listed_patients, or_string. by rewrite Hsearch. }
    rewrite Hall. split.
    + apply list_elem_of_fmap. eauto.
    + simpl. by rewrite order_created_at_desc_length.
  - intros req. eexists. split; [|split].
    + unfold patient_stats_handler, many. rewrite HF. simpl. reflexivity.
    + simpl. destruct (Z.of_nat _ =? 0) eqn:Hz; [|done]. by apply Z.eqb_eq in Hz.
    + simpl.
      pose proof (filter_length_lt (λ q, negb (Patient.is_deleted q)) (patients w) p Hp
                    ltac:(simpl; by rewrite Hdel)) as Hlt.
      destruct (Z.of_nat _ =? 0); lia.
  - intros req Hid. unfold record_symptoms_handler. rewrite Hid.
    destruct (find_patient_deleted F w p Hnd Hp Hdel) as [e ->]. done.
  - intros req f Hf Hid Hne. unfold upload_xray_handler. rewrite Hf, Hid. simpl.
    destruct (Patient.id p) eqn:Hpid; [done|]. simpl. rewrite <- Hpid.
    destruct (find_patient_deleted F w p Hnd Hp Hdel) as [e ->]. done.
Qed.

Lemma soft_deleted_still_served_witness :
  let gone := mark_deleted 5000 (Some "u-admin") (sample_patient "p-1" 2000) in
  let by_id : Request () := sample_request None "p-1" () in
  gone ∈ patients sample_after_delete
  ∧ @get_patient_handler no_faults by_id sample_after_delete
    = (Json 200 (PatientBody None (patient_fetched sample_after_delete gone)),
       sample_after_delete)
  ∧ ∃ listed envelope,
      @list_patients_handler sample_platform no_faults by_id sample_after_delete
      = (Json 200 (PatientsBody listed envelope), sample_after_delete)
      ∧ patient_created gone ∈ listed.
Proof.
  intros gone by_id.
  assert (Hgone : gone ∈ patients sample_after_delete).
  { change (patients sample_after_delete)
      with [gone; sample_patient "p-2" 3000]. left. }
  destruct (@soft_deleted_still_served sample_platform no_faults sample_env
              sample_after_delete gone Hgone eq_refl)
    as (Hget & _); [evaluated|reflexivity|].
  split; [exact Hgone|]. split; [by apply Hget|].
  eexists _, _. split; [reflexivity|]. right. left.
Defined.

(** * Further properties of the routes *)

(** ** Who gets past the auth middleware *)

Lemma truthy_Some (v : option string) :
  truthy v = true → ∃ s, v = Some s ∧ s ≠ "".
Proof.
  destruct v as [s|]; [|done]. simpl. intros Hs. exists s. split; [done|].
  intros ->. done.
Qed.

Lemma authenticateToken_next `{Platform} {B} (F : Faults) (req req' : Request B)
    (w : World) :
  authenticateToken F req w = Next req' →
  ∃ r decoded,
    r ∈ medical_personnel w ∧ Personnel.is_active r = true
    ∧ bears_token req decoded ∧ Claims.userId decoded = Some (Personnel.id r)
    ∧ req' = with_user req (identity_of r).
Proof.
  unfold authenticateToken.
  destruct (truthy (bearer (authorization req))) eqn:Htoken; [|done]. simpl.
  apply truthy_Some in Htoken as (token & Hbearer & Hne). rewrite Hbearer. simpl.
  destruct (jwt_verify token JWT_SECRET) as [decoded|name] eqn:Hverify;
    [|by repeat case_match].
  destruct (single_error_or_data F (Select T_medical_personnel)
              (personnel_by_id ["id"; "email"; "role"; "is_active"]
                 (Claims.userId decoded) w)) as [[user Hok]|[e Hfail]];
    [|by rewrite Hfail].
  assert (Hdata := f_equal data Hok). simpl in Hdata.
  apply single_data in Hdata as [Hrows _]. rewrite Hok. simpl.
  assert (Hin : user ∈ personnel_by_id ["id"; "email"; "role"; "is_active"]
                         (Claims.userId decoded) w) by (rewrite Hrows; left).
  unfold personnel_by_id in Hin.
  apply list_elem_of_fmap in Hin as (r & -> & [Hid Hr]%list_elem_of_filter).
  change (User.is_active (select_columns _ r)) with (Some (Personnel.is_active r)).
  simpl. destruct (Personnel.is_active r) eqn:Hact; [|done]. simpl.
  intros [= <-]. exists r, decoded. repeat split; try done.
  by exists token.
Qed.

(** X1.  The auth middleware calls next only for a request whose bearer
    token verifies and whose subject is the id of a row of the credential
    store that is active; the identity it attaches is read from that row. *)
Theorem authenticateToken_sound `{Platform} {B} (F : Faults) (req req' : Request B)
    (w : World) :
  authenticateToken F req w = Next req' →
  ∃ r decoded,
    r ∈ medical_personnel w ∧ Personnel.is_active r = true
    ∧ bears_token req decoded ∧ Claims.userId decoded = Some (Personnel.id r)
    ∧ req' = with_user req (identity_of r).
Proof. apply authenticateToken_next. Qed.

Lemma authenticateToken_sound_witness :
  ∃ r decoded,
    r ∈ medical_personnel sample_world ∧ Personnel.is_active r = true
    ∧ @bears_token sample_platform unit
        (sample_request (Some "Bearer nurse.jwt") "" ()) decoded
    ∧ Claims.userId decoded = Some (Personnel.id r)
    ∧ Personnel.role r = "nurse".
Proof.
  destruct (@authenticateToken_sound sample_platform unit no_faults
              (sample_request (Some "Bearer nurse.jwt") "" ())
              (with_user (sample_request (Some "Bearer nurse.jwt") "" ())
                 (identity_of (sample_person "u-nurse" "nurse@x.com" "nurse" true)))
              sample_world eq_refl)
    as (r & decoded & Hr & Hact & Htok & Hid & Hreq).
  exists r, decoded. split; [done|]. split; [done|]. split; [done|]. split; [done|].
  by injection Hreq as _ _ <-.
Defined.

Lemma guard_changed `{Platform} {B} (F : Faults) (h : Handler B)
    (req : Request B) (w : World) :
  snd (guard (authenticateToken F) h req w) ≠ w →
  ∃ r decoded,
    r ∈ medical_personnel w ∧ Personnel.is_active r = true
    ∧ bears_token req decoded ∧ Claims.userId decoded = Some (Personnel.id r)
    ∧ guard (authenticateToken F) h req w = h (with_user req (identity_of r)) w.
Proof.
  unfold guard. destruct (authenticateToken F req w) as [resp|req'] eqn:Hauth; [done|].
  intros _. apply authenticateToken_next in Hauth
    as (r & decoded & Hr & Hact & Htok & Hid & ->).
  by exists r, decoded.
Qed.

(** X2.  Whatever handler is mounted behind [router.use(authenticateToken)]
    (every route of patients.js, symptoms.js and upload.js is), a request
    changes the store only if it carries a token that verifies for an active
    row of the credential store; for any other request the store is left as
    found. *)
Theorem store_changes_only_authenticated `{Platform} {B} (F : Faults) (h : Handler B)
    (req : Request B) (w : World) :
  snd (guard (authenticateToken F) h req w) ≠ w →
  ∃ r decoded,
    r ∈ medical_personnel w ∧ Personnel.is_active r = true
    ∧ bears_token req decoded ∧ Claims.userId decoded = Some (Personnel.id r)
    ∧ guard (authenticateToken F) h req w = h (with_user req (identity_of r)) w.
Proof. apply guard_changed. Qed.

Lemma sample_after_delete_changed : sample_after_delete ≠ sample_world.
Proof.
  intros Heq. assert (Hp := f_equal (λ w, Patient.is_deleted <$> patients w) Heq).
  discriminate Hp.
Qed.

Lemma store_changes_only_authenticated_witness :
  ∃ r, r ∈ medical_personnel sample_world ∧ Personnel.is_active r = true.
Proof.
  destruct (@store_changes_only_authenticated sample_platform unit no_faults
              (guard (λ req _, requireRole ["admin"] req)
                 (@delete_patient_handler no_faults sample_env))
              (sample_request (Some "Bearer admin.jwt") "p-1" ()) sample_world
              sample_after_delete_changed)
    as (r & decoded & Hr & Hact & _).
  by exists r.
Defined.

(** X3.  DELETE /patients/:id changes the store only for a request whose
    token verifies for an active row of the credential store with the role
    admin. *)
Theorem delete_patient_admin_only `{Platform} (F : Faults) (env : Env) (req : Request ())
    (w : World) :
  snd (delete_patient F env req w) ≠ w →
  ∃ r decoded,
    r ∈ medical_personnel w ∧ Personnel.is_active r = true
    ∧ Personnel.role r = "admin"
    ∧ bears_token req decoded ∧ Claims.userId decoded = Some (Personnel.id r).
Proof.
  unfold delete_patient. intros Hchanged.
  destruct (guard_changed F _ req w Hchanged)
    as (r & decoded & Hr & Hact & Htok & Hid & Hrun).
  exists r, decoded. repeat split; try done.
  rewrite Hrun in Hchanged. unfold guard in Hchanged.
  rewrite requireRole_decides in Hchanged. simpl in Hchanged.
  destruct (bool_decide (Personnel.role r ∈ ["admin"])) eqn:Hrole; [|done].
  apply bool_decide_eq_true_1 in Hrole. by apply list_elem_of_singleton in Hrole.
Qed.

Lemma delete_patient_admin_only_witness :
  ∃ r, r ∈ medical_personnel sample_world ∧ Personnel.role r = "admin".
Proof.
  destruct (@delete_patient_admin_only sample_platform no_faults sample_env
              (sample_request (Some "Bearer admin.jwt") "p-1" ()) sample_world
              sample_after_delete_changed)
    as (r & decoded & Hr & _ & Hrole & _).
  by exists r.
Defined.

(** ** The keys of the schema are kept *)

Lemma NoDup_snoc_fresh (taken : list string) :
  NoDup taken → NoDup (taken ++ [uuid_generate_v4 taken]).
Proof.
  intros Hnd. apply NoDup_app. split; [done|]. split; [|apply NoDup_singleton].
  intros x Hx ->%list_elem_of_singleton. by apply (infinite_is_fresh taken).
Qed.

Lemma NoDup_fmap_filter {A K} (key : A → K) (keep : A → bool) (l : list A) :
  NoDup (key <$> l) → NoDup (key <$> List.filter keep l).
Proof.
  induction l as [|a l IH]; [done|]. rewrite fmap_cons. intros [Hfresh Hnd]%NoDup_cons.
  simpl. destruct (keep a); [|by apply IH].
  rewrite fmap_cons. apply NoDup_cons. split; [|by apply IH].
  intros (x & Hkey & Hx)%list_elem_of_fmap. apply Hfresh.
  apply list_elem_of_fmap. exists x. split; [done|].
  apply list_elem_of_In. apply list_elem_of_In in Hx. by apply List.filter_In in Hx as [Hx _].
Qed.

(** The rows an array insert adds carry ids that are new and distinct. *)
Lemma assign_ids_fresh (values : list (string → Symptom.row)) (taken : list string) :
  (∀ v i, v ∈ values → Symptom.id (v i) = i) →
  NoDup (Symptom.id <$> assign_ids taken values)
  ∧ ∀ i, i ∈ (Symptom.id <$> assign_ids taken values) → i ∉ taken.
Proof.
  revert taken. induction values as [|v values IH]; intros taken Hid; simpl.
  - split; [constructor|]. by intros i Hi%elem_of_nil.
  - destruct (IH (uuid_generate_v4 taken :: taken)) as [Hnd Hnew].
    { intros v' i Hv'. apply Hid. by right. }
    rewrite Hid by left. split.
    + apply NoDup_cons. split; [|done]. intros Hin. apply (Hnew _ Hin). left.
    + intros i [->|Hi]%elem_of_cons; [apply infinite_is_fresh|].
      intros Hi'. apply (Hnew _ Hi). by right.
Qed.

Lemma assign_ids_length (values : list (string → Symptom.row)) (taken : list string) :
  length (assign_ids taken values) = length values.
Proof. revert taken. induction values as [|v values IH]; intros taken; simpl; auto. Qed.

Section Keys.
Context `{Platform}.

Lemma well_formed_set_patients (w : World) (rows : list Patient.row) :
  well_formed w → NoDup (Patient.id <$> rows) → well_formed (set_patients rows w).
Proof. intros (? & ? & ? & ? & ? & ?) Hrows. by repeat split. Qed.

Lemma well_formed_set_symptoms (w : World) (rows : list Symptom.row) :
  well_formed w → NoDup (Symptom.id <$> rows) → well_formed (set_symptoms rows w).
Proof. intros (? & ? & ? & ? & ? & ?) Hrows. by repeat split. Qed.

Lemma well_formed_set_sessions (w : World) (rows : list Session.row) :
  well_formed w → NoDup (Session.id <$> rows) → well_formed (set_symptom_sessions rows w).
Proof. intros (? & ? & ? & ? & ? & ?) Hrows. by repeat split. Qed.

Lemma well_formed_set_xray (w : World) (rows : list Xray.row) :
  well_formed w → NoDup (Xray.id <$> rows) → well_formed (set_xray_images rows w).
Proof. intros (? & ? & ? & ? & ? & ?) Hrows. by repeat split. Qed.

Lemma well_formed_set_bucket (w : World) (objects : gmap string Blob.t) :
  well_formed w → well_formed (set_bucket objects w).
Proof. intros (? & ? & ? & ? & ? & ?). by repeat split. Qed.

Lemma well_formed_storage_remove (F : Faults) (paths : list string) (w : World) :
  well_formed w → well_formed (snd (storage_remove F paths w)).
Proof.
  intros Hwf. unfold storage_remove. destruct (F _); [done|].
  by apply well_formed_set_bucket.
Qed.

Lemma signup_handler_well_formed (F : Faults) (env : Env) (req : Request SignupBody)
    (w : World) :
  well_formed w → well_formed (snd (signup_handler F env req w)).
Proof.
  intros Hwf. unfold signup_handler. destruct (data _); [done|].
  unfold insert_personnel. destruct (F _); [done|].
  destruct (bool_decide _) eqn:Hemail; [done|]. simpl.
  apply bool_decide_eq_false_1 in Hemail.
  destruct Hwf as (Hid & Hem & ? & ? & ? & ?). repeat split; try done; simpl.
  - rewrite fmap_app. by apply NoDup_snoc_fresh.
  - rewrite fmap_app. apply NoDup_app. split; [done|]. split; [|apply NoDup_singleton].
    by intros x Hx ->%list_elem_of_singleton.
Qed.

Lemma signin_handler_well_formed (F : Faults) (env : Env) (req : Request SigninBody)
    (w : World) :
  well_formed w → well_formed (snd (signin_handler F env req w)).
Proof.
  intros Hwf. unfold signin_handler.
  destruct (single _ _ _) as [[user|] [e|]]; simpl; try done.
  destruct (negb _); [done|]. destruct (User.password_hash user); [|done].
  destruct (negb _); [done|]. unfold update_personnel. destruct (F _); [done|]. simpl.
  destruct Hwf as (Hid & Hem & ? & ? & ? & ?). repeat split; try done; simpl.
  - by rewrite update_where_keys.
  - by rewrite update_where_keys.
Qed.

Lemma create_patient_handler_well_formed (F : Faults) (env : Env)
    (req : Request PatientInput) (w : World) :
  well_formed w → well_formed (snd (create_patient_handler F env req w)).
Proof.
  intros Hwf. unfold create_patient_handler. destruct (data _); [done|].
  destruct (user req); [|done]. unfold insert_patient. destruct (F _); [done|]. simpl.
  apply well_formed_set_patients; [done|]. rewrite fmap_app.
  apply NoDup_snoc_fresh, Hwf.
Qed.

Lemma update_patient_handler_well_formed (F : Faults) (env : Env)
    (req : Request PatientUpdate) (w : World) :
  well_formed w → well_formed (snd (update_patient_handler F env req w)).
Proof.
  intros Hwf. unfold update_patient_handler. destruct (user req) as [u|]; [|done].
  unfold update_patients. destruct (F _); [done|]. simpl.
  assert (well_formed
            (set_patients
               (update_where (λ p, bool_decide (Patient.id p = params_id req))
                  (apply_update (body req) (now env) (ReqUser.id u)) (patients w)) w)).
  { apply well_formed_set_patients; [done|]. rewrite update_where_keys by done.
    apply Hwf. }
  by repeat case_match.
Qed.

Lemma delete_patient_handler_well_formed (F : Faults) (env : Env) (req : Request ())
    (w : World) :
  well_formed w → well_formed (snd (delete_patient_handler F env req w)).
Proof.
  intros Hwf. unfold delete_patient_handler. destruct (user req) as [u|]; [|done].
  unfold update_patients. destruct (F _); [done|]. simpl.
  apply well_formed_set_patients; [done|]. rewrite update_where_keys by done.
  apply Hwf.
Qed.

Lemma record_symptoms_handler_well_formed (F : Faults) (env : Env)
    (req : Request SymptomsInput) (w : World) :
  well_formed w → well_formed (snd (record_symptoms_handler F env req w)).
Proof.
  intros Hwf. unfold record_symptoms_handler.
  destruct (find_patient _ _ _) as [[patient|] [e|]]; simpl; try done.
  destruct (user req) as [u|]; [|by repeat case_match].
  unfold insert_symptoms. destruct (F (Insert T_symptoms)); [done|]. simpl.
  match goal with
  | |- context [set_symptoms ?rows w] =>
      assert (Hsym : well_formed (set_symptoms rows w))
  end.
  { apply well_formed_set_symptoms; [done|]. rewrite fmap_app.
    match goal with
    | |- context [assign_ids ?taken ?values] =>
        destruct (assign_ids_fresh values taken) as [Hnd Hnew]
    end.
    { by intros v i (s & -> & _)%list_elem_of_fmap. }
    apply NoDup_app. split; [apply Hwf|]. split; [|done].
    intros i Hi Hi'. by apply (Hnew i Hi'). }
  unfold insert_session. destruct (F (Insert T_symptom_sessions)); [done|]. simpl.
  apply well_formed_set_sessions; [done|]. simpl. rewrite fmap_app.
  apply NoDup_snoc_fresh, Hwf.
Qed.

Lemma update_symptom_handler_well_formed (F : Faults) (env : Env)
    (req : Request SymptomUpdate) (w : World) :
  well_formed w → well_formed (snd (update_symptom_handler F env req w)).
Proof.
  intros Hwf. unfold update_symptom_handler.
  destruct (single _ _ _) as [[existing|] [e|]]; simpl; try done.
  destruct (user req) as [u|]; [|done].
  unfold update_symptoms. destruct (F (Update T_symptoms)); [done|]. simpl.
  assert (well_formed
            (set_symptoms
               (update_where (λ s, bool_decide (Symptom.id s = params_id req))
                  (apply_symptom_update (body req) (now env) (ReqUser.id u))
                  (symptoms w)) w)).
  { apply well_formed_set_symptoms; [done|]. rewrite update_where_keys by done.
    apply Hwf. }
  by repeat case_match.
Qed.

Lemma delete_symptom_handler_well_formed (F : Faults) (req : Request ()) (w : World) :
  well_formed w → well_formed (snd (delete_symptom_handler F req w)).
Proof.
  intros Hwf. unfold delete_symptom_handler.
  destruct (single _ _ _) as [[found|] [e|]]; simpl; try done.
  unfold delete_symptoms. destruct (F (Delete T_symptoms)); [done|]. simpl.
  apply well_formed_set_symptoms; [done|]. apply NoDup_fmap_filter, Hwf.
Qed.

Lemma upload_xray_handler_well_formed (F : Faults) (env : Env)
    (req : Request UploadInput) (w : World) :
  well_formed w → well_formed (snd (upload_xray_handler F env req w)).
Proof.
  intros Hwf. unfold upload_xray_handler.
  destruct (file req) as [f|]; [|done]. destruct (negb _); [done|].
  destruct (find_patient _ _ _) as [[patient|] [e|]]; simpl; try done.
  destruct (user req) as [u|]; [|done].
  unfold storage_upload. destruct (F StorageUpload); [done|].
  destruct (bucket w !! _); [done|]. simpl.
  unfold insert_xray. destruct (F (Insert T_xray_images)); simpl.
  - match goal with
    | |- context [storage_remove F ?paths ?w1] =>
        pose proof (well_formed_storage_remove F paths w1
                      ltac:(by apply well_formed_set_bucket)) as Hrm;
        by destruct (storage_remove F paths w1)
    end.
  - apply well_formed_set_xray; [by apply well_formed_set_bucket|]. simpl.
    rewrite fmap_app. apply NoDup_snoc_fresh, Hwf.
Qed.

Lemma update_xray_handler_well_formed (F : Faults) (env : Env)
    (req : Request XrayUpdate) (w : World) :
  well_formed w → well_formed (snd (update_xray_handler F env req w)).
Proof.
  intros Hwf. unfold update_xray_handler.
  destruct (single _ _ _) as [[existing|] [e|]]; simpl; try done.
  destruct (user req) as [u|]; [|done].
  unfold update_xray. destruct (F (Update T_xray_images)); [done|]. simpl.
  assert (well_formed
            (set_xray_images
               (update_where (λ i, bool_decide (Xray.id i = params_id req))
                  (apply_xray_update (body req) (now env) (ReqUser.id u))
                  (xray_images w)) w)).
  { apply well_formed_set_xray; [done|]. rewrite update_where_keys by done.
    apply Hwf. }
  by repeat case_match.
Qed.

Lemma delete_xray_handler_well_formed (F : Faults) (req : Request ()) (w : World) :
  well_formed w → well_formed (snd (delete_xray_handler F req w)).
Proof.
  intros Hwf. unfold delete_xray_handler.
  destruct (single _ _ _) as [[image|] [e|]]; simpl; try done.
  pose proof (well_formed_storage_remove F [Xray.file_path image] w Hwf) as Hrm.
  destruct (storage_remove F _ w) as [removed w1]. simpl in Hrm.
  unfold delete_xray. destruct (F (Delete T_xray_images)); [done|]. simpl.
  apply well_formed_set_xray; [done|]. apply NoDup_fmap_filter, Hrm.
Qed.

(** A property of the store passes through a middleware when the handler
    keeps it for every request. *)
Lemma through_guard {B} (P : World → Prop) (m : Request B → World → Outcome B)
    (h : Handler B) (req : Request B) (w : World) :
  P w → (∀ req', P (snd (h req' w))) → P (snd (guard m h req w)).
Proof. intros Hw Hh. unfold guard. by destruct (m req w). Qed.

End Keys.

(** X4.  Every route that writes keeps the keys of the schema: if ids are
    unique in each table and emails are unique in the credential store before
    a request, they are after it, whatever the request carries and whichever
    calls the collaborator fails. *)
Theorem routes_keep_keys `{Platform} (F : Faults) (env : Env) (w : World) :
  well_formed w →
  (∀ req, well_formed (snd (signup F env req w)))
  ∧ (∀ req, well_formed (snd (signin F env req w)))
  ∧ (∀ req, well_formed (snd (create_patient F env req w)))
  ∧ (∀ req, well_formed (snd (update_patient F env req w)))
  ∧ (∀ req, well_formed (snd (delete_patient F env req w)))
  ∧ (∀ req, well_formed (snd (record_symptoms F env req w)))
  ∧ (∀ req, well_formed (snd (update_symptom F env req w)))
  ∧ (∀ req, well_formed (snd (delete_symptom F req w)))
  ∧ (∀ req, well_formed (snd (upload_xray F env req w)))
  ∧ (∀ req, well_formed (snd (update_xray_metadata F env req w)))
  ∧ (∀ req, well_formed (snd (delete_xray_image F req w))).
Proof.
  intros Hwf.
  split; [|split; [|split; [|split; [|split; [|split; [|split; [|split; [|split;
    [|split]]]]]]]]]; intros req.
  all: unfold signup, signin, create_patient, update_patient, delete_patient,
         record_symptoms, update_symptom, delete_symptom, upload_xray,
         update_xray_metadata, delete_xray_image, validated.
  all: repeat (apply through_guard; [done|]; intros ?).
  - by apply signup_handler_well_formed.
  - by apply signin_handler_well_formed.
  - by apply create_patient_handler_well_formed.
  - by apply update_patient_handler_well_formed.
  - by apply delete_patient_handler_well_formed.
  - by apply record_symptoms_handler_well_formed.
  - by apply update_symptom_handler_well_formed.
  - by apply delete_symptom_handler_well_formed.
  - by apply upload_xray_handler_well_formed.
  - by apply update_xray_handler_well_formed.
  - by apply delete_xray_handler_well_formed.
Qed.

Lemma sample_world_well_formed : well_formed sample_world.
Proof. repeat split; evaluated. Qed.

Lemma routes_keep_keys_witness :
  well_formed (snd (@signup sample_platform no_faults sample_env
                      (sample_signup "efua@x.com") sample_world))
  ∧ well_formed sample_after_delete.
Proof.
  destruct (@routes_keep_keys sample_platform no_faults sample_env sample_world
              sample_world_well_formed)
    as (Hsignup & _ & _ & _ & Hdelete & _).
  split; [apply Hsignup|apply Hdelete].
Defined.

(** ** Signing in *)

Section Signin.
Context `{Platform}.

Lemma signin_lookup (F : Faults) (w : World) (r : Personnel.row) (columns : list string) :
  F (Select T_medical_personnel) = false →
  NoDup (Personnel.email <$> medical_personnel w) → r ∈ medical_personnel w →
  single F (Select T_medical_personnel)
    (personnel_by_email columns (Personnel.email r) w)
  = ok (select_columns columns r).
Proof.
  intros HF Hnd Hr. rewrite personnel_by_email_found by done. by apply single_one.
Qed.

Lemma signin_handler_inactive (F : Faults) (env : Env) (req : Request SigninBody)
    (w : World) (r : Personnel.row) :
  F (Select T_medical_personnel) = false →
  NoDup (Personnel.email <$> medical_personnel w) → r ∈ medical_personnel w →
  Personnel.email r = si_email (body req) → Personnel.is_active r = false →
  signin_handler F env req w
  = (Json 403 (ErrorBody "Account deactivated"
                 "Your account has been deactivated. Please contact administrator."), w).
Proof.
  intros HF Hnd Hr Hemail Hact. unfold signin_handler.
  rewrite <- Hemail, signin_lookup by done. simpl.
  change (User.is_active (select_columns _ r)) with (Some (Personnel.is_active r)).
  by rewrite Hact.
Qed.

Lemma signin_handler_unknown (F : Faults) (env : Env) (req : Request SigninBody)
    (w : World) :
  (∀ r, r ∈ medical_personnel w → Personnel.email r ≠ si_email (body req)) →
  signin_handler F env req w
  = (Json 401 (ErrorBody "Invalid credentials" "Email or password is incorrect"), w).
Proof.
  intros Hno. unfold signin_handler. rewrite personnel_by_email_missing by done.
  unfold single, many, single_of. by destruct (F _).
Qed.

End Signin.

(** X5.  A signin with the email of an active identity (emails being
    unique) and a password that matches its hash is answered 200 with the
    identity and a token signed for its id, email and role.  It writes now
    into the last_login of the row with that identity's id and changes nothing
    else: every other column of that row, every other row of the credential
    store and every other table and the bucket are as they were; and when that
    write fails the answer is the same and the store is untouched. *)
Theorem signin_success `{Platform} (F : Faults) (env : Env) (req : Request SigninBody)
    (w : World) (r : Personnel.row) :
  F (Select T_medical_personnel) = false →
  NoDup (Personnel.email <$> medical_personnel w) → r ∈ medical_personnel w →
  Personnel.email r = si_email (body req) → Personnel.is_active r = true →
  bcrypt_compare (si_password (body req)) (Personnel.password_hash r) = true →
  ∃ w',
    signin_handler F env req w
    = (Json 200
         (AccountBody "Login successful"
            {| uj_id := Some (Personnel.id r);
               uj_email := Some (Personnel.email r);
               uj_firstName := Some (Personnel.first_name r);
               uj_lastName := Some (Personnel.last_name r);
               uj_role := Some (Personnel.role r);
               uj_licenseNumber := Personnel.license_number r;
               uj_createdAt := None |}
            (jwt_sign {| Claims.userId := Some (Personnel.id r);
                         Claims.email := Some (Personnel.email r);
                         Claims.role := Some (Personnel.role r) |}
               JWT_SECRET "24h" (now env))), w')
    ∧ (F (Update T_medical_personnel) = true → w' = w)
    ∧ (F (Update T_medical_personnel) = false →
       medical_personnel w'
       = (λ p, if bool_decide (Personnel.id p = Personnel.id r) then
                 {| Personnel.id := Personnel.id p;
                    Personnel.email := Personnel.email p;
                    Personnel.password_hash := Personnel.password_hash p;
                    Personnel.first_name := Personnel.first_name p;
                    Personnel.last_name := Personnel.last_name p;
                    Personnel.role := Personnel.role p;
                    Personnel.license_number := Personnel.license_number p;
                    Personnel.is_active := Personnel.is_active p;
                    Personnel.created_at := Personnel.created_at p;
                    Personnel.last_login := Some (now env) |}
               else p) <$> medical_personnel w)
    ∧ patients w' = patients w ∧ symptoms w' = symptoms w
    ∧ symptom_sessions w' = symptom_sessions w
    ∧ xray_images w' = xray_images w ∧ bucket w' = bucket w.
Proof.
  intros HF Hnd Hr Hemail Hact Hpw. unfold signin_handler.
  rewrite <- Hemail, signin_lookup by done. simpl.
  change (User.is_active (select_columns _ r)) with (Some (Personnel.is_active r)).
  change (User.password_hash (select_columns _ r))
    with (Some (Personnel.password_hash r)).
  rewrite Hact. simpl. rewrite Hemail, Hpw. simpl. rewrite <- Hemail.
  unfold update_personnel. destruct (F (Update T_medical_personnel)) eqn:HFu; simpl.
  - eexists. split; [reflexivity|]. by repeat split.
  - eexists. split; [reflexivity|]. split; [done|]. split; [|done].
    intros _. simpl. unfold update_where.
    apply list_fmap_ext. intros i p _. simpl.
    destruct (bool_decide (Some (Personnel.id p) = Some (Personnel.id r))) eqn:Hm.
    + apply bool_decide_eq_true_1 in Hm. injection Hm as Hm.
      by rewrite bool_decide_eq_true_2.
    + apply bool_decide_eq_false_1 in Hm. rewrite bool_decide_eq_false_2; [done|].
      intros Heq. apply Hm. by rewrite Heq.
Qed.

Lemma signin_success_witness :
  ∃ w' token,
    @signin_handler sample_platform no_faults sample_env
      (sample_request None "" {| si_email := "nurse@x.com"; si_password := "Secret123" |})
      sample_world
    = (Json 200
         (AccountBody "Login successful"
            {| uj_id := Some "u-nurse"; uj_email := Some "nurse@x.com";
               uj_firstName := Some "Ada"; uj_lastName := Some "Okoye";
               uj_role := Some "nurse"; uj_licenseNumber := None;
               uj_createdAt := None |} token), w')
    ∧ medical_personnel w'
      = [sample_person "u-admin" "admin@x.com" "admin" true;
         {| Personnel.id := "u-nurse"; Personnel.email := "nurse@x.com";
            Personnel.password_hash := "salt$Secret123";
            Personnel.first_name := "Ada"; Personnel.last_name := "Okoye";
            Personnel.role := "nurse"; Personnel.license_number := None;
            Personnel.is_active := true; Personnel.created_at := 1000;
            Personnel.last_login := Some 5000 |};
         sample_person "u-former" "former@x.com" "doctor" false]
    ∧ patients w' = patients sample_world.
Proof.
  destruct (@signin_success sample_platform no_faults sample_env
              (sample_request None "" {| si_email := "nurse@x.com";
                                         si_password := "Secret123" |})
              sample_world (sample_person "u-nurse" "nurse@x.com" "nurse" true))
    as (w' & Hres & _ & Hrows & Hpatients & _);
    [reflexivity|evaluated|listed|reflexivity|reflexivity|reflexivity|].
  eexists w', _. split; [exact Hres|]. split; [by rewrite Hrows|exact Hpatients].
Defined.

(** X6.  Signin refuses without writing: an inactive identity gets 403
    whatever the password is, right or wrong, and an email that no identity
    has gets the very 401 a wrong password gets. *)
Theorem signin_refusals `{Platform} (F : Faults) (env : Env) (req : Request SigninBody)
    (w : World) :
  (∀ r, F (Select T_medical_personnel) = false →
        NoDup (Personnel.email <$> medical_personnel w) → r ∈ medical_personnel w →
        Personnel.email r = si_email (body req) → Personnel.is_active r = false →
        signin_handler F env req w
        = (Json 403 (ErrorBody "Account deactivated"
                       "Your account has been deactivated. Please contact administrator."),
           w))
  ∧ ((∀ r, r ∈ medical_personnel w → Personnel.email r ≠ si_email (body req)) →
     signin_handler F env req w
     = (Json 401 (ErrorBody "Invalid credentials" "Email or password is incorrect"), w)).
Proof.
  split.
  - intros r. by apply signin_handler_inactive.
  - apply signin_handler_unknown.
Qed.

Lemma signin_refusals_witness :
  @signin_handler sample_platform no_faults sample_env
    (sample_request None "" {| si_email := "former@x.com"; si_password := "Secret123" |})
    sample_world
  = (Json 403 (ErrorBody "Account deactivated"
                 "Your account has been deactivated. Please contact administrator."),
     sample_world)
  ∧ @signin_handler sample_platform no_faults sample_env
      (sample_request None "" {| si_email := "nobody@x.com"; si_password := "Secret123" |})
      sample_world
    = (Json 401 (ErrorBody "Invalid credentials" "Email or password is incorrect"),
       sample_world).
Proof.
  split.
  - apply (proj1 (@signin_refusals sample_platform no_faults sample_env _ sample_world)
             (sample_person "u-former" "former@x.com" "doctor" false));
      [reflexivity|evaluated|listed|reflexivity|reflexivity].
  - apply (proj2 (@signin_refusals sample_platform no_faults sample_env _ sample_world)).
    apply Forall_forall. evaluated.
Defined.

(** ** From signup to the first requests *)

Lemma split_spaceless (s : string) : spaceless s = true → split space s = [s].
Proof.
  induction s as [|c s IH]; [done|]. simpl. intros [Hc Hs]%andb_prop.
  apply negb_true_iff, bool_decide_eq_false_1 in Hc.
  rewrite decide_False by done. by rewrite IH.
Qed.

Lemma append_cons (c : Ascii.ascii) (s t : string) :
  String c s +:+ t = String c (s +:+ t).
Proof. reflexivity. Qed.

Lemma append_empty (t : string) : "" +:+ t = t.
Proof. reflexivity. Qed.

Lemma split_at_separator (sep : Ascii.ascii) (s : string) :
  split sep (String sep s) = "" :: split sep s.
Proof. simpl. by rewrite decide_True. Qed.

Lemma split_past (sep c : Ascii.ascii) (s : string) :
  c ≠ sep →
  split sep (String c s)
  = match split sep s with
    | [] => [String c ""]
    | piece :: pieces => String c piece :: pieces
    end.
Proof. intros Hc. simpl. by rewrite decide_False. Qed.

(** The header the clients build is read back to the token it was built
    from. *)
Lemma bearer_of_header (token : string) :
  spaceless token = true → bearer (Some ("Bearer " +:+ token)) = Some token.
Proof.
  intros Hs. unfold bearer.
  rewrite !append_cons, append_empty.
  cbn [truthy String.eqb negb mbind option_bind].
  change (Ascii.Ascii false false false false false true false false) with space.
  rewrite !split_past by (by vm_compute).
  rewrite split_at_separator, split_spaceless by done. reflexivity.
Qed.

Section FirstRequests.
Context `{Platform}.

(** The row a signup writes under the id the table assigns. *)
Lemma signup_handler_creates (F : Faults) (env : Env) (req : Request SignupBody)
    (w : World) :
  F (Insert T_medical_personnel) = false →
  (∀ r, r ∈ medical_personnel w → Personnel.email r ≠ su_email (body req)) →
  let b := body req in
  let new_id := uuid_generate_v4 (Personnel.id <$> medical_personnel w) in
  let created :=
    {| Personnel.id := new_id;
       Personnel.email := su_email b;
       Personnel.password_hash := bcrypt_hash (su_password b) 12 (salt env);
       Personnel.first_name := su_firstName b;
       Personnel.last_name := su_lastName b;
       Personnel.role := su_role b;
       Personnel.license_number := su_licenseNumber b;
       Personnel.is_active := true;
       Personnel.created_at := now env;
       Personnel.last_login := None |} in
  signup_handler F env req w
  = (Json 201
       (AccountBody "User account created successfully"
          {| uj_id := Some new_id;
             uj_email := Some (su_email b);
             uj_firstName := Some (su_firstName b);
             uj_lastName := Some (su_lastName b);
             uj_role := Some (su_role b);
             uj_licenseNumber := su_licenseNumber b;
             uj_createdAt := Some (now env) |}
          (jwt_sign {| Claims.userId := Some new_id;
                       Claims.email := Some (su_email b);
                       Claims.role := Some (su_role b) |}
             JWT_SECRET "24h" (now env))),
     set_medical_personnel (medical_personnel w ++ [created]) w).
Proof.
  intros HFi Hfree b new_id created. unfold signup_handler. fold b.
  rewrite personnel_by_email_missing by done.
  destruct (single_nil F (Select T_medical_personnel) (A:=User.object)) as [-> _].
  unfold insert_personnel. rewrite HFi. simpl.
  rewrite bool_decide_eq_false_2; [reflexivity|].
  intros (r & Hemail & Hr)%list_elem_of_fmap. by apply (Hfree r).
Qed.

End FirstRequests.

(** X7.  An account can sign in with the password it signed up with: after
    a signup for a free email, a signin with the same email and password is
    answered 200 for the identity the signup created, provided bcrypt accepts
    a password against the hash it made of it. *)
Theorem signup_then_signin `{Platform} (F : Faults) (env env' : Env)
    (req : Request SignupBody) (again : Request SigninBody) (w : World) :
  F (Select T_medical_personnel) = false →
  F (Insert T_medical_personnel) = false →
  (∀ r, r ∈ medical_personnel w → Personnel.email r ≠ su_email (body req)) →
  bcrypt_compare (su_password (body req))
    (bcrypt_hash (su_password (body req)) 12 (salt env)) = true →
  si_email (body again) = su_email (body req) →
  si_password (body again) = su_password (body req) →
  ∃ new_id account signup_token w',
    signup_handler F env req w
    = (Json 201 (AccountBody "User account created successfully" account signup_token), w')
    ∧ uj_id account = Some new_id
    ∧ ∃ signin_token w'',
        signin_handler F env' again w'
        = (Json 200
             (AccountBody "Login successful"
                {| uj_id := Some new_id;
                   uj_email := Some (su_email (body req));
                   uj_firstName := Some (su_firstName (body req));
                   uj_lastName := Some (su_lastName (body req));
                   uj_role := Some (su_role (body req));
                   uj_licenseNumber := su_licenseNumber (body req);
                   uj_createdAt := None |} signin_token), w'').
Proof.
  intros HFs HFi Hfree Hbcrypt Hemail Hpw.
  rewrite (signup_handler_creates F env req w HFi Hfree).
  eexists _, _, _, _. split; [reflexivity|]. split; [reflexivity|].
  unfold signin_handler. rewrite Hemail, Hpw.
  unfold personnel_by_email. simpl. rewrite filter_app, filter_none by done.
  rewrite filter_cons_True by done. simpl. rewrite single_one by done. simpl.
  rewrite Hbcrypt. simpl.
  destruct (update_personnel F _ _ _) as [updated w'']. by eexists _, _.
Qed.

Lemma signup_then_signin_witness :
  ∃ new_id account signup_token w',
    @signup_handler sample_platform no_faults sample_env (sample_signup "efua@x.com")
      sample_world
    = (Json 201 (AccountBody "User account created successfully" account signup_token), w')
    ∧ uj_id account = Some new_id
    ∧ ∃ signin_token w'',
        @signin_handler sample_platform no_faults sample_env
          (sample_request None "" {| si_email := "efua@x.com"; si_password := "Secret123" |})
          w'
        = (Json 200
             (AccountBody "Login successful"
                {| uj_id := Some new_id; uj_email := Some "efua@x.com";
                   uj_firstName := Some "Efua"; uj_lastName := Some "Boateng";
                   uj_role := Some "doctor"; uj_licenseNumber := Some "MD-12345";
                   uj_createdAt := None |} signin_token), w'').
Proof.
  apply (@signup_then_signin sample_platform no_faults sample_env sample_env
           (sample_signup "efua@x.com")
           (sample_request None "" {| si_email := "efua@x.com";
                                      si_password := "Secret123" |})
           sample_world);
    [reflexivity|reflexivity| |reflexivity|reflexivity|reflexivity].
  apply Forall_forall. evaluated.
Defined.

(** X8.  The token a signup returns opens the authenticated routes for the
    new identity: sent as "Bearer <token>" on a later request, it makes the
    auth middleware attach the id, email and role the signup stored, provided
    jwt.verify gives back the payload jwt.sign was given and the token is a
    non-empty string without spaces. *)
Theorem signup_token_authenticates `{Platform} {B} (F : Faults) (env : Env)
    (req : Request SignupBody) (w : World) (new_id token : string) :
  F (Select T_medical_personnel) = false →
  F (Insert T_medical_personnel) = false →
  NoDup (Personnel.id <$> medical_personnel w) →
  (∀ r, r ∈ medical_personnel w → Personnel.email r ≠ su_email (body req)) →
  new_id = uuid_generate_v4 (Personnel.id <$> medical_personnel w) →
  token = jwt_sign {| Claims.userId := Some new_id;
                      Claims.email := Some (su_email (body req));
                      Claims.role := Some (su_role (body req)) |}
            JWT_SECRET "24h" (now env) →
  jwt_verify token JWT_SECRET
  = Decoded {| Claims.userId := Some new_id;
               Claims.email := Some (su_email (body req));
               Claims.role := Some (su_role (body req)) |} →
  token ≠ "" → spaceless token = true →
  ∃ account w',
    signup_handler F env req w
    = (Json 201 (AccountBody "User account created successfully" account token), w')
    ∧ ∀ next : Request B,
        authorization next = Some ("Bearer " +:+ token) →
        authenticateToken F next w'
        = Next (with_user next
                  {| ReqUser.id := Some new_id;
                     ReqUser.email := Some (su_email (body req));
                     ReqUser.role := Some (su_role (body req)) |}).
Proof.
  intros HFs HFi Hnd Hfree -> -> Hjwt Hne Hspaceless.
  rewrite (signup_handler_creates F env req w HFi Hfree).
  eexists _, _. split; [reflexivity|]. intros next Hauth.
  match goal with
  | |- authenticateToken F next (set_medical_personnel (_ ++ [?row]) w) = _ =>
      set (created := row)
  end.
  rewrite (authenticateToken_found F next _ created); [reflexivity|].
  split; [|split; [|split; [|done]]].
  - eexists. split; [eexists; split; [|split; [exact Hne|exact Hjwt]]|reflexivity].
    rewrite Hauth. by apply bearer_of_header.
  - simpl. apply elem_of_app. right. left.
  - simpl. rewrite fmap_app. by apply NoDup_snoc_fresh.
Qed.

Lemma signup_token_authenticates_witness :
  ∃ account w',
    @signup_handler plain_platform no_faults sample_env (sample_signup "efua@x.com")
      sample_world
    = (Json 201 (AccountBody "User account created successfully" account "0"), w')
    ∧ ∀ next : Request unit,
        authorization next = Some "Bearer 0" →
        @authenticateToken plain_platform unit no_faults next w'
        = Next (with_user next
                  {| ReqUser.id := Some "0"; ReqUser.email := Some "efua@x.com";
                     ReqUser.role := Some "doctor" |}).
Proof.
  apply (@signup_token_authenticates plain_platform unit no_faults sample_env
           (sample_signup "efua@x.com") sample_world "0" "0").
  - reflexivity.
  - reflexivity.
  - evaluated.
  - apply Forall_forall. evaluated.
  - by vm_compute.
  - reflexivity.
  - reflexivity.
  - discriminate.
  - reflexivity.
Defined.

(** ** The account routes behind the token *)

Section AccountRoutes.
Context `{Platform}.

Lemma profile_found (F : Faults) (req : Request unit) (w : World) (r : Personnel.row) :
  token_of F req w r → Personnel.is_active r = true →
  profile F req w
  = (Answered 200
       {| pf_id := Some (Personnel.id r);
          pf_email := Some (Personnel.email r);
          pf_firstName := Some (Personnel.first_name r);
          pf_lastName := Some (Personnel.last_name r);
          pf_role := Some (Personnel.role r);
          pf_licenseNumber := Personnel.license_number r;
          pf_createdAt := Some (Personnel.created_at r);
          pf_lastLogin := Personnel.last_login r |}, w).
Proof.
  intros Htoken Hact. unfold profile, guarded.
  rewrite (authenticateToken_found F req w r Htoken), Hact.
  destruct Htoken as (_ & Hr & Hnd & HF).
  unfold profile_handler. simpl.
  rewrite personnel_by_id_found by done. by rewrite single_one.
Qed.

(** The row a successful signin leaves in the store. *)
Lemma signin_handler_stamps (F : Faults) (env : Env) (req : Request SigninBody)
    (w : World) (r : Personnel.row) :
  F (Select T_medical_personnel) = false → F (Update T_medical_personnel) = false →
  NoDup (Personnel.id <$> medical_personnel w) →
  NoDup (Personnel.email <$> medical_personnel w) → r ∈ medical_personnel w →
  Personnel.email r = si_email (body req) → Personnel.is_active r = true →
  bcrypt_compare (si_password (body req)) (Personnel.password_hash r) = true →
  NoDup (Personnel.id <$> medical_personnel (signin_handler F env req w).2)
  ∧ {| Personnel.id := Personnel.id r;
       Personnel.email := Personnel.email r;
       Personnel.password_hash := Personnel.password_hash r;
       Personnel.first_name := Personnel.first_name r;
       Personnel.last_name := Personnel.last_name r;
       Personnel.role := Personnel.role r;
       Personnel.license_number := Personnel.license_number r;
       Personnel.is_active := Personnel.is_active r;
       Personnel.created_at := Personnel.created_at r;
       Personnel.last_login := Some (now env) |}
    ∈ medical_personnel (signin_handler F env req w).2.
Proof.
  intros HF HFu Hid Hnd Hr Hemail Hact Hpw.
  match goal with |- _ ∧ ?row ∈ _ => set (target := row) end.
  unfold signin_handler.
  rewrite <- Hemail, signin_lookup by done. simpl.
  change (User.is_active (select_columns _ r)) with (Some (Personnel.is_active r)).
  change (User.password_hash (select_columns _ r))
    with (Some (Personnel.password_hash r)).
  rewrite Hact. simpl. rewrite Hemail, Hpw. simpl. rewrite <- Hemail.
  unfold update_personnel. rewrite HFu. simpl. split.
  - by rewrite update_where_keys.
  - unfold target.
    match goal with
    | |- _ ∈ update_where ?matches ?change _ =>
        apply (update_where_hit matches change _ r); [done|]
    end.
    by apply bool_decide_eq_true_2.
Qed.

End AccountRoutes.

(** X9.  A refresh signs the new token for the id, email and role the
    credential store holds now for the subject of the presented token, not for
    the claims that token carried; a deactivated identity gets 403 and no new
    token; the store is unchanged either way. *)
Theorem refresh_reads_store `{Platform} (F : Faults) (env : Env) (req : Request unit)
    (w : World) (r : Personnel.row) :
  token_of F req w r →
  refresh F env req w
  = (if Personnel.is_active r then
       Answered 200
         {| tk_message := "Token refreshed successfully";
            tk_token := jwt_sign {| Claims.userId := Some (Personnel.id r);
                                    Claims.email := Some (Personnel.email r);
                                    Claims.role := Some (Personnel.role r) |}
                          JWT_SECRET "24h" (now env) |}
     else
       Refused (Json 403 (ErrorBody "Account deactivated"
                  "Your account has been deactivated. Please contact administrator.")),
     w).
Proof.
  intros Htoken. unfold refresh, guarded.
  rewrite (authenticateToken_found F req w r Htoken).
  by destruct (Personnel.is_active r).
Qed.

Lemma refresh_reads_store_witness :
  @refresh sample_platform no_faults sample_env
    (sample_request (Some "Bearer nurse.jwt") "" ()) sample_world
  = (Answered 200 {| tk_message := "Token refreshed successfully";
                     tk_token := "u-nurse.jwt" |}, sample_world).
Proof.
  apply (@refresh_reads_store sample_platform no_faults sample_env
           (sample_request (Some "Bearer nurse.jwt") "" ()) sample_world
           (sample_person "u-nurse" "nurse@x.com" "nurse" true)).
  apply (sample_token_of no_faults "Bearer nurse.jwt" "nurse.jwt" "" ()
           (sample_claims "u-nurse" "nurse@x.com" "nurse"));
    [reflexivity|discriminate|reflexivity|reflexivity|listed|reflexivity].
Defined.

(** X10.  The profile read after a signin shows that signin: once a signin
    of an active identity has gone through (lookup and last_login write
    included), a profile request with a token of that identity is answered 200
    with the stored fields of the identity and lastLogin equal to the time of
    the signin. *)
Theorem signin_then_profile `{Platform} (F : Faults) (env : Env)
    (req : Request SigninBody) (next : Request unit) (w : World) (r : Personnel.row)
    (decoded : Claims.t) :
  F (Select T_medical_personnel) = false → F (Update T_medical_personnel) = false →
  NoDup (Personnel.id <$> medical_personnel w) →
  NoDup (Personnel.email <$> medical_personnel w) → r ∈ medical_personnel w →
  Personnel.email r = si_email (body req) → Personnel.is_active r = true →
  bcrypt_compare (si_password (body req)) (Personnel.password_hash r) = true →
  bears_token next decoded → Claims.userId decoded = Some (Personnel.id r) →
  let w' := (signin_handler F env req w).2 in
  profile F next w'
  = (Answered 200
       {| pf_id := Some (Personnel.id r);
          pf_email := Some (Personnel.email r);
          pf_firstName := Some (Personnel.first_name r);
          pf_lastName := Some (Personnel.last_name r);
          pf_role := Some (Personnel.role r);
          pf_licenseNumber := Personnel.license_number r;
          pf_createdAt := Some (Personnel.created_at r);
          pf_lastLogin := Some (now env) |}, w').
Proof.
  intros HF HFu Hid Hnd Hr Hemail Hact Hpw Hbears Hsub w'.
  destruct (signin_handler_stamps F env req w r) as [Hid' Hr']; try done.
  fold w' in Hid', Hr'.
  match type of Hr' with ?row ∈ _ => rewrite (profile_found F next w' row) end.
  - reflexivity.
  - split; [by exists decoded|done].
  - exact Hact.
Qed.

Lemma signin_then_profile_witness :
  @profile sample_platform no_faults
    (sample_request (Some "Bearer nurse.jwt") "" ())
    (@signin_handler sample_platform no_faults sample_env
       (sample_request None "" {| si_email := "nurse@x.com"; si_password := "Secret123" |})
       sample_world).2
  = (Answered 200
       {| pf_id := Some "u-nurse"; pf_email := Some "nurse@x.com";
          pf_firstName := Some "Ada"; pf_lastName := Some "Okoye";
          pf_role := Some "nurse"; pf_licenseNumber := None;
          pf_createdAt := Some 1000; pf_lastLogin := Some 5000 |},
     (@signin_handler sample_platform no_faults sample_env
        (sample_request None "" {| si_email := "nurse@x.com"; si_password := "Secret123" |})
        sample_world).2).
Proof.
  apply (@signin_then_profile sample_platform no_faults sample_env
           (sample_request None "" {| si_email := "nurse@x.com";
                                      si_password := "Secret123" |})
           (sample_request (Some "Bearer nurse.jwt") "" ()) sample_world
           (sample_person "u-nurse" "nurse@x.com" "nurse" true)
           (sample_claims "u-nurse" "nurse@x.com" "nurse")).
  - reflexivity.
  - reflexivity.
  - evaluated.
  - evaluated.
  - listed.
  - reflexivity.
  - reflexivity.
  - reflexivity.
  - exists "nurse.jwt". split; [reflexivity|]. split; [discriminate|reflexivity].
  - reflexivity.
Defined.

(** ** Patients: create, read, update, delete *)

Lemma set_patients_same (w : World) : set_patients (patients w) w = w.
Proof. by destruct w. Qed.

Lemma update_where_none {A} (matches : A → bool) (change : A → A) (rows : list A) :
  (∀ x, x ∈ rows → matches x = false) → update_where matches change rows = rows.
Proof.
  intros Hno. unfold update_where. rewrite <- (list_fmap_id rows) at 2.
  apply list_fmap_ext. intros i x Hx. simpl.
  by rewrite Hno by (by eapply list_elem_of_lookup_2).
Qed.

Lemma filter_bool_none {A} (keep : A → bool) (rows : list A) :
  (∀ x, x ∈ rows → keep x = false) → List.filter keep rows = [].
Proof.
  induction rows as [|a rows IH]; intros Hno; [done|]. simpl.
  rewrite Hno by left. apply IH. intros x Hx. apply Hno. by right.
Qed.

Lemma create_patient_handler_new (F : Faults) (env : Env) (req : Request PatientInput)
    (w : World) (u : ReqUser.t) :
  user req = Some u → F (Insert T_patients) = false →
  data (single F (Select T_patients)
          (filter (λ p, Patient.first_name p = in_firstName (body req)
                        ∧ Patient.last_name p = in_lastName (body req)
                        ∧ Patient.date_of_birth p = in_dateOfBirth (body req))
             (patients w))) = None →
  let b := body req in
  let created :=
    {| Patient.id := uuid_generate_v4 (Patient.id <$> patients w);
       Patient.first_name := in_firstName b;
       Patient.last_name := in_lastName b;
       Patient.date_of_birth := in_dateOfBirth b;
       Patient.gender := in_gender b;
       Patient.phone_number := in_phoneNumber b;
       Patient.email := in_email b;
       Patient.address := in_address b;
       Patient.medical_history := in_medicalHistory b;
       Patient.is_deleted := false;
       Patient.created_by := ReqUser.id u;
       Patient.created_at := now env;
       Patient.updated_at := None;
       Patient.updated_by := None;
       Patient.deleted_at := None;
       Patient.deleted_by := None |} in
  create_patient_handler F env req w
  = (Json 201 (PatientBody (Some "Patient created successfully") (patient_created created)),
     set_patients (patients w ++ [created]) w).
Proof.
  intros Hu HFi Hnone b created. unfold create_patient_handler.
  rewrite Hnone, Hu. unfold insert_patient. by rewrite HFi.
Qed.

Lemma get_patient_handler_found (F : Faults) (req : Request unit) (w : World)
    (p : Patient.row) :
  F (Select T_patients) = false → NoDup (Patient.id <$> patients w) →
  p ∈ patients w → params_id req = Patient.id p →
  get_patient_handler F req w = (Json 200 (PatientBody None (patient_fetched w p)), w).
Proof.
  intros HF Hnd Hp Hid. unfold get_patient_handler.
  rewrite (filter_key Patient.id _ _ p); [|done|done|by intros y _; rewrite Hid].
  by rewrite single_one.
Qed.

Lemma update_patient_handler_store (F : Faults) (env : Env) (req : Request PatientUpdate)
    (w : World) :
  (update_patient_handler F env req w).2 = w
  ∨ ∃ u, user req = Some u
         ∧ (update_patient_handler F env req w).2
           = set_patients
               (update_where (λ p, bool_decide (Patient.id p = params_id req))
                  (apply_update (body req) (now env) (ReqUser.id u)) (patients w)) w.
Proof.
  unfold update_patient_handler. destruct (user req) as [u|]; [|by left].
  unfold update_patients. destruct (F (Update T_patients)); [by left|].
  right. exists u. split; [done|]. simpl.
  match goal with |- context [single_of ?r] => by destruct (single_of r) as [[?|] [?|]] end.
Qed.

(** X11.  A created patient can be read back: when no stored patient has
    the submitted first name, last name and date of birth, the create route
    answers 201 with an id that no patient carried before, and a get-by-id for
    that id is then answered 200 with the submitted fields, the creation time,
    the creating identity as createdBy and that identity's name and role as
    createdByUser.  (Patient ids are the table's primary key; the store
    answers the calls.) *)
Theorem create_then_get (F : Faults) (env : Env)
    (req : Request PatientInput) (w : World) (u : ReqUser.t) :
  user req = Some u →
  F (Select T_patients) = false → F (Insert T_patients) = false →
  NoDup (Patient.id <$> patients w) →
  (∀ p, p ∈ patients w →
        ¬ (Patient.first_name p = in_firstName (body req)
           ∧ Patient.last_name p = in_lastName (body req)
           ∧ Patient.date_of_birth p = in_dateOfBirth (body req))) →
  ∃ new_id answer w',
    create_patient_handler F env req w
    = (Json 201 (PatientBody (Some "Patient created successfully") answer), w')
    ∧ pj_id answer = new_id
    ∧ (new_id ∉ Patient.id <$> patients w)
    ∧ ∀ get : Request unit,
        params_id get = new_id →
        get_patient_handler F get w'
        = (Json 200
             (PatientBody None
                {| pj_id := new_id;
                   pj_firstName := in_firstName (body req);
                   pj_lastName := in_lastName (body req);
                   pj_dateOfBirth := in_dateOfBirth (body req);
                   pj_gender := in_gender (body req);
                   pj_phoneNumber := in_phoneNumber (body req);
                   pj_email := in_email (body req);
                   pj_address := in_address (body req);
                   pj_medicalHistory := in_medicalHistory (body req);
                   pj_createdAt := Some (now env);
                   pj_createdBy := ReqUser.id u;
                   pj_updatedAt := None;
                   pj_updatedBy := None;
                   pj_createdByUser :=
                     (λ r, {| pr_firstName := Personnel.first_name r;
                              pr_lastName := Personnel.last_name r;
                              pr_role := Personnel.role r |}) <$>
                       head (filter (λ r, Some (Personnel.id r) = ReqUser.id u)
                               (medical_personnel w)) |}), w').
Proof.
  intros Hu HFs HFi Hnd Hnew.
  rewrite (create_patient_handler_new F env req w u Hu HFi).
  2: { rewrite filter_none by done. apply single_nil. }
  eexists _, _, _. split; [reflexivity|]. split; [reflexivity|].
  split; [apply infinite_is_fresh|]. intros get Hget.
  match goal with
  | |- get_patient_handler F get (set_patients (_ ++ [?row]) w) = _ =>
      rewrite (get_patient_handler_found F get _ row)
  end.
  - reflexivity.
  - done.
  - simpl. rewrite fmap_app. by apply NoDup_snoc_fresh.
  - simpl. apply elem_of_app. right. left.
  - done.
Qed.

Lemma create_then_get_witness :
  ∃ new_id answer w',
    create_patient_handler no_faults sample_env
      (with_user (sample_request None "" sample_new_patient)
         {| ReqUser.id := Some "u-nurse"; ReqUser.email := Some "nurse@x.com";
            ReqUser.role := Some "nurse" |}) sample_world
    = (Json 201 (PatientBody (Some "Patient created successfully") answer), w')
    ∧ pj_id answer = new_id
    ∧ status_of (get_patient_handler no_faults (sample_request None new_id ()) w').1
      = Some 200.
Proof.
  destruct (create_then_get no_faults sample_env
              (with_user (sample_request None "" sample_new_patient)
                 {| ReqUser.id := Some "u-nurse"; ReqUser.email := Some "nurse@x.com";
                    ReqUser.role := Some "nurse" |}) sample_world
              {| ReqUser.id := Some "u-nurse"; ReqUser.email := Some "nurse@x.com";
                 ReqUser.role := Some "nurse" |})
    as (new_id & answer & w' & Hcreate & Hid & _ & Hget).
  - reflexivity.
  - reflexivity.
  - reflexivity.
  - evaluated.
  - apply Forall_forall. evaluated.
  - exists new_id, answer, w'. split; [exact Hcreate|]. split; [exact Hid|].
    by rewrite (Hget (sample_request None new_id ()) eq_refl).
Defined.

(** X12.  The duplicate check of the create route recognises one earlier
    record and no more: when exactly one stored patient has the submitted
    first name, last name and date of birth the answer is 409 and nothing is
    written, but when two or more have them the check finds no single row and
    the route creates one more.  (The store answers the calls.) *)
Theorem create_patient_duplicates (F : Faults) (env : Env)
    (req : Request PatientInput) (w : World) (u : ReqUser.t)
    (same : list Patient.row) :
  user req = Some u →
  F (Select T_patients) = false → F (Insert T_patients) = false →
  same = filter (λ p, Patient.first_name p = in_firstName (body req)
                      ∧ Patient.last_name p = in_lastName (body req)
                      ∧ Patient.date_of_birth p = in_dateOfBirth (body req))
           (patients w) →
  (length same = 1%nat →
   create_patient_handler F env req w
   = (Json 409 (ErrorBody "Patient already exists"
                  "A patient with these details already exists in the system"), w))
  ∧ ((2 ≤ length same)%nat →
     ∃ answer w',
       create_patient_handler F env req w
       = (Json 201 (PatientBody (Some "Patient created successfully") answer), w')
       ∧ pj_firstName answer = in_firstName (body req)
       ∧ pj_lastName answer = in_lastName (body req)
       ∧ pj_dateOfBirth answer = in_dateOfBirth (body req)
       ∧ length (patients w') = S (length (patients w))).
Proof.
  intros Hu HFs HFi Hsame. split.
  - intros Hone. destruct same as [|p [|]]; try done.
    unfold create_patient_handler. rewrite <- Hsame. by rewrite single_one.
  - intros Hmore. destruct same as [|p [|q same]]; [simpl in Hmore; lia..|].
    rewrite (create_patient_handler_new F env req w u Hu HFi).
    + eexists _, _. split; [reflexivity|]. repeat (split; [reflexivity|]).
      simpl. rewrite length_app. simpl. lia.
    + rewrite <- Hsame. unfold single, many, single_of. by rewrite HFs.
Qed.

Lemma create_patient_duplicates_witness :
  ∃ answer w',
    create_patient_handler no_faults sample_env
      (with_user
         (sample_request None ""
            {| in_firstName := "Kofi"; in_lastName := "Mensah";
               in_dateOfBirth := "1980-02-03"; in_gender := "male";
               in_phoneNumber := None; in_email := None; in_address := None;
               in_medicalHistory := None |})
         {| ReqUser.id := Some "u-nurse"; ReqUser.email := Some "nurse@x.com";
            ReqUser.role := Some "nurse" |}) sample_world
    = (Json 201 (PatientBody (Some "Patient created successfully") answer), w')
    ∧ length (patients w') = 3%nat.
Proof.
  destruct (create_patient_duplicates no_faults sample_env
              (with_user
                 (sample_request None ""
                    {| in_firstName := "Kofi"; in_lastName := "Mensah";
                       in_dateOfBirth := "1980-02-03"; in_gender := "male";
                       in_phoneNumber := None; in_email := None; in_address := None;
                       in_medicalHistory := None |})
                 {| ReqUser.id := Some "u-nurse"; ReqUser.email := Some "nurse@x.com";
                    ReqUser.role := Some "nurse" |}) sample_world
              {| ReqUser.id := Some "u-nurse"; ReqUser.email := Some "nurse@x.com";
                 ReqUser.role := Some "nurse" |}
              [sample_patient "p-1" 2000; sample_patient "p-2" 3000])
    as [_ Hmore].
  - reflexivity.
  - reflexivity.
  - reflexivity.
  - reflexivity.
  - destruct Hmore as (answer & w' & Hcreate & _ & _ & _ & Hlen); [simpl; lia|].
    by exists answer, w'.
Defined.

(** X13.  An update of a patient rewrites the row with the id of the
    request and no other, and of that row it never changes the id, the
    creation stamp (created_by, created_at) or the deletion state (is_deleted,
    deleted_at, deleted_by); the other tables are left as found.  This holds
    for every request and every failure of the store. *)
Theorem update_patient_keeps (F : Faults) (env : Env) (req : Request PatientUpdate)
    (w : World) :
  let w' := (update_patient_handler F env req w).2 in
  length (patients w') = length (patients w)
  ∧ (∀ i p, patients w !! i = Some p →
       ∃ p', patients w' !! i = Some p'
             ∧ Patient.id p' = Patient.id p
             ∧ Patient.created_by p' = Patient.created_by p
             ∧ Patient.created_at p' = Patient.created_at p
             ∧ Patient.is_deleted p' = Patient.is_deleted p
             ∧ Patient.deleted_at p' = Patient.deleted_at p
             ∧ Patient.deleted_by p' = Patient.deleted_by p
             ∧ (Patient.id p ≠ params_id req → p' = p))
  ∧ medical_personnel w' = medical_personnel w
  ∧ symptoms w' = symptoms w ∧ symptom_sessions w' = symptom_sessions w
  ∧ xray_images w' = xray_images w ∧ bucket w' = bucket w.
Proof.
  intros w'. unfold w'.
  destruct (update_patient_handler_store F env req w) as [->|(u & Hu & ->)].
  - split; [done|]. split; [|done]. intros i p Hp. exists p. by repeat split.
  - split; [apply update_where_length|]. split; [|done]. intros i p Hp.
    unfold update_where. simpl. rewrite list_lookup_fmap, Hp. simpl.
    destruct (bool_decide (Patient.id p = params_id req)) eqn:Hid.
    + eexists. split; [reflexivity|]. repeat (split; [reflexivity|]).
      intros Hne. by apply bool_decide_eq_true_1 in Hid.
    + exists p. by repeat split.
Qed.

(** X14.  For an id that no patient has, the update route answers 404 and
    the soft delete answers 200 "Patient deleted successfully"; neither changes
    the store.  (For the delete, the store answers the update call.) *)
Theorem unknown_patient_id (F F' : Faults) (env : Env) (change : Request PatientUpdate)
    (remove : Request unit) (w : World) (u u' : ReqUser.t) (id : string) :
  (∀ p, p ∈ patients w → Patient.id p ≠ id) →
  params_id change = id → user change = Some u →
  params_id remove = id → user remove = Some u' →
  F' (Update T_patients) = false →
  update_patient_handler F env change w
  = (Json 404 (ErrorBody "Patient not found"
                 "Patient record not found or update failed"), w)
  ∧ delete_patient_handler F' env remove w
    = (Json 200 (NoteBody "Patient deleted successfully"
                   "Patient record has been soft deleted"), w).
Proof.
  intros Hno Hc Hu Hr Hu' HF.
  assert (Hmiss : ∀ p, p ∈ patients w → bool_decide (Patient.id p = id) = false).
  { intros p Hp. apply bool_decide_eq_false_2. by apply Hno. }
  split.
  - unfold update_patient_handler, update_patients. rewrite Hu, Hc.
    destruct (F (Update T_patients)); [done|].
    rewrite update_where_none, filter_bool_none, set_patients_same by done.
    reflexivity.
  - unfold delete_patient_handler, update_patients. rewrite Hu', Hr, HF.
    rewrite update_where_none, set_patients_same by done. reflexivity.
Qed.

Lemma unknown_patient_id_witness :
  update_patient_handler metadata_insert_fails sample_env
    (with_user
       (sample_request None "p-9"
          {| up_firstName := Some "Kwame"; up_lastName := None; up_dateOfBirth := None;
             up_gender := None; up_phoneNumber := None; up_email := None;
             up_address := None; up_medicalHistory := None |})
       (identity_of (sample_person "u-admin" "admin@x.com" "admin" true))) sample_world
  = (Json 404 (ErrorBody "Patient not found"
                 "Patient record not found or update failed"), sample_world)
  ∧ delete_patient_handler no_faults sample_env
      (with_user (sample_request None "p-9" ())
         (identity_of (sample_person "u-admin" "admin@x.com" "admin" true))) sample_world
    = (Json 200 (NoteBody "Patient deleted successfully"
                   "Patient record has been soft deleted"), sample_world).
Proof.
  apply (unknown_patient_id metadata_insert_fails no_faults sample_env
           (with_user
              (sample_request None "p-9"
                 {| up_firstName := Some "Kwame"; up_lastName := None;
                    up_dateOfBirth := None; up_gender := None; up_phoneNumber := None;
                    up_email := None; up_address := None; up_medicalHistory := None |})
              (identity_of (sample_person "u-admin" "admin@x.com" "admin" true)))
           (with_user (sample_request None "p-9" ())
              (identity_of (sample_person "u-admin" "admin@x.com" "admin" true)))
           sample_world
           (identity_of (sample_person "u-admin" "admin@x.com" "admin" true))
           (identity_of (sample_person "u-admin" "admin@x.com" "admin" true)) "p-9");
    [|reflexivity..].
  apply Forall_forall. evaluated.
Defined.

(** ** Patients: the pages of the list and the statistics *)

(** Consecutive slices of one length, enough of them, give the list back. *)
Lemma slices_concat {A} (size : nat) (rows : list A) (k : nat) :
  (length rows ≤ k * size)%nat →
  concat ((λ i, take size (drop (i * size) rows)) <$> seq 0 k) = rows.
Proof.
  revert rows. induction k as [|k IH]; intros rows Hlen.
  - simpl in *. destruct rows; [done|simpl in Hlen; lia].
  - rewrite <- cons_seq, <- fmap_S_seq, fmap_cons, <- list_fmap_compose.
    rewrite (list_fmap_ext _ (λ i, take size (drop (i * size) (drop size rows)))).
    2: { intros i x _. simpl. by rewrite drop_drop. }
    simpl. rewrite IH by (rewrite length_drop; lia). apply take_drop.
Qed.

Lemma concat_fmap_fmap {A B} (g : A → B) (ls : list (list A)) :
  concat (fmap (M:=list) g <$> ls) = g <$> concat ls.
Proof.
  induction ls as [|a ls IH]; [done|].
  by rewrite fmap_cons, !concat_cons, fmap_app, IH.
Qed.

Lemma range_slice {A} (rows : list A) (l : Z) (i : nat) :
  1 ≤ l →
  range ((Z.of_nat (S i) - 1) * l) ((Z.of_nat (S i) - 1) * l + l - 1) rows
  = take (Z.to_nat l) (drop (i * Z.to_nat l) rows).
Proof. intros Hl. unfold range. f_equal; [f_equal; lia|f_equal; nia]. Qed.

Lemma count_by_gender_fold (rows : list Patient.row) (acc : gmap string Z) (g : string) :
  foldl (λ acc p, <[Patient.gender p := default 0 (acc !! Patient.gender p) + 1]> acc)
    acc rows !! g
  = let n := length (filter (λ p, Patient.gender p = g) rows) in
    if decide (n = 0%nat) then acc !! g else Some (default 0 (acc !! g) + Z.of_nat n).
Proof.
  revert acc. induction rows as [|p rows IH]; intros acc; [done|].
  simpl foldl. rewrite IH. destruct (decide (Patient.gender p = g)) as [Hg|Hg].
  - rewrite filter_cons_True by done. rewrite Hg, lookup_insert_eq. simpl.
    case_decide as Hn; [rewrite Hn; simpl|]; f_equal; lia.
  - rewrite filter_cons_False by done. by rewrite lookup_insert_ne.
Qed.

(** X15.  The pages of the patient list partition the collection: for a
    limit l >= 1, the rows of pages 1, 2, ..., totalPages, one after the other,
    are exactly the matching patients newest first, none missing and none
    twice.  (The store answers the queries and does not change in between.) *)
Theorem list_patients_pages `{Platform} (F : Faults) (reqs : Z → Request unit) (w : World)
    (l : Z) (s : option string) :
  F (Select T_patients) = false → 1 ≤ l →
  let ordered := listed_patients (or_string s "") w in
  let pages := ceil_div (Z.of_nat (length ordered)) l in
  (∀ n, n ∈ page_numbers pages →
        page (query (reqs n)) ≫= parseInt = Some n
        ∧ limit (query (reqs n)) ≫= parseInt = Some l
        ∧ search (query (reqs n)) = s) →
  concat ((λ n, rows_of (list_patients_handler F (reqs n) w).1) <$> page_numbers pages)
  = patient_created <$> ordered.
Proof.
  intros HF Hl ordered pages Hreqs.
  pose proof (ceil_div_bounds (Z.of_nat (length ordered)) l ltac:(lia)) as Hpages.
  fold pages in Hpages.
  transitivity
    (concat ((λ n, patient_created <$>
                     range ((n - 1) * l) ((n - 1) * l + l - 1) ordered)
               <$> page_numbers pages)).
  - f_equal. apply list_fmap_ext. intros i n Hn%list_elem_of_lookup_2.
    destruct (Hreqs n Hn) as (Hp & Hlim & Hs).
    assert (1 ≤ n).
    { unfold page_numbers in Hn. apply list_elem_of_fmap in Hn as (j & -> & Hj).
      apply elem_of_seq in Hj. lia. }
    rewrite (list_patients_handler_answer F (reqs n) w n l) by (done || lia).
    simpl. by rewrite Hs.
  - unfold page_numbers. rewrite <- fmap_S_seq, <- !list_fmap_compose.
    rewrite (list_fmap_ext _
               (fmap patient_created ∘
                  (λ i, take (Z.to_nat l) (drop (i * Z.to_nat l) ordered)))).
    2: { intros i j _. simpl. by rewrite range_slice. }
    rewrite list_fmap_compose, concat_fmap_fmap.
    by rewrite slices_concat by nia.
Qed.

Lemma list_patients_pages_witness :
  concat ((λ n, rows_of (@list_patients_handler sample_platform no_faults
                           (sample_page "10" n) sample_ward).1) <$> [1; 2; 3])
  = patient_created <$> @listed_patients sample_platform "" sample_ward.
Proof.
  apply (@list_patients_pages sample_platform no_faults (sample_page "10") sample_ward
           10 None); [reflexivity|lia|].
  apply Forall_forall. evaluated.
Defined.

(** X16.  The statistics route always answers 200.  When the store
    answers, totalPatients is the number of patients not soft-deleted, the
    gender distribution gives for each gender the number of those patients
    with that gender (and has no entry for a gender none of them has), and
    recentPatients, those created within the last thirty days, is at most
    totalPatients; when the store fails the answer is zeros and an empty
    distribution, not an error. *)
Theorem patient_stats_counts (F : Faults) (env : Env) (req : Request unit) (w : World) :
  let live := List.filter (λ p, negb (Patient.is_deleted p)) (patients w) in
  ∃ s,
    patient_stats_handler F env req w = (Json 200 (StatsBody s), w)
    ∧ lastUpdated s = now env
    ∧ (F (Select T_patients) = false →
       totalPatients s = Z.of_nat (length live)
       ∧ (∀ g, genderDistribution s !! g
               = let n := length (filter (λ p, Patient.gender p = g) live) in
                 if decide (n = 0%nat) then None else Some (Z.of_nat n))
       ∧ recentPatients s
         = Z.of_nat (length (List.filter
                               (λ p, thirtyDaysAgo env <=? Patient.created_at p) live))
       ∧ 0 ≤ recentPatients s ≤ totalPatients s)
    ∧ (F (Select T_patients) = true →
       totalPatients s = 0 ∧ genderDistribution s = ∅ ∧ recentPatients s = 0).
Proof.
  intros live. eexists. split; [reflexivity|]. split; [reflexivity|].
  fold live. unfold many. split; intros HF; rewrite HF; simpl.
  - assert (Hsame : ∀ n : nat, (if Z.of_nat n =? 0 then 0 else Z.of_nat n) = Z.of_nat n).
    { intros n. destruct (Z.of_nat n =? 0) eqn:Hn; [|done]. by apply Z.eqb_eq in Hn. }
    rewrite !Hsame. split; [done|]. split.
    + intros g. unfold count_by_gender. rewrite count_by_gender_fold.
      rewrite lookup_empty. simpl. by case_decide.
    + split; [done|]. split; [lia|]. apply inj_le, List.filter_length_le.
  - done.
Qed.

(** ** Symptoms *)

Lemma assign_ids_lookup (values : list (string → Symptom.row)) (taken : list string)
    (i : nat) (v : string → Symptom.row) :
  values !! i = Some v → ∃ new_id, assign_ids taken values !! i = Some (v new_id).
Proof.
  revert taken i. induction values as [|v' values IH]; intros taken [|i] Hv; try done.
  - injection Hv as ->. by eexists.
  - simpl. by apply IH.
Qed.

(** X17.  Recording symptoms for a live patient stores one row per
    submitted symptom, in the order submitted, each under an id of its own
    that no symptom carried before, with the submitted name, severity and
    duration, the notes or null, the patient, the recording identity and the
    time; the answer is 201 with those rows.  The session record is written
    after them and is not needed for that: when its insert fails the answer is
    still 201, with session null, and the symptom rows stay.  (The store
    answers the patient check and the symptom insert.) *)
Theorem record_symptoms_stores (F : Faults) (env : Env) (req : Request SymptomsInput)
    (w : World) (u : ReqUser.t) (patient : Patient.row) :
  find_patient F (sb_patientId (body req)) w = ok patient →
  user req = Some u →
  F (Insert T_symptoms) = false →
  ∃ rows session w',
    record_symptoms_handler F env req w
    = (Json 201
         (SymptomsBody "Symptoms recorded successfully" (patient_ref patient)
            (symptom_json <$> rows) session), w')
    ∧ symptoms w' = symptoms w ++ rows
    ∧ length rows = length (sb_symptoms (body req))
    ∧ (∀ i s, sb_symptoms (body req) !! i = Some s →
         ∃ r, rows !! i = Some r
              ∧ Symptom.name r = sy_name s
              ∧ Symptom.severity r = sy_severity s
              ∧ Symptom.duration r = sy_duration s
              ∧ Symptom.notes r = or_null (sy_notes s)
              ∧ Symptom.patient_id r = sb_patientId (body req)
              ∧ Symptom.recorded_by r = ReqUser.id u
              ∧ Symptom.recorded_at r = now env)
    ∧ NoDup (Symptom.id <$> rows)
    ∧ (∀ i, i ∈ (Symptom.id <$> rows) → i ∉ Symptom.id <$> symptoms w)
    ∧ patients w' = patients w ∧ xray_images w' = xray_images w
    ∧ (if F (Insert T_symptom_sessions)
       then session = None ∧ symptom_sessions w' = symptom_sessions w
       else ∃ s, session = Some {| ss_id := Session.id s;
                                   ss_notes := sb_notes (body req);
                                   ss_recordedAt := now env |}
                 ∧ symptom_sessions w' = symptom_sessions w ++ [s]
                 ∧ Session.recorded_by s = ReqUser.id u
                 ∧ Session.patient_id s = sb_patientId (body req)).
Proof.
  intros Hfound Hu HFi. unfold record_symptoms_handler.
  rewrite Hfound, Hu. simpl. unfold insert_symptoms. rewrite HFi. simpl.
  match goal with
  | |- context [assign_ids ?taken ?values] =>
      set (rows := assign_ids taken values);
      pose proof (assign_ids_length values taken) as Hlen;
      destruct (assign_ids_fresh values taken ltac:(by intros v i (s & -> & _)%list_elem_of_fmap))
        as [Hnd Hnew];
      pose proof (assign_ids_lookup values taken) as Hlookup
  end.
  fold rows in Hlen, Hnd, Hnew, Hlookup. rewrite length_fmap in Hlen.
  unfold insert_session. destruct (F (Insert T_symptom_sessions)); simpl.
  - exists rows, None. eexists. split; [reflexivity|]. simpl.
    split; [done|]. split; [done|]. split; [|done].
    intros i s Hs. destruct (Hlookup i _ ltac:(by rewrite list_lookup_fmap, Hs)) as [id Hr].
    eexists. split; [exact Hr|]. done.
  - eexists rows, _, _. split; [reflexivity|]. simpl.
    split; [done|]. split; [done|]. split.
    + intros i s Hs.
      destruct (Hlookup i _ ltac:(by rewrite list_lookup_fmap, Hs)) as [id Hr].
      eexists. split; [exact Hr|]. done.
    + do 4 (split; [done|]). eexists. split; [|split; [reflexivity|done]]. reflexivity.
Qed.

Lemma record_symptoms_stores_witness :
  ∃ rows w',
    record_symptoms_handler session_insert_fails sample_env sample_symptoms sample_world
    = (Json 201
         (SymptomsBody "Symptoms recorded successfully"
            (patient_ref (sample_patient "p-1" 2000)) (symptom_json <$> rows) None), w')
    ∧ symptoms w' = rows ∧ length rows = 2%nat ∧ symptom_sessions w' = [].
Proof.
  destruct (record_symptoms_stores session_insert_fails sample_env sample_symptoms
              sample_world
              {| ReqUser.id := Some "u-nurse"; ReqUser.email := Some "nurse@x.com";
                 ReqUser.role := Some "nurse" |} (sample_patient "p-1" 2000))
    as (rows & session & w' & Hres & Hrows & Hlen & _ & _ & _ & _ & _ & Hsession).
  - reflexivity.
  - reflexivity.
  - reflexivity.
  - destruct Hsession as [-> Hnone]. by exists rows, w'.
Defined.

(** X18.  Deleting a symptom removes the row with the id of the request
    and nothing else, and answers 200; for an id that no symptom has the
    answer is 404 and the store is unchanged.  (Symptom ids are the table's
    primary key; the store answers the calls.) *)
Theorem delete_symptom_removes (F : Faults) (req : Request unit) (w : World) :
  F (Select T_symptoms) = false → F (Delete T_symptoms) = false →
  NoDup (Symptom.id <$> symptoms w) →
  (∀ s, s ∈ symptoms w → Symptom.id s = params_id req →
     ∃ w',
       delete_symptom_handler F req w
       = (Json 200 (MessageBody "Symptom deleted successfully"), w')
       ∧ (∀ x, x ∈ symptoms w' ↔ x ∈ symptoms w ∧ x ≠ s)
       ∧ symptom_sessions w' = symptom_sessions w ∧ patients w' = patients w
       ∧ medical_personnel w' = medical_personnel w
       ∧ xray_images w' = xray_images w ∧ bucket w' = bucket w)
  ∧ ((∀ s, s ∈ symptoms w → Symptom.id s ≠ params_id req) →
     delete_symptom_handler F req w
     = (Json 404 (ErrorBody "Symptom not found" "Symptom record not found"), w)).
Proof.
  intros HFs HFd Hnd. split.
  - intros s Hs Hid. unfold delete_symptom_handler.
    rewrite (filter_key Symptom.id _ _ s); [|done|done|by intros y _; rewrite Hid].
    rewrite single_one by done. simpl. unfold delete_symptoms. rewrite HFd. simpl.
    eexists. split; [reflexivity|]. split; [|done]. intros x. simpl.
    rewrite list_elem_of_In, List.filter_In, <- list_elem_of_In.
    rewrite negb_true_iff, bool_decide_eq_false. split; intros [Hx Hne]; (split; [done|]).
    + intros ->. by apply Hne.
    + intros Hxid. apply Hne.
      apply list_elem_of_lookup in Hx as [i Hi]. apply list_elem_of_lookup in Hs as [j Hj].
      assert (i = j) as ->; [|congruence].
      eapply NoDup_lookup; [exact Hnd| |]; rewrite list_lookup_fmap.
      * by rewrite Hi.
      * rewrite Hj. simpl. by rewrite Hxid, Hid.
  - intros Hno. unfold delete_symptom_handler. rewrite filter_none by done.
    unfold single, many, single_of. by rewrite HFs.
Qed.

Lemma delete_symptom_removes_witness :
  ∃ w',
    delete_symptom_handler no_faults (sample_request None "0" ()) sample_recorded
    = (Json 200 (MessageBody "Symptom deleted successfully"), w')
    ∧ Symptom.id <$> symptoms w' = ["1"].
Proof.
  destruct (delete_symptom_removes no_faults (sample_request None "0" ()) sample_recorded)
    as [Hfound _]; [reflexivity|reflexivity|evaluated|].
  assert (∃ s, symptoms sample_recorded !! 0%nat = Some s ∧ Symptom.id s = "0")
    as (s & Hs & Hid) by (eexists; split; reflexivity).
  destruct (Hfound s) as (w' & Hres & _);
    [by eapply list_elem_of_lookup_2|exact Hid|].
  exists w'. split; [exact Hres|].
  vm_compute in Hres. by injection Hres as <-.
Defined.

(** ** X-ray images: rows and blobs *)

Lemma filter_bool_all {A} (keep : A → bool) (rows : list A) :
  (∀ x, x ∈ rows → keep x = true) → List.filter keep rows = rows.
Proof.
  induction rows as [|a rows IH]; intros Hall; [done|]. simpl.
  rewrite Hall by left. f_equal. apply IH. intros x Hx. apply Hall. by right.
Qed.

Section Images.
Context `{Platform}.

(** The upload handler on a request multer accepted, for a live patient,
    with the collaborator answering: the row, its id and the store. *)
Lemma upload_xray_handler_new (F : Faults) (env : Env) (req : Request UploadInput)
    (w : World) (u : ReqUser.t) (f : File.t) (patientId : string) (patient : Patient.row) :
  user req = Some u → file req = Some f →
  ub_patientId (body req) = Some patientId → patientId ≠ "" →
  find_patient F patientId w = ok patient →
  F StorageUpload = false → F (Insert T_xray_images) = false →
  bucket w !! xray_filePath patientId env f = None →
  ∃ row object,
    upload_xray_handler F env req w
    = (Json 201 (ImageBody "X-ray image uploaded successfully" (image_uploaded row)
                   (Some (patient_ref patient))),
       set_xray_images (xray_images w ++ [row])
         (set_bucket (<[xray_filePath patientId env f := object]> (bucket w)) w))
    ∧ Xray.id row = uuid_generate_v4 (Xray.id <$> xray_images w)
    ∧ Xray.file_path row = xray_filePath patientId env f.
Proof.
  intros Hu Hf Hpid Hne Hfound HFu HFi Hfree.
  eexists _, _. split.
  { unfold upload_xray_handler. rewrite Hf, Hpid. simpl.
    destruct patientId; [done|]. simpl. rewrite Hfound. simpl. rewrite Hu.
    unfold storage_upload. rewrite HFu, Hfree. simpl.
    unfold insert_xray. rewrite HFi. simpl. reflexivity. }
  by split.
Qed.

Lemma delete_xray_handler_found (F : Faults) (req : Request unit) (w : World)
    (image : Xray.row) :
  F (Select T_xray_images) = false → NoDup (Xray.id <$> xray_images w) →
  image ∈ xray_images w → params_id req = Xray.id image →
  delete_xray_handler F req w
  = (let '(_, w1) := storage_remove F [Xray.file_path image] w in
     let '(r, w2) := delete_xray F (λ i, bool_decide (Xray.id i = Xray.id image)) w1 in
     match error r with
     | Some _ => (Json 500 (ErrorBody "Image deletion failed"
                              "Failed to delete image record from database"), w2)
     | None => (Json 200 (MessageBody "X-ray image deleted successfully"), w2)
     end).
Proof.
  intros HF Hnd Himage Hid. unfold delete_xray_handler.
  rewrite (filter_key Xray.id _ _ image); [|done|done|by intros y _; rewrite Hid].
  rewrite single_one by done. simpl. by rewrite Hid.
Qed.

Lemma delete_other_ids (rows : list Xray.row) (image : Xray.row) :
  NoDup (Xray.id <$> rows ++ [image]) →
  List.filter (λ i, negb (bool_decide (Xray.id i = Xray.id image))) (rows ++ [image])
  = rows.
Proof.
  intros Hnd. rewrite List.filter_app. simpl.
  rewrite bool_decide_eq_true_2 by done. simpl. rewrite app_nil_r.
  apply filter_bool_all. intros x Hx. apply negb_true_iff, bool_decide_eq_false_2.
  intros Hid. rewrite fmap_app in Hnd. apply NoDup_app in Hnd as (_ & Hfresh & _).
  apply (Hfresh (Xray.id x)); [by apply list_elem_of_fmap_2|].
  rewrite Hid. left.
Qed.

End Images.

(** X19.  An upload is undone by deleting the image it created: after an
    accepted upload for a live patient, a delete for the id the upload
    returned is answered 200 and leaves the store, rows and bucket, as it was
    before the upload.  (Image ids are the table's primary key, the storage
    key of the upload is free, and the collaborator answers every call.) *)
Theorem upload_then_delete `{Platform} (F : Faults) (env : Env)
    (req : Request UploadInput) (w : World) (u : ReqUser.t) (f : File.t)
    (patientId : string) (patient : Patient.row) :
  user req = Some u → file req = Some f →
  ub_patientId (body req) = Some patientId → patientId ≠ "" →
  find_patient F patientId w = ok patient →
  F StorageUpload = false → F (Insert T_xray_images) = false →
  bucket w !! xray_filePath patientId env f = None →
  NoDup (Xray.id <$> xray_images w) →
  F (Select T_xray_images) = false → F StorageRemove = false →
  F (Delete T_xray_images) = false →
  ∃ image w',
    upload_xray_handler F env req w
    = (Json 201 (ImageBody "X-ray image uploaded successfully" image
                   (Some (patient_ref patient))), w')
    ∧ w' ≠ w
    ∧ ∀ del : Request unit,
        params_id del = ij_id image →
        delete_xray_handler F del w'
        = (Json 200 (MessageBody "X-ray image deleted successfully"), w).
Proof.
  intros Hu Hf Hpid Hne Hfound HFu HFi Hfree Hnd HFs HFr HFd.
  destruct (upload_xray_handler_new F env req w u f patientId patient)
    as (row & object & -> & Hid & Hpath); try done.
  eexists _, _. split; [reflexivity|]. split.
  { intros Heq. apply (f_equal bucket) in Heq. simpl in Heq.
    apply (f_equal (λ m, m !! xray_filePath patientId env f)) in Heq.
    by rewrite lookup_insert_eq, Hfree in Heq. }
  intros del Hdel.
  assert (Hnd' : NoDup (Xray.id <$> xray_images w ++ [row])).
  { rewrite fmap_app. simpl. rewrite Hid. by apply NoDup_snoc_fresh. }
  rewrite (delete_xray_handler_found F del _ row); [|done|done| |done].
  2: { simpl. apply elem_of_app. right. left. }
  unfold storage_remove, delete_xray. rewrite HFr, HFd. simpl.
  rewrite delete_other_ids by done. rewrite Hpath, delete_insert_id by done.
  by destruct w.
Qed.

Lemma upload_then_delete_witness :
  ∃ image w',
    @upload_xray_handler sample_platform no_faults sample_env sample_image sample_world
    = (Json 201 (ImageBody "X-ray image uploaded successfully" image
                   (Some (patient_ref (sample_patient "p-1" 2000)))), w')
    ∧ w' ≠ sample_world
    ∧ ∀ del : Request unit,
        params_id del = ij_id image →
        delete_xray_handler no_faults del w'
        = (Json 200 (MessageBody "X-ray image deleted successfully"), sample_world).
Proof.
  apply (@upload_then_delete sample_platform no_faults sample_env sample_image
           sample_world
           {| ReqUser.id := Some "u-nurse"; ReqUser.email := Some "nurse@x.com";
              ReqUser.role := Some "nurse" |}
           (sample_file "chest.png" "image/png" 2048) "p-1" (sample_patient "p-1" 2000));
    [reflexivity|reflexivity|reflexivity|discriminate|reflexivity|reflexivity|reflexivity
    |reflexivity|constructor|reflexivity|reflexivity|reflexivity].
Defined.

(** X20.  Deleting an image is two writes and the route does not keep them
    together.  When the storage refuses the removal the row is deleted all the
    same and the answer is 200, so the blob stays in the bucket with no row
    for it; when the removal goes through and the row delete fails the answer
    is 500 and the row stays, pointing at a key the bucket no longer has.
    (Image ids are the table's primary key; the lookup is answered.) *)
Theorem delete_xray_partial (F : Faults) (req : Request unit) (w : World)
    (image : Xray.row) :
  F (Select T_xray_images) = false → NoDup (Xray.id <$> xray_images w) →
  image ∈ xray_images w → params_id req = Xray.id image →
  (F StorageRemove = true → F (Delete T_xray_images) = false →
   ∃ w',
     delete_xray_handler F req w
     = (Json 200 (MessageBody "X-ray image deleted successfully"), w')
     ∧ (image ∉ xray_images w') ∧ bucket w' = bucket w)
  ∧ (F StorageRemove = false → F (Delete T_xray_images) = true →
     ∃ w',
       delete_xray_handler F req w
       = (Json 500 (ErrorBody "Image deletion failed"
                      "Failed to delete image record from database"), w')
       ∧ image ∈ xray_images w' ∧ bucket w' !! Xray.file_path image = None).
Proof.
  intros HF Hnd Himage Hid.
  rewrite (delete_xray_handler_found F req w image) by done.
  unfold storage_remove, delete_xray. split; intros HFr HFd; rewrite HFr, HFd; simpl.
  - eexists. split; [reflexivity|]. split; [|done]. simpl.
    rewrite list_elem_of_In, List.filter_In. intros [_ Hkeep].
    by rewrite bool_decide_eq_true_2 in Hkeep.
  - eexists. split; [reflexivity|]. split; [done|]. simpl. apply lookup_delete_eq.
Qed.

Lemma delete_xray_partial_witness :
  ∃ w',
    delete_xray_handler storage_remove_fails (sample_request None "0" ()) sample_uploaded
    = (Json 200 (MessageBody "X-ray image deleted successfully"), w')
    ∧ xray_images w' = []
    ∧ is_Some (bucket w' !! "p-1/xray_p-1_0000-1111.png").
Proof.
  assert (∃ image, xray_images sample_uploaded !! 0%nat = Some image
                   ∧ Xray.id image = "0") as (image & Himage & Hid)
    by (eexists; split; reflexivity).
  destruct (delete_xray_partial storage_remove_fails (sample_request None "0" ())
              sample_uploaded image) as [Horphan _];
    [reflexivity|evaluated|by eapply list_elem_of_lookup_2|by rewrite Hid|].
  destruct Horphan as (w' & Hres & _ & Hbucket); [reflexivity|reflexivity|].
  exists w'. split; [exact Hres|]. rewrite Hbucket.
  vm_compute in Hres. injection Hres as <-. split; [reflexivity|]. evaluated.
Defined.

Lemma backed_more (w : World) (path : string) (object : Blob.t) :
  backed w → backed (set_bucket (<[path := object]> (bucket w)) w).
Proof.
  intros Hb i Hi. simpl. destruct (decide (Xray.file_path i = path)) as [->|Hne].
  - rewrite lookup_insert_eq. eauto.
  - rewrite lookup_insert_ne by done. by apply Hb.
Qed.

(** X21.  Every metadata row points at a blob of the bucket, and neither
    the upload route nor the metadata update breaks that: if it holds before
    the request it holds after it, whatever the request carries and whichever
    calls fail, the failed insert with its clean-up included. *)
Theorem upload_keeps_backed `{Platform} (F : Faults) (env : Env)
    (req : Request UploadInput) (change : Request XrayUpdate) (w : World) :
  backed w →
  backed (upload_xray_handler F env req w).2
  ∧ backed (update_xray_handler F env change w).2.
Proof.
  intros Hb. split.
  - unfold upload_xray_handler. destruct (file req) as [f|]; [|done].
    destruct (negb (truthy (ub_patientId (body req)))); [done|].
    destruct (find_patient F _ w) as [[patient|] [e|]]; simpl; try done.
    destruct (user req) as [u|]; [|done].
    unfold storage_upload. destruct (F StorageUpload); [done|].
    match goal with
    | |- context [bucket w !! ?path] => destruct (bucket w !! path) eqn:Hfree; [done|]
    end.
    simpl. unfold insert_xray. destruct (F (Insert T_xray_images)); simpl.
    + unfold storage_remove. destruct (F StorageRemove); simpl.
      * by apply backed_more.
      * intros i Hi. simpl. rewrite delete_insert_id by done. by apply Hb.
    + intros i [Hi|Hi]%elem_of_app.
      * by apply backed_more.
      * apply list_elem_of_singleton in Hi as ->. simpl. rewrite lookup_insert_eq. eauto.
  - unfold update_xray_handler.
    match goal with
    | |- context [single F ?c ?rows] => destruct (single F c rows) as [[existing|] [e|]]
    end; simpl; try done.
    destruct (user change) as [u|]; [|done].
    unfold update_xray. destruct (F (Update T_xray_images)); [done|].
    assert (backed
              (set_xray_images
                 (update_where (λ i, bool_decide (Xray.id i = params_id change))
                    (apply_xray_update (body change) (now env) (ReqUser.id u))
                    (xray_images w)) w)) as Hb'.
    { intros i (j & -> & Hj)%list_elem_of_fmap. simpl.
      destruct (bool_decide _); simpl; by apply Hb. }
    simpl. by destruct (single_of _) as [[?|] [?|]].
Qed.

Lemma upload_keeps_backed_witness :
  backed (@upload_xray_handler sample_platform metadata_insert_fails
            {| now := 6000; thirtyDaysAgo := 2500; salt := "salt"; uuidv4 := "2222-3333" |}
            sample_image sample_uploaded).2
  ∧ backed (update_xray_handler metadata_insert_fails sample_env
              (sample_request None "0"
                 {| xu_notes := Some "PA view"; xu_imageType := None;
                    xu_bodyPart := None |}) sample_uploaded).2.
Proof.
  apply (@upload_keeps_backed sample_platform metadata_insert_fails
           {| now := 6000; thirtyDaysAgo := 2500; salt := "salt"; uuidv4 := "2222-3333" |}
           sample_image
           (sample_request None "0"
              {| xu_notes := Some "PA view"; xu_imageType := None; xu_bodyPart := None |})
           sample_uploaded).
  unfold backed. apply Forall_forall. evaluated.
Defined.

(** X22.  An upload only adds: the metadata rows there were stay as they
    are, in place, with at most one new row after them, and every blob the
    bucket held is still there with its content, so no upload overwrites or
    removes an earlier image; the other tables are not touched.  This holds
    for every request and every failure of the collaborator. *)
Theorem upload_only_adds `{Platform} (F : Faults) (env : Env)
    (req : Request UploadInput) (w : World) :
  let w' := (upload_xray_handler F env req w).2 in
  (∃ added, xray_images w' = xray_images w ++ added ∧ (length added ≤ 1)%nat)
  ∧ (∀ key object, bucket w !! key = Some object → bucket w' !! key = Some object)
  ∧ medical_personnel w' = medical_personnel w ∧ patients w' = patients w
  ∧ symptoms w' = symptoms w ∧ symptom_sessions w' = symptom_sessions w.
Proof.
  assert (Hsame : (∃ added, xray_images w = xray_images w ++ added
                            ∧ (length added ≤ 1)%nat)
                  ∧ (∀ key object, bucket w !! key = Some object →
                                   bucket w !! key = Some object)
                  ∧ medical_personnel w = medical_personnel w ∧ patients w = patients w
                  ∧ symptoms w = symptoms w ∧ symptom_sessions w = symptom_sessions w).
  { split; [|done]. exists []. split; [by rewrite app_nil_r|simpl; lia]. }
  intros w'. unfold w', upload_xray_handler. destruct (file req) as [f|]; [|done].
  destruct (negb (truthy (ub_patientId (body req)))); [done|].
  destruct (find_patient F _ w) as [[patient|] [e|]]; simpl; try done.
  destruct (user req) as [u|]; [|done].
  unfold storage_upload. destruct (F StorageUpload); [done|].
  match goal with
  | |- context [bucket w !! ?path] => destruct (bucket w !! path) eqn:Hfree; [done|]
  end.
  assert (Hkept : ∀ (object : Blob.t) key old,
            bucket w !! key = Some old →
            <[xray_filePath (default "" (ub_patientId (body req))) env f := object]>
              (bucket w) !! key = Some old).
  { intros object key old Hkey. rewrite lookup_insert_ne; [done|]. intros <-. congruence. }
  simpl. unfold insert_xray. destruct (F (Insert T_xray_images)); simpl.
  - unfold storage_remove. destruct (F StorageRemove); simpl.
    + split; [|by split; [apply Hkept|]].
      exists []. split; [by rewrite app_nil_r|simpl; lia].
    + split; [|split; [|done]].
      * exists []. split; [by rewrite app_nil_r|simpl; lia].
      * intros key object Hkey. by rewrite delete_insert_id.
  - split; [|by split; [apply Hkept|]]. eexists. split; [reflexivity|simpl; lia].
Qed.

(** X23.  Neither metadata update touches what identifies a record.  The
    symptom update leaves every row's id, patient, recording identity and
    recording time as they were, and rows with another id untouched; the image
    update leaves every row's id, patient, file name, storage key, size, MIME
    type, public URL and upload stamp as they were, rows with another id
    untouched, and the bucket as found.  This holds for every request and
    every failure of the store. *)
Theorem updates_keep_identity (F : Faults) (env : Env) (change : Request SymptomUpdate)
    (relabel : Request XrayUpdate) (w : World) :
  let w1 := (update_symptom_handler F env change w).2 in
  let w2 := (update_xray_handler F env relabel w).2 in
  (∀ i s, symptoms w !! i = Some s →
     ∃ s', symptoms w1 !! i = Some s'
           ∧ Symptom.id s' = Symptom.id s
           ∧ Symptom.patient_id s' = Symptom.patient_id s
           ∧ Symptom.recorded_by s' = Symptom.recorded_by s
           ∧ Symptom.recorded_at s' = Symptom.recorded_at s
           ∧ (Symptom.id s ≠ params_id change → s' = s))
  ∧ length (symptoms w1) = length (symptoms w)
  ∧ (∀ i x, xray_images w !! i = Some x →
       ∃ x', xray_images w2 !! i = Some x'
             ∧ Xray.id x' = Xray.id x
             ∧ Xray.patient_id x' = Xray.patient_id x
             ∧ Xray.file_name x' = Xray.file_name x
             ∧ Xray.file_path x' = Xray.file_path x
             ∧ Xray.file_size x' = Xray.file_size x
             ∧ Xray.mime_type x' = Xray.mime_type x
             ∧ Xray.public_url x' = Xray.public_url x
             ∧ Xray.uploaded_by x' = Xray.uploaded_by x
             ∧ Xray.uploaded_at x' = Xray.uploaded_at x
             ∧ (Xray.id x ≠ params_id relabel → x' = x))
  ∧ length (xray_images w2) = length (xray_images w)
  ∧ bucket w2 = bucket w.
Proof.
  intros w1 w2.
  assert (Hs : w1 = w
               ∨ ∃ u, w1 = set_symptoms
                             (update_where (λ s, bool_decide (Symptom.id s = params_id change))
                                (apply_symptom_update (body change) (now env) u)
                                (symptoms w)) w).
  { unfold w1, update_symptom_handler.
    match goal with
    | |- context [single F ?c ?rows] => destruct (single F c rows) as [[existing|] [e|]]
    end; simpl; try by left.
    destruct (user change) as [u|]; [|by left].
    unfold update_symptoms. destruct (F (Update T_symptoms)); [by left|].
    right. exists (ReqUser.id u). simpl. by destruct (single_of _) as [[?|] [?|]]. }
  assert (Hx : w2 = w
               ∨ ∃ u, w2 = set_xray_images
                             (update_where (λ x, bool_decide (Xray.id x = params_id relabel))
                                (apply_xray_update (body relabel) (now env) u)
                                (xray_images w)) w).
  { unfold w2, update_xray_handler.
    match goal with
    | |- context [single F ?c ?rows] => destruct (single F c rows) as [[existing|] [e|]]
    end; simpl; try by left.
    destruct (user relabel) as [u|]; [|by left].
    unfold update_xray. destruct (F (Update T_xray_images)); [by left|].
    right. exists (ReqUser.id u). simpl. by destruct (single_of _) as [[?|] [?|]]. }
  clearbody w1 w2. split; [|split; [|split; [|split]]].
  - destruct Hs as [->|[u ->]]; intros i s Hi.
    + exists s. by repeat split.
    + simpl. unfold update_where. rewrite list_lookup_fmap, Hi. simpl.
      destruct (bool_decide (Symptom.id s = params_id change)) eqn:Hid.
      * eexists. split; [reflexivity|]. repeat (split; [reflexivity|]).
        intros Hne. by apply bool_decide_eq_true_1 in Hid.
      * exists s. by repeat split.
  - destruct Hs as [->|[u ->]]; [done|]. apply update_where_length.
  - destruct Hx as [->|[u ->]]; intros i x Hi.
    + exists x. by repeat split.
    + simpl. unfold update_where. rewrite list_lookup_fmap, Hi. simpl.
      destruct (bool_decide (Xray.id x = params_id relabel)) eqn:Hid.
      * eexists. split; [reflexivity|]. repeat (split; [reflexivity|]).
        intros Hne. by apply bool_decide_eq_true_1 in Hid.
      * exists x. by repeat split.
  - destruct Hx as [->|[u ->]]; [done|]. apply update_where_length.
  - by destruct Hx as [->|[u ->]].
Qed.

(** ** Validation before the handlers *)

(** X24.  A request that fails validation never reaches a handler: signup
    and signin answer 400 "Validation failed" with the validators' findings,
    and so do the patient create, list and update routes and the symptom
    record route once the token is accepted; the store is left as found.  On
    those four routes the token is asked for first, so the same request
    without a token gets 401 and not 400. *)
Theorem invalid_input_refused `{Platform} (F : Faults) (env : Env) (w : World)
    (r : Personnel.row) (findings : list FieldError)
    (account : Request SignupBody) (login : Request SigninBody)
    (new : Request PatientInput) (listing : Request unit) (change : Request PatientUpdate)
    (record : Request SymptomsInput) :
  findings ≠ [] →
  validation account = findings → validation login = findings →
  validation new = findings → validation listing = findings →
  validation change = findings → validation record = findings →
  let refused := Json 400 (ValidationBody "Validation failed"
                             "Please check your input data" findings) in
  let unauthorized := Json 401 (ErrorBody "Access token required"
                                  "Please provide a valid authentication token") in
  signup F env account w = (refused, w)
  ∧ signin F env login w = (refused, w)
  ∧ (Personnel.is_active r = true → token_of F new w r →
     create_patient F env new w = (refused, w))
  ∧ (Personnel.is_active r = true → token_of F listing w r →
     list_patients F listing w = (refused, w))
  ∧ (Personnel.is_active r = true → token_of F change w r →
     update_patient F env change w = (refused, w))
  ∧ (Personnel.is_active r = true → token_of F record w r →
     record_symptoms F env record w = (refused, w))
  ∧ (authorization new = None → create_patient F env new w = (unauthorized, w))
  ∧ (authorization listing = None → list_patients F listing w = (unauthorized, w))
  ∧ (authorization change = None → update_patient F env change w = (unauthorized, w))
  ∧ (authorization record = None → record_symptoms F env record w = (unauthorized, w)).
Proof.
  intros Hne Ha Hl Hn Hg Hc Hr refused unauthorized.
  assert (Hrefuse : ∀ B (h : Handler B) (sanitized : Request B),
            validation sanitized = findings →
            match handleValidationErrors sanitized with
            | Respond answer => (answer, w)
            | Next req' => h req' w
            end = (refused, w)).
  { intros B h sanitized Hv. rewrite handleValidationErrors_rejects; by rewrite Hv. }
  assert (Hmissing : ∀ B (h : Handler B) (req : Request B),
            authorization req = None →
            guard (authenticateToken F) h req w = (unauthorized, w)).
  { intros B h req Hnone. unfold guard, authenticateToken. by rewrite Hnone. }
  split; [|split; [|split; [|split; [|split; [|split]]]]].
  - unfold signup, validated, guard, signupValidation. by apply Hrefuse.
  - unfold signin, validated, guard, signinValidation. by apply Hrefuse.
  - intros Hact Htoken. unfold create_patient.
    rewrite (guard_authenticated F _ new w r) by done.
    unfold validated, guard, patientValidation. by apply Hrefuse.
  - intros Hact Htoken. unfold list_patients.
    rewrite (guard_authenticated F _ listing w r) by done.
    unfold validated, guard, paginationValidation. by apply Hrefuse.
  - intros Hact Htoken. unfold update_patient.
    rewrite (guard_authenticated F _ change w r) by done.
    unfold validated, guard, patientUpdateValidation. by apply Hrefuse.
  - intros Hact Htoken. unfold record_symptoms.
    rewrite (guard_authenticated F _ record w r) by done.
    unfold validated, guard, symptomValidation. by apply Hrefuse.
  - split; [|split; [|split]]; intros Hnone; by apply Hmissing.
Qed.

Lemma invalid_input_refused_witness :
  let refused := Json 400 (ValidationBody "Validation failed"
                             "Please check your input data" [sample_finding]) in
  @signup sample_platform no_faults sample_env
    (sample_invalid None (body (sample_signup "nobody"))) sample_world
  = (refused, sample_world)
  ∧ @create_patient sample_platform no_faults sample_env
      (sample_invalid (Some "Bearer nurse.jwt") sample_new_patient) sample_world
    = (refused, sample_world)
  ∧ @record_symptoms sample_platform no_faults sample_env
      (sample_invalid None (body sample_symptoms)) sample_world
    = (Json 401 (ErrorBody "Access token required"
                   "Please provide a valid authentication token"), sample_world).
Proof.
  intros refused.
  destruct (@invalid_input_refused sample_platform no_faults sample_env sample_world
              (sample_person "u-nurse" "nurse@x.com" "nurse" true) [sample_finding]
              (sample_invalid None (body (sample_signup "nobody")))
              (sample_invalid None {| si_email := "nobody"; si_password := "" |})
              (sample_invalid (Some "Bearer nurse.jwt") sample_new_patient)
              (sample_invalid (Some "Bearer nurse.jwt") ())
              (sample_invalid (Some "Bearer nurse.jwt")
                 {| up_firstName := Some "K"; up_lastName := None; up_dateOfBirth := None;
                    up_gender := None; up_phoneNumber := None; up_email := None;
                    up_address := None; up_medicalHistory := None |})
              (sample_invalid None (body sample_symptoms)))
    as (Hsignup & _ & Hcreate & _ & _ & _ & _ & _ & _ & Hrecord);
    [discriminate|reflexivity..|].
  split; [exact Hsignup|]. split; [|by apply Hrecord].
  apply Hcreate; [reflexivity|].
  split; [|split; [listed|split; [evaluated|reflexivity]]].
  exists (sample_claims "u-nurse" "nurse@x.com" "nurse"). split; [|reflexivity].
  exists "nurse.jwt". split; [reflexivity|]. split; [discriminate|reflexivity].
Defined.

(** * The client *)

Lemma toggleSymptom_elem (symptom : string) (prev : list string) (s : string) :
  bool_decide (s ∈ toggleSymptom symptom prev)
  = xorb (bool_decide (s ∈ prev)) (bool_decide (s = symptom)).
Proof.
  unfold toggleSymptom. destruct (decide (symptom ∈ prev)) as [Hin|Hin].
  - rewrite (bool_decide_eq_true_2 (symptom ∈ prev)) by done.
    destruct (decide (s = symptom)) as [->|Hne].
    + rewrite (bool_decide_eq_true_2 (symptom ∈ prev)) by done.
      rewrite (bool_decide_eq_true_2 (symptom = symptom)) by done.
      apply bool_decide_eq_false_2. by intros [? _]%list_elem_of_filter.
    + rewrite (bool_decide_eq_false_2 (s = symptom)), xorb_false_r by done.
      apply bool_decide_ext. rewrite list_elem_of_filter. tauto.
  - rewrite (bool_decide_eq_false_2 (symptom ∈ prev)) by done.
    destruct (decide (s = symptom)) as [->|Hne].
    + rewrite (bool_decide_eq_false_2 (symptom ∈ prev)) by done.
      rewrite (bool_decide_eq_true_2 (symptom = symptom)) by done.
      apply bool_decide_eq_true_2, elem_of_app. right. left.
    + rewrite (bool_decide_eq_false_2 (s = symptom)), xorb_false_r by done.
      apply bool_decide_ext. rewrite elem_of_app, list_elem_of_singleton. tauto.
Qed.

Lemma toggleSymptom_NoDup (symptom : string) (prev : list string) :
  NoDup prev → NoDup (toggleSymptom symptom prev).
Proof.
  intros Hnd. unfold toggleSymptom. case_bool_decide as Hin.
  - by apply NoDup_filter.
  - apply NoDup_app. split; [done|]. split; [|apply NoDup_singleton].
    by intros x Hx ->%list_elem_of_singleton.
Qed.

Lemma toggles_from (taps prev : list string) :
  NoDup prev →
  NoDup (foldl (λ prev symptom, toggleSymptom symptom prev) prev taps)
  ∧ ∀ s, bool_decide (s ∈ foldl (λ prev symptom, toggleSymptom symptom prev) prev taps)
         = xorb (bool_decide (s ∈ prev))
             (Nat.odd (length (filter (λ tap, tap = s) taps))).
Proof.
  revert prev. induction taps as [|tap taps IH]; intros prev Hnd.
  - split; [done|]. intros s. simpl. by rewrite xorb_false_r.
  - simpl foldl. destruct (IH (toggleSymptom tap prev)) as [Hnd' Hin].
    { by apply toggleSymptom_NoDup. }
    split; [done|]. intros s. rewrite Hin, toggleSymptom_elem.
    destruct (decide (tap = s)) as [->|Hne].
    + rewrite filter_cons_True by done. rewrite (bool_decide_eq_true_2 (s = s)) by done.
      simpl length. rewrite Nat.odd_succ, <- Nat.negb_odd.
      by destruct (bool_decide _), (Nat.odd _).
    + rewrite filter_cons_False by done.
      rewrite (bool_decide_eq_false_2 (s = tap)) by done. by rewrite xorb_false_r.
Qed.

(** X25.  However the symptom chips are pressed, the selection never holds
    a symptom twice, and a symptom is selected exactly when it has been
    pressed an odd number of times; the comorbidity chips toggle in the same
    way. *)
Theorem selection_by_parity (taps : list string) :
  NoDup (selectedSymptoms taps)
  ∧ (∀ s, s ∈ selectedSymptoms taps
          ↔ Nat.odd (length (filter (λ tap, tap = s) taps)) = true)
  ∧ ∀ c prev, toggleComorbidity c prev = toggleSymptom c prev.
Proof.
  destruct (toggles_from taps [] (NoDup_nil_2)) as [Hnd Hin].
  split; [exact Hnd|]. split; [|done]. intros s.
  rewrite <- (bool_decide_eq_true (s ∈ selectedSymptoms taps)).
  unfold selectedSymptoms. rewrite Hin.
  by rewrite (bool_decide_eq_false_2 (s ∈ [])) by (by intros ?%elem_of_nil).
Qed.

Lemma append_slash_not_empty (v : string) : String.eqb (v +:+ "/") "" = false.
Proof. by destruct v. Qed.

Lemma drop_final_slash_append (v : string) : drop_final_slash (v +:+ "/") = v.
Proof.
  induction v as [|c v IH]; [done|]. rewrite append_cons. simpl.
  rewrite IH. destruct (decide _); [|done]. by destruct v.
Qed.

(** X26.  A request sent with [withAuth] from a device that holds a token
    carries the header "Authorization: Bearer <token>", and the token the
    backend's auth middleware takes out of that header is the stored one,
    whatever Authorization header the caller passed.  Every other header goes
    out as the caller gave it, with or without [withAuth], Content-Type being
    application/json when the caller named none; and without [withAuth] the
    caller's Authorization header, or its absence, goes out as given too.
    (The token is not empty and has no space in it.) *)
Theorem apiFetch_bearer (c : Client) (path : string) (init : gmap string string)
    (token : string) :
  authToken c = Some token → token ≠ "" → spaceless token = true →
  headers (apiFetch c path init true) !! "Authorization" = Some ("Bearer " +:+ token)
  ∧ bearer (headers (apiFetch c path init true) !! "Authorization") = Some token
  ∧ headers (apiFetch c path init false) !! "Authorization" = init !! "Authorization"
  ∧ (∀ withAuth,
       headers (apiFetch c path init withAuth) !! "Content-Type"
       = Some (default "application/json" (init !! "Content-Type")))
  ∧ (∀ withAuth key,
       key ≠ "Authorization" → key ≠ "Content-Type" →
       headers (apiFetch c path init withAuth) !! key = init !! key).
Proof.
  intros Htoken Hne Hs. unfold apiFetch. rewrite Htoken.
  assert (truthy (Some token) = true) as ->.
  { simpl. apply negb_true_iff, String.eqb_neq. done. }
  simpl. split; [|split; [|split; [|split]]].
  - by rewrite lookup_insert_eq.
  - rewrite lookup_insert_eq. by apply bearer_of_header.
  - rewrite lookup_union_l; [done|]. by apply lookup_singleton_ne.
  - intros withAuth.
    assert ((init ∪ {["Content-Type" := "application/json"]}) !! "Content-Type"
            = Some (default "application/json" (init !! "Content-Type"))) as Hct.
    { rewrite lookup_union. rewrite lookup_singleton_eq.
      by destruct (init !! "Content-Type"). }
    destruct withAuth; [|done]. by rewrite lookup_insert_ne.
  - intros withAuth key Hauth Hct.
    assert ((init ∪ {["Content-Type" := "application/json"]}) !! key = init !! key)
      as Hkey.
    { rewrite lookup_union_l; [done|]. by apply lookup_singleton_ne. }
    destruct withAuth; [|done]. by rewrite lookup_insert_ne.
Qed.

Lemma apiFetch_bearer_witness :
  headers (apiFetch sample_client "patients" {[ "X-Request-Id" := "7" ]} true)
    !! "Authorization" = Some "Bearer nurse.jwt"
  ∧ bearer (headers (apiFetch sample_client "patients" {[ "X-Request-Id" := "7" ]} true)
              !! "Authorization") = Some "nurse.jwt"
  ∧ headers (apiFetch sample_client "patients" {[ "X-Request-Id" := "7" ]} false)
      !! "X-Request-Id" = Some "7".
Proof.
  destruct (apiFetch_bearer sample_client "patients" {[ "X-Request-Id" := "7" ]}
              "nurse.jwt") as (Hheader & Hbearer & _ & _ & Hother);
    [reflexivity|discriminate|reflexivity|].
  split; [exact Hheader|]. split; [exact Hbearer|].
  rewrite (Hother false "X-Request-Id") by discriminate. apply lookup_singleton_eq.
Defined.

(** X27.  One slash, and only one, joins the base URL and the path: with
    the configured URL ending in a slash, [apiFetch] sends a path to the URL
    without that slash, then a slash, then the path, whether the caller wrote
    the path with a leading slash or without.  (The configured URL has no
    blanks around it.) *)
Theorem apiFetch_url (c : Client) (base path : string) (init : gmap string string)
    (withAuth : bool) :
  EXPO_PUBLIC_API_URL c = Some (base +:+ "/") →
  trim c (base +:+ "/") = base +:+ "/" →
  starts_with_slash path = false →
  getBaseUrl c = base
  ∧ url (apiFetch c path init withAuth) = base +:+ "/" +:+ path
  ∧ url (apiFetch c ("/" +:+ path) init withAuth) = base +:+ "/" +:+ path.
Proof.
  intros Henv Htrim Hpath.
  assert (getBaseUrl c = base) as Hbase.
  { unfold getBaseUrl. rewrite Henv. simpl. rewrite Htrim, append_slash_not_empty.
    simpl. apply drop_final_slash_append. }
  split; [done|]. unfold apiFetch. rewrite Hbase, Hpath. simpl.
  by split.
Qed.

Lemma apiFetch_url_witness :
  getBaseUrl sample_client = "https://api.example"
  ∧ url (apiFetch sample_client "patients" ∅ true) = "https://api.example/patients"
  ∧ url (apiFetch sample_client "/patients" ∅ true) = "https://api.example/patients".
Proof.
  apply (apiFetch_url sample_client "https://api.example" "patients" ∅ true);
    reflexivity.
Defined.
